(** * Aura: document structuring, quality scoring and stage orchestration

    A shallow embedding of the parts of the Aura agents that the
    specification makes claims about:

    - [agents/context_validation_agent.py]: token-set similarity, section
      reconciliation, coverage and overall validity;
    - [agents/code_quality_agent.py]: the completeness metric and the
      quality gate of [validate_prompt];
    - [agents/master_agent.py]: the stage orchestrator [process_dld].

    Modelling conventions.
    - A Python [str] is a [string] whose characters are the code points
      U+0000..U+00FF.
    - A Python [float] is an exact rational ([Q]); equalities between scores
      are stated with [==].  Binary64 rounding is not modelled.
    - A Python [dict] is an association list in insertion order; a Python
      [set] is a [gset].
    - Code that may raise runs in the [result] monad; a [try/except
      Exception] block is a match on the result. *)

From Stdlib Require Import QArith Qround ZArith Lia Lqa List Ascii String Bool
  DecimalString.
From stdpp Require Import gmap strings list.

Local Open Scope string_scope.

(** ** Python strings *)

Module PyStr.

Definition ord (c : ascii) : N := N_of_ascii c.

(** [str.isspace] on one character, restricted to U+0000..U+00FF. *)
Definition isspace (c : ascii) : bool :=
  let n := ord c in
  ((9 <=? n) && (n <=? 13) || (28 <=? n) && (n <=? 32)
   || (n =? 133) || (n =? 160))%N.

(** [str.lower] on one character: A-Z and the Latin-1 capitals. *)
Definition lower_char (c : ascii) : ascii :=
  let n := ord c in
  if ((65 <=? n) && (n <=? 90)
      || (192 <=? n) && (n <=? 222) && negb (n =? 215))%N
  then ascii_of_N (n + 32) else c.

Fixpoint lower (s : string) : string :=
  match s with
  | EmptyString => EmptyString
  | String c r => String (lower_char c) (lower r)
  end.

Fixpoint upper_ascii (s : string) : string :=
  match s with
  | EmptyString => EmptyString
  | String c r =>
      let n := ord c in
      String (if ((97 <=? n) && (n <=? 122))%N then ascii_of_N (n - 32) else c)
             (upper_ascii r)
  end.

Definition is_empty (s : string) : bool :=
  match s with EmptyString => true | _ => false end.

(** [s.split()] with no separator: maximal runs of non-whitespace. *)
Fixpoint split_go (cur : string) (s : string) : list string :=
  match s with
  | EmptyString => if is_empty cur then [] else [cur]
  | String c r =>
      if isspace c
      then (if is_empty cur then split_go EmptyString r
            else cur :: split_go EmptyString r)
      else split_go (cur ++ String c EmptyString) r
  end.

Definition split (s : string) : list string := split_go EmptyString s.

(** [len(s)] *)
Definition len (s : string) : nat := String.length s.

(** [needle in haystack] *)
Fixpoint contains (needle haystack : string) : bool :=
  String.prefix needle haystack
  || match haystack with
     | EmptyString => false
     | String _ r => contains needle r
     end.

Definition nl : string := String (ascii_of_nat 10) EmptyString.

(** [sep.join(parts)] *)
Fixpoint join (sep : string) (parts : list string) : string :=
  match parts with
  | [] => EmptyString
  | [p] => p
  | p :: ps => p ++ sep ++ join sep ps
  end.

End PyStr.

(** ** Exceptions *)

Inductive exn : Type :=
| AttributeError (msg : string)
| UnboundLocalError (msg : string)
| KeyError (msg : string)
| TypeError (msg : string)
| ZeroDivisionError (msg : string)
| OtherError (msg : string).

(** [str(e)] *)
Definition exn_str (e : exn) : string :=
  match e with
  | AttributeError m | UnboundLocalError m | TypeError m
  | ZeroDivisionError m | OtherError m => m
  | KeyError k => "'" ++ k ++ "'"
  end.

Inductive result (A : Type) : Type :=
| Ok (a : A)
| Raise (e : exn).
Arguments Ok {A} a.
Arguments Raise {A} e.

Definition bind {A B} (m : result A) (f : A -> result B) : result B :=
  match m with
  | Ok a => f a
  | Raise e => Raise e
  end.

Notation "'let*' x ':=' m 'in' k" := (bind m (fun x => k))
  (at level 10, x name, m at level 100, k at level 200).

Fixpoint mapM {A B} (f : A -> result B) (l : list A) : result (list B) :=
  match l with
  | [] => Ok []
  | a :: r =>
      let* b := f a in
      let* bs := mapM f r in
      Ok (b :: bs)
  end.

(** ** Floats as rationals *)

Definition Qgeb (a b : Q) : bool := Qle_bool b a.
Definition Qgtb (a b : Q) : bool := negb (Qle_bool a b).
Definition Qltb (a b : Q) : bool := negb (Qle_bool b a).

(** [max(a, b)] returns [a] unless [b > a]; [min(a, b)] returns [a] unless
    [b < a]. *)
Definition py_max (a b : Q) : Q := if Qgtb b a then b else a.
Definition py_min (a b : Q) : Q := if Qltb b a then b else a.

(** [a / b] *)
Definition py_div (a b : Q) : result Q :=
  if Qeq_bool b 0 then Raise (ZeroDivisionError "division by zero")
  else Ok (a / b)%Q.

(** [sum(l)] *)
Definition Qsum (l : list Q) : Q := fold_left Qplus l 0%Q.

(** ** Dictionaries in insertion order *)

Module PyDict.

Definition dict (V : Type) : Type := list (string * V).

Fixpoint get {V} (k : string) (d : dict V) : option V :=
  match d with
  | [] => None
  | (k', v) :: r => if String.eqb k k' then Some v else get k r
  end.

(** [d[k] = v]: an existing key keeps its position, a new key goes last. *)
Fixpoint set {V} (k : string) (v : V) (d : dict V) : dict V :=
  match d with
  | [] => [(k, v)]
  | (k', v') :: r =>
      if String.eqb k k' then (k, v) :: r else (k', v') :: set k v r
  end.

Definition values {V} (d : dict V) : list V := map snd d.
Definition keys {V} (d : dict V) : list string := map fst d.

(** [d[k]] *)
Definition item {V} (k : string) (d : dict V) : result V :=
  match get k d with
  | Some v => Ok v
  | None => Raise (KeyError k)
  end.

End PyDict.

(** ** A backtracking matcher for the regular expressions of the agents

    Patterns are given as syntax trees.  The matcher follows the
    leftmost, greedy, backtracking discipline of Python's [re]. *)

Module Re.

Inductive regex : Type :=
| Eps
| Chr (f : ascii -> bool)
| Seq (r1 r2 : regex)
| Alt (r1 r2 : regex)
| Star (r : regex)
| Bol
| WordB.

Definition is_nl (c : ascii) : bool := (PyStr.ord c =? 10)%N.

(** [\w] on U+0000..U+00FF *)
Definition is_word (c : ascii) : bool :=
  let n := PyStr.ord c in
  ((48 <=? n) && (n <=? 57) || (65 <=? n) && (n <=? 90)
   || (97 <=? n) && (n <=? 122) || (n =? 95) || (n =? 170)
   || (n =? 178) || (n =? 179) || (n =? 181) || (n =? 185) || (n =? 186)
   || (188 <=? n) && (n <=? 190) || (192 <=? n) && (n <=? 214)
   || (216 <=? n) && (n <=? 246) || (248 <=? n))%N.

Definition is_digit (c : ascii) : bool :=
  let n := PyStr.ord c in ((48 <=? n) && (n <=? 57))%N.

Definition opt_word (o : option ascii) : bool :=
  match o with Some c => is_word c | None => false end.

Definition head (s : string) : option ascii :=
  match s with String c _ => Some c | EmptyString => None end.

Definition cont : Type := option ascii -> string -> option (option ascii * string).

Fixpoint run (r : regex) (prev : option ascii) (s : string) (k : cont)
  {struct r} : option (option ascii * string) :=
  match r with
  | Eps => k prev s
  | Chr f =>
      match s with
      | String c s' => if f c then k (Some c) s' else None
      | EmptyString => None
      end
  | Seq r1 r2 => run r1 prev s (fun p t => run r2 p t k)
  | Alt r1 r2 =>
      match run r1 prev s k with
      | Some x => Some x
      | None => run r2 prev s k
      end
  | Star r1 =>
      (fix loop (n : nat) (p : option ascii) (t : string) {struct n} :=
         match n with
         | O => k p t
         | S n' =>
             match run r1 p t
                     (fun p' t' =>
                        if (String.length t' <? String.length t)%nat
                        then loop n' p' t' else None) with
             | Some x => Some x
             | None => k p t
             end
         end) (S (String.length s)) prev s
  | Bol =>
      match prev with
      | None => k prev s
      | Some c => if is_nl c then k prev s else None
      end
  | WordB =>
      if xorb (opt_word prev) (opt_word (head s)) then k prev s else None
  end.

Definition match_at (r : regex) (prev : option ascii) (s : string)
  : option (option ascii * string) :=
  run r prev s (fun p t => Some (p, t)).

(** [re.search(r, s) is not None], scanning from the position after [prev]. *)
Fixpoint search_from (r : regex) (prev : option ascii) (s : string) : bool :=
  match match_at r prev s with
  | Some _ => true
  | None =>
      match s with
      | EmptyString => false
      | String c s' => search_from r (Some c) s'
      end
  end.

Definition search (r : regex) (s : string) : bool := search_from r None s.

(** [len(re.findall(r, s))]: non-overlapping matches, left to right.  No
    pattern of the agents matches the empty string; an empty match is
    counted and the scan moves on by one character. *)
Fixpoint findall_go (fuel : nat) (r : regex) (prev : option ascii) (s : string)
  : nat :=
  match fuel with
  | O => O
  | S fuel' =>
      match match_at r prev s with
      | Some (p, t) =>
          if (String.length t <? String.length s)%nat
          then S (findall_go fuel' r p t)
          else match s with
               | EmptyString => 1%nat
               | String c s' => S (findall_go fuel' r (Some c) s')
               end
      | None =>
          match s with
          | EmptyString => O
          | String c s' => findall_go fuel' r (Some c) s'
          end
      end
  end.

Definition findall_count (r : regex) (s : string) : nat :=
  findall_go (S (String.length s)) r None s.

(** Pattern builders *)
Definition chr (c : ascii) : regex := Chr (Ascii.eqb c).
(** a literal character under [re.IGNORECASE] *)
Definition chr_i (c : ascii) : regex :=
  Chr (fun t => Ascii.eqb (PyStr.lower_char t) (PyStr.lower_char c)).

Fixpoint lit (s : string) : regex :=
  match s with
  | EmptyString => Eps
  | String c EmptyString => chr c
  | String c r => Seq (chr c) (lit r)
  end.

Fixpoint lit_i (s : string) : regex :=
  match s with
  | EmptyString => Eps
  | String c EmptyString => chr_i c
  | String c r => Seq (chr_i c) (lit_i r)
  end.

Definition dot : regex := Chr (fun c => negb (is_nl c)).
Definition space : regex := Chr PyStr.isspace.
Definition digit : regex := Chr is_digit.
Definition plus (r : regex) : regex := Seq r (Star r).
Definition opt (r : regex) : regex := Alt r Eps.
Fixpoint alts (l : list regex) : regex :=
  match l with
  | [] => Chr (fun _ => false)
  | [r] => r
  | r :: rs => Alt r (alts rs)
  end.
Fixpoint seqs (l : list regex) : regex :=
  match l with
  | [] => Eps
  | [r] => r
  | r :: rs => Seq r (seqs rs)
  end.

End Re.

(** ** agents/context_validation_agent.py *)

Module ContextValidation.

Local Open Scope Q_scope.

(** [@dataclass class DLDSection] *)
Record DLDSection : Type := {
  title : string;
  content : string;
  section_type : string;
  confidence : Q;
  extracted_entities : list string
}.

(** [self.required_sections]: keywords and weight per required type *)
Record section_info : Type := { keywords : list string; weight : Q }.

Definition required_sections : PyDict.dict section_info := [
  ("system_overview",
   {| keywords := ["system"; "overview"; "architecture"; "topology"];
      weight := 0.2 |});
  ("requirements",
   {| keywords := ["requirements"; "specifications"; "constraints"];
      weight := 0.25 |});
  ("interfaces",
   {| keywords := ["interface"; "protocol"; "api"; "connectivity"];
      weight := 0.2 |});
  ("performance",
   {| keywords := ["performance"; "kpi"; "latency"; "throughput"; "capacity"];
      weight := 0.15 |});
  ("security",
   {| keywords := ["security"; "authentication"; "encryption"; "access"];
      weight := 0.1 |});
  ("implementation",
   {| keywords := ["implementation"; "deployment"; "configuration"];
      weight := 0.1 |})
].

(** [self.domain_entities] *)
Definition domain_entities : PyDict.dict (list string) := [
  ("network_functions",
   ["AMF"; "SMF"; "UPF"; "PCF"; "AUSF"; "UDM"; "NRF"; "NSSF"]);
  ("interfaces",
   ["N1"; "N2"; "N3"; "N4"; "N6"; "N8"; "N11"; "N15"; "N22"; "Xn"; "F1"]);
  ("protocols", ["NAS"; "NGAP"; "PFCP"; "HTTP/2"; "SBI"; "SCTP"; "GTP"]);
  ("frequency_bands",
   ["FR1"; "FR2"; "sub6"; "mmWave"; "n1"; "n3"; "n7"; "n28"; "n78"]);
  ("technologies",
   ["5G NR"; "LTE"; "NSA"; "SA"; "MIMO"; "beamforming"; "carrier aggregation"])
].

(** The three dictionaries that the validation steps hand to each other. *)
Record structure_result : Type := {
  sections : list DLDSection;
  found_domain_entities : PyDict.dict (list string)
}.

Record missing_info : Type := {
  missing_sections : list string;
  missing_weight : Q;
  coverage_score : Q
}.

Record consistency_result : Type := {
  inconsistencies : list string;
  consistency_score : Q;
  frequency_analysis : PyDict.dict nat
}.

(** [_extract_domain_entities]: an entity is found when
    [\b<entity.lower()>\b] occurs in the lower-cased content; a class is
    reported only with the tokens found, and only if there is one. *)
Definition entity_found (content_lower : string) (entity : string) : bool :=
  Re.search (Re.seqs [Re.WordB; Re.lit (PyStr.lower entity); Re.WordB])
            content_lower.

Definition extract_step (content_lower : string)
  (found_entities : PyDict.dict (list string))
  (item : string * list string) : PyDict.dict (list string) :=
  let '(entity_type, entities) := item in
  match filter (entity_found content_lower) entities with
  | [] => found_entities
  | found => PyDict.set entity_type found found_entities
  end.

Definition _extract_domain_entities (content : string)
  : PyDict.dict (list string) :=
  let content_lower := PyStr.lower content in
  fold_left (extract_step content_lower) domain_entities [].

(** [_calculate_content_similarity] *)
Definition words (content : string) : gset string :=
  list_to_set (PyStr.split (PyStr.lower content)).

Definition _calculate_content_similarity (content1 content2 : string) : Q :=
  let words1 := words content1 in
  let words2 := words content2 in
  if bool_decide (words1 = ∅) || bool_decide (words2 = ∅) then 0
  else
    let intersection := size (words1 ∩ words2) in
    let union := size (words1 ∪ words2) in
    if (0 <? union)%nat
    then inject_Z (Z.of_nat intersection) / inject_Z (Z.of_nat union)
    else 0.

(** [section._replace(title=...)]: [DLDSection] is a dataclass, not a named
    tuple, so the attribute lookup fails. *)
Definition _replace (section : DLDSection) (new_title : string)
  : result DLDSection :=
  Raise (AttributeError "'DLDSection' object has no attribute '_replace'").

(** [list(set(a + b))] *)
Definition union_entities (a b : list string) : list string :=
  elements (list_to_set (a ++ b) : gset string).

Definition merged_section (existing section : DLDSection) : DLDSection :=
  {| title := if (PyStr.len (title section) <? PyStr.len (title existing))%nat
              then title existing else title section;
     content := content existing ++ PyStr.nl ++ PyStr.nl ++ content section;
     section_type := section_type section;
     confidence := py_max (confidence existing) (confidence section);
     extracted_entities :=
       union_entities (extracted_entities existing)
                      (extracted_entities section) |}.

(** One iteration of the loop of [_merge_sections]. *)
Definition merge_step (merged : PyDict.dict DLDSection) (section : DLDSection)
  : result (PyDict.dict DLDSection) :=
  let key := section_type section in
  match PyDict.get key merged with
  | Some existing =>
      if Qgtb (_calculate_content_similarity (content existing)
                                              (content section)) 0.7
      then Ok (PyDict.set key (merged_section existing section) merged)
      else
        let new_title := title section ++ " (Alternative)" in
        let* alt := _replace section new_title in
        Ok (PyDict.set (key ++ "_alt") alt merged)
  | None => Ok (PyDict.set key section merged)
  end.

Fixpoint merge_loop (merged : PyDict.dict DLDSection) (l : list DLDSection)
  : result (PyDict.dict DLDSection) :=
  match l with
  | [] => Ok merged
  | section :: rest =>
      let* merged' := merge_step merged section in
      merge_loop merged' rest
  end.

Definition _merge_sections (l : list DLDSection) : result (list DLDSection) :=
  let* merged := merge_loop [] l in
  Ok (PyDict.values merged).

(** [_detect_missing_information] *)
Definition _detect_missing_information (sr : structure_result)
  : result missing_info :=
  let found_sections : gset string :=
    list_to_set (map section_type (sections sr)) in
  let required : gset string := list_to_set (PyDict.keys required_sections) in
  let missing := elements (required ∖ found_sections) in
  let* weights :=
    mapM (fun section =>
            let* info := PyDict.item section required_sections in
            Ok (weight info))
         missing in
  let mw := Qsum weights in
  Ok {| missing_sections := missing;
        missing_weight := mw;
        coverage_score := 1 - mw |}.

(** [_verify_consistency] *)
Definition contradiction_patterns : list (Re.regex * Re.regex) := [
  (Re.lit_i "not supported", Re.lit_i "supported");
  (Re.lit_i "mandatory", Re.lit_i "optional");
  (Re.lit_i "synchronous", Re.lit_i "asynchronous")
].

Definition frequency_bands : list string :=
  match PyDict.get "frequency_bands" domain_entities with
  | Some l => l
  | None => []
  end.

Definition _verify_consistency (sr : structure_result) : consistency_result :=
  let frequency_mentions :=
    fold_left
      (fun fm section =>
         let content_lower := PyStr.lower (content section) in
         fold_left
           (fun fm band =>
              if PyStr.contains (PyStr.lower band) content_lower
              then PyDict.set band
                     (S (match PyDict.get band fm with
                         | Some n => n | None => O end)) fm
              else fm)
           frequency_bands fm)
      (sections sr) [] in
  let found :=
    flat_map
      (fun section =>
         flat_map
           (fun '(pattern1, pattern2) =>
              if Re.search pattern1 (content section)
                 && Re.search pattern2 (content section)
              then ["Potential contradiction in section '"
                      ++ title section ++ "'"]
              else [])
           contradiction_patterns)
      (sections sr) in
  {| inconsistencies := found;
     consistency_score :=
       py_max 0 (1 - inject_Z (Z.of_nat (List.length found)) * 0.1);
     frequency_analysis := frequency_mentions |}.

(** [_calculate_overall_validity] *)
Definition _calculate_overall_validity (sr : structure_result)
  (mi : missing_info) (cr : consistency_result) : bool :=
  let coverage := coverage_score mi in
  let consistency := consistency_score cr in
  let has_domain_entities :=
    (0 <? List.length (found_domain_entities sr))%nat in
  Qgeb coverage 0.7 && Qgeb consistency 0.7 && has_domain_entities.

(** The checking steps of [validate_dld] on an analysed document. *)
Definition is_valid (sr : structure_result) : result bool :=
  let* mi := _detect_missing_information sr in
  let cr := _verify_consistency sr in
  Ok (_calculate_overall_validity sr mi cr).

End ContextValidation.

(** ** agents/code_quality_agent.py *)

Module CodeQuality.

Local Open Scope Q_scope.

Inductive QualityMetric : Type :=
| COMPLETENESS
| TECHNICAL_ACCURACY
| CURSOR_AI_COMPATIBILITY
| CLARITY
| SPECIFICITY
| ACTIONABILITY.

(** [metric.value] *)
Definition metric_value (m : QualityMetric) : string :=
  match m with
  | COMPLETENESS => "completeness"
  | TECHNICAL_ACCURACY => "technical_accuracy"
  | CURSOR_AI_COMPATIBILITY => "cursor_ai_compatibility"
  | CLARITY => "clarity"
  | SPECIFICITY => "specificity"
  | ACTIONABILITY => "actionability"
  end.

Record QualityAssessment : Type := {
  metric : QualityMetric;
  score : Q;
  details : string;
  suggestions : list string
}.

Record ValidationResult : Type := {
  overall_score : Q;
  assessments : list QualityAssessment;
  is_valid : bool;
  critical_issues : list string;
  improvement_suggestions : list string
}.

(** The reference context [dld_context]: a dictionary that may lack the key
    ["sections"]; each section is a dictionary read with
    [.get("title", "")] and [.get("content", "")]. *)
Record dld_section : Type := {
  sec_title : option string;
  sec_content : option string
}.

Record dld_context : Type := { ctx_sections : option (list dld_section) }.

(** The dictionary returned by [validate_prompt]; a field is [None] when
    the key is absent (or, for [validation_result], holds Python's [None]). *)
Record response : Type := {
  success : bool;
  error : option string;
  quality_score : Q;
  validation_result : option ValidationResult;
  detailed_scores : option (PyDict.dict Q);
  recommendations : option (list string)
}.

(** *** Number formatting used in the detail strings *)

Definition str_of_nat (n : nat) : string :=
  DecimalString.NilZero.string_of_uint (Nat.to_uint n).

Definition round_half_even (q : Q) : Z :=
  let f := Qfloor q in
  let d := q - inject_Z f in
  if Qltb d (1 # 2) then f
  else if Qgtb d (1 # 2) then (f + 1)%Z
  else if Z.even f then f else (f + 1)%Z.

(** [f"{x:.2%}"] for [x >= 0] *)
Definition fmt_pct2 (x : Q) : string :=
  let r := Z.to_nat (round_half_even (x * 10000)) in
  let frac := (r mod 100)%nat in
  str_of_nat (r / 100) ++ "."
    ++ (if (frac <? 10)%nat then "0" else "") ++ str_of_nat frac ++ "%".

(** *** [self.domain_patterns] (every pattern is compiled with
    [re.IGNORECASE]) *)

Definition units (alternatives : list string) : Re.regex :=
  Re.seqs [Re.plus Re.digit; Re.opt (Re.chr "."); Re.Star Re.digit;
           Re.Star Re.space; Re.alts (map Re.lit_i alternatives)].

(** the letter U+03BC of the pattern, which under [re.IGNORECASE] also
    matches the micro sign U+00B5 *)
Definition mu : Re.regex := Re.Chr (fun c => (PyStr.ord c =? 181)%N).

Definition bounded (alternatives : list Re.regex) : Re.regex :=
  Re.seqs [Re.WordB; Re.alts alternatives; Re.WordB].

Definition domain_patterns : PyDict.dict (list Re.regex) := [
  ("5g_keywords",
   map Re.lit_i
     ["gNodeB"; "5G NR"; "5GC"; "AMF"; "SMF"; "UPF"; "NGAP"; "NAS";
      "RRC"; "PDCP"; "RLC"; "MAC"; "PHY"; "beamforming"; "MIMO";
      "carrier aggregation"; "network slicing"; "latency"; "URLLC"]);
  ("protocol_patterns",
   [bounded
      (Re.seqs [Re.chr_i "N";
                Re.Chr (fun c => (49 <=? PyStr.ord c)%N && (PyStr.ord c <=? 57)%N);
                Re.opt Re.digit]
       :: map Re.lit_i ["Xn"; "F1"; "E1"; "NG"; "S1"; "X2"]);
    bounded (map Re.lit_i ["NGAP"; "NAS"; "RRC"; "PDCP"; "RLC"; "GTP"; "SCTP"]);
    bounded [Re.lit_i "FR1"; Re.lit_i "FR2";
             Re.seqs [Re.lit_i "sub"; Re.opt (Re.chr "-"); Re.chr "6"];
             Re.lit_i "mmWave"];
    bounded (map Re.lit_i ["NSA"; "SA"; "EN-DC"])]);
  ("technical_units",
   [units ["MHz"; "GHz"; "kHz"];
    units ["Mbps"; "Gbps"; "kbps"];
    Re.seqs [Re.plus Re.digit; Re.opt (Re.chr "."); Re.Star Re.digit;
             Re.Star Re.space;
             Re.alts [Re.lit_i "ms"; Re.Seq mu (Re.chr_i "s"); Re.lit_i "ns"]];
    units ["dB"; "dBm"; "dBi"];
    units ["%"; "percent"]])
].

(** *** Helper methods *)

(** [_has_section]: the three patterns are built with f-strings, so
    [{1,6}] is the tuple [(1, 6)] and the first pattern is
    [#(1, 6)\s*<name>]; all are searched with
    [re.IGNORECASE | re.MULTILINE]. *)
Definition has_section_patterns (section_name : string) : list Re.regex := [
  Re.seqs [Re.lit_i "#1, 6"; Re.Star Re.space; Re.lit_i section_name];
  Re.seqs [Re.WordB; Re.lit_i section_name; Re.WordB; Re.Star Re.dot;
           Re.chr ":"];
  Re.seqs [Re.Bol; Re.lit_i (PyStr.upper_ascii section_name)]
].

Definition _has_section (prompt section_name : string) : bool :=
  existsb (fun pattern => Re.search pattern prompt)
          (has_section_patterns section_name).

(** [_prompt_addresses_section] *)
Definition _prompt_addresses_section (prompt section_title section_content : string)
  : bool :=
  let keywords :=
    (PyStr.split section_title
       ++ firstn 10 (PyStr.split section_content))%list in
  let keywords :=
    map PyStr.lower (filter (fun word => (3 <? PyStr.len word)%nat) keywords) in
  let prompt_lower := PyStr.lower prompt in
  let matches :=
    List.length (filter (fun keyword => PyStr.contains keyword prompt_lower)
                        keywords) in
  Qgeb (inject_Z (Z.of_nat matches))
       (py_max 2 (inject_Z (Z.of_nat (List.length keywords)) * 0.3)).

(** [_assess_domain_coverage] *)
Definition domain_weights : PyDict.dict Q :=
  [("5g_keywords", 0.4); ("protocol_patterns", 0.3); ("technical_units", 0.3)].

Definition category_score (prompt : string) (patterns : list Re.regex)
  : result Q :=
  let found_count :=
    fold_left (fun n pattern => (n + Re.findall_count pattern prompt)%nat)
              patterns O in
  let expected_count := (List.length patterns * 2)%nat in
  let* ratio := py_div (inject_Z (Z.of_nat found_count))
                       (inject_Z (Z.of_nat expected_count)) in
  Ok (py_min ratio 1).

Fixpoint domain_coverage_loop (prompt : string)
  (items : PyDict.dict (list Re.regex)) (total_score : Q) : result Q :=
  match items with
  | [] => Ok total_score
  | (category, patterns) :: rest =>
      let* c := category_score prompt patterns in
      let* w := PyDict.item category domain_weights in
      domain_coverage_loop prompt rest (total_score + c * w)
  end.

Definition _assess_domain_coverage (prompt : string) : result Q :=
  domain_coverage_loop prompt domain_patterns 0.

(** *** [_verify_prompt_completeness] *)

Definition required_markers : list string :=
  ["context"; "requirements"; "constraints"; "task"].

(** the first loop: the markers found, and 0.2 added per marker found *)
Definition found_markers (prompt : string) : list string :=
  filter (_has_section prompt) required_markers.

Definition marker_score (prompt : string) : Q :=
  fold_left (fun score _ => score + 0.2) (found_markers prompt) 0.

Definition get_or_empty (o : option string) : string :=
  match o with Some s => s | None => EmptyString end.

Definition covered_sections (prompt : string) (dld_sections : list dld_section)
  : nat :=
  List.length
    (filter (fun section =>
               _prompt_addresses_section prompt
                 (PyStr.lower (get_or_empty (sec_title section)))
                 (PyStr.lower (get_or_empty (sec_content section))))
            dld_sections).

(** reading the local [coverage_ratio], which is bound only inside
    [if total_requirements > 0] *)
Definition read_coverage_ratio (v : option Q) : result Q :=
  match v with
  | Some q => Ok q
  | None =>
      Raise (UnboundLocalError
        "cannot access local variable 'coverage_ratio' where it is not associated with a value")
  end.

Definition _verify_prompt_completeness (prompt : string) (ctx : dld_context)
  : result QualityAssessment :=
  let found_sections := found_markers prompt in
  let score := marker_score prompt in
  let details := ["Found sections: " ++ PyStr.join ", " found_sections] in
  let dld_sections :=
    match ctx_sections ctx with Some l => l | None => [] end in
  let total_requirements := List.length dld_sections in
  let '(coverage_ratio, score, details) :=
    if (0 <? total_requirements)%nat
    then
      let covered_requirements := covered_sections prompt dld_sections in
      let ratio := inject_Z (Z.of_nat covered_requirements)
                   / inject_Z (Z.of_nat total_requirements) in
      (Some ratio, score + ratio * 0.4,
       (details ++ ["Requirement coverage: " +:+ str_of_nat covered_requirements
                      +:+ "/" +:+ str_of_nat total_requirements
                      +:+ " (" +:+ fmt_pct2 ratio +:+ ")"])%list)
    else (None, score, details) in
  let* domain_coverage := _assess_domain_coverage prompt in
  let score := score + domain_coverage * 0.2 in
  let details :=
    (details ++ ["5G domain coverage: " +:+ fmt_pct2 domain_coverage])%list in
  let missing_sections : gset string :=
    list_to_set required_markers ∖ list_to_set found_sections in
  let suggestions :=
    if bool_decide (missing_sections = ∅) then []
    else ["Add missing sections: "
            ++ PyStr.join ", " (elements missing_sections)] in
  let* ratio := read_coverage_ratio coverage_ratio in
  let suggestions :=
    if Qltb ratio 0.8
    then (suggestions ++ ["Increase coverage of DLD requirements"])%list
    else suggestions in
  let suggestions :=
    if Qltb domain_coverage 0.6
    then (suggestions ++ ["Include more 5G-specific technical details"])%list
    else suggestions in
  Ok {| metric := COMPLETENESS;
        score := py_min score 1;
        details := PyStr.join "; " details;
        suggestions := suggestions |}.

(** *** Aggregation *)

Definition metric_weight (m : QualityMetric) : Q :=
  match m with
  | COMPLETENESS => 0.25
  | TECHNICAL_ACCURACY => 0.25
  | CURSOR_AI_COMPATIBILITY => 0.20
  | CLARITY => 0.10
  | SPECIFICITY => 0.10
  | ACTIONABILITY => 0.10
  end.

Definition _calculate_overall_score (l : list QualityAssessment) : Q :=
  match l with
  | [] => 0
  | _ =>
      let '(total_score, total_weight) :=
        fold_left
          (fun '(ts, tw) assessment =>
             let w := metric_weight (metric assessment) in
             (ts + score assessment * w, tw + w))
          l (0, 0) in
      if Qgtb total_weight 0 then total_score / total_weight else 0
  end.

Definition _identify_critical_issues (l : list QualityAssessment) : list string :=
  map (fun assessment =>
         "Critical issue in " ++ metric_value (metric assessment) ++ ": "
           ++ details assessment)
      (filter (fun assessment => Qltb (score assessment) 0.5) l).

Fixpoint unique (seen : list string) (l : list string) : list string :=
  match l with
  | [] => []
  | s :: r =>
      if existsb (String.eqb s) seen then unique seen r
      else s :: unique (s :: seen) r
  end.

Definition _generate_improvement_suggestions (l : list QualityAssessment)
  : list string :=
  unique [] (flat_map suggestions l).

(** *** [validate_prompt]

    The five further metrics are lexical scorers of the prompt on which
    nothing below depends; they are parameters, free to raise. *)
Section ValidatePrompt.

Variable _confirm_technical_accuracy :
  string -> dld_context -> result QualityAssessment.
Variables _verify_cursor_ai_compatibility _assess_clarity _assess_specificity
  _assess_actionability : string -> result QualityAssessment.

Definition all_assessments (generated_prompt : string) (ctx : dld_context)
  : result (list QualityAssessment) :=
  let* completeness_assessment :=
    _verify_prompt_completeness generated_prompt ctx in
  let* accuracy_assessment :=
    _confirm_technical_accuracy generated_prompt ctx in
  let* compatibility_assessment :=
    _verify_cursor_ai_compatibility generated_prompt in
  let* clarity_assessment := _assess_clarity generated_prompt in
  let* specificity_assessment := _assess_specificity generated_prompt in
  let* actionability_assessment := _assess_actionability generated_prompt in
  Ok [completeness_assessment; accuracy_assessment; compatibility_assessment;
      clarity_assessment; specificity_assessment; actionability_assessment].

Definition validate_prompt (generated_prompt : string) (ctx : dld_context)
  (quality_threshold : Q) : response :=
  match all_assessments generated_prompt ctx with
  | Ok l =>
      let overall := _calculate_overall_score l in
      let vr :=
        {| overall_score := overall;
           assessments := l;
           is_valid := Qgeb overall quality_threshold;
           critical_issues := _identify_critical_issues l;
           improvement_suggestions := _generate_improvement_suggestions l |} in
      {| success := true;
         error := None;
         quality_score := overall;
         validation_result := Some vr;
         detailed_scores :=
           Some (fold_left
                   (fun d a => PyDict.set (metric_value (metric a)) (score a) d)
                   l []);
         recommendations := Some (improvement_suggestions vr) |}
  | Raise e =>
      {| success := false;
         error := Some (exn_str e);
         quality_score := 0;
         validation_result := None;
         detailed_scores := None;
         recommendations := None |}
  end.

End ValidatePrompt.

End CodeQuality.

(** ** agents/master_agent.py *)

Module Master.

Local Open Scope Q_scope.

(** Values held in the [Dict[str, Any]] payloads. *)
#[local] Unset Elimination Schemes.
Inductive pyval : Type :=
| VNone
| VBool (b : bool)
| VNum (q : Q)
| VStr (s : string)
| VList (l : list pyval)
| VDict (d : list (string * pyval)).
#[local] Set Elimination Schemes.

Definition pydict : Type := PyDict.dict pyval.

(** truth value of an object *)
Definition truthy (v : pyval) : bool :=
  match v with
  | VNone => false
  | VBool b => b
  | VNum q => negb (Qeq_bool q 0)
  | VStr s => negb (PyStr.is_empty s)
  | VList l => match l with [] => false | _ => true end
  | VDict d => match d with [] => false | _ => true end
  end.

(** [v < threshold] for a float threshold *)
Definition lt_float (v : pyval) (threshold : Q) : result bool :=
  match v with
  | VNum q => Ok (Qltb q threshold)
  | VBool b => Ok (Qltb (if b then 1 else 0) threshold)
  | _ => Raise (TypeError "'<' not supported between these instances")
  end.

(** [d[k]] on a value that should be a dictionary *)
Definition subscript (v : pyval) (k : string) : result pyval :=
  match v with
  | VDict d => PyDict.item k d
  | _ => Raise (TypeError "object is not subscriptable")
  end.

(** The sub-agent calls that the orchestrator makes, in a ghost trace. *)
Inductive stage : Type :=
| ContextValidation
| PromptGeneration
| QualityAssurance
| LLMIntegration
| OutputProcessing
| FeedbackLoop.

(** The long-lived [MasterAgent] object: its two instance dictionaries, the
    ghost trace of sub-agent calls and the number of clock readings. *)
Record master : Type := {
  pipeline_state : pydict;
  execution_metrics : pydict;
  calls : list stage;
  ticks : nat
}.

Section Orchestrator.

(** The collaborators: the state of the sub-agents and of the outside world,
    the clock, the rendering of floats, and the six sub-agent entry points.
    Each returns a dictionary or raises. *)
Variable world : Type.
Variable time_time : nat -> Q.
Variable float_str : Q -> string.
Variable validate_dld : world -> pyval -> pyval -> world * result pydict.
Variable generate_prompt :
  world -> pyval -> pyval -> pyval -> world * result pydict.
Variable validate_prompt :
  world -> pyval -> pyval -> pyval -> world * result pydict.
Variable optimize_prompt :
  world -> pyval -> pyval -> string -> world * result pydict.
Variable process_output :
  world -> pyval -> pyval -> pyval -> world * result pydict.
Variable analyze_performance :
  world -> pydict -> pydict -> world * result pydict.

Definition state : Type := master * world.
Definition M (A : Type) : Type := state -> state * result A.

Definition ret {A} (a : A) : M A := fun s => (s, Ok a).
Definition raise {A} (e : exn) : M A := fun s => (s, Raise e).
Definition mbind {A B} (m : M A) (f : A -> M B) : M B :=
  fun s => match m s with
           | (s', Ok a) => f a s'
           | (s', Raise e) => (s', Raise e)
           end.
Definition lift {A} (r : result A) : M A := fun s => (s, r).
(** [try: body except Exception as e: handler(e)] *)
Definition try_except {A} (body : M A) (handler : exn -> M A) : M A :=
  fun s => match body s with
           | (s', Ok a) => (s', Ok a)
           | (s', Raise e) => handler e s'
           end.

Notation "'do' x <- m ; k" := (mbind m (fun x => k))
  (at level 10, x name, m at level 100, k at level 200).
Notation "'do_' m ; k" := (mbind m (fun _ => k))
  (at level 10, m at level 100, k at level 200).

(** [time.time()] *)
Definition now : M Q :=
  fun '(a, w) =>
    (({| pipeline_state := pipeline_state a;
         execution_metrics := execution_metrics a;
         calls := calls a;
         ticks := S (ticks a) |}, w), Ok (time_time (ticks a))).

(** [self.pipeline_state = d] *)
Definition assign_pipeline_state (d : pydict) : M unit :=
  fun '(a, w) =>
    (({| pipeline_state := d;
         execution_metrics := execution_metrics a;
         calls := calls a;
         ticks := ticks a |}, w), Ok tt).

(** [self.pipeline_state[k] = v] *)
Definition store (k : string) (v : pyval) : M unit :=
  fun '(a, w) =>
    (({| pipeline_state := PyDict.set k v (pipeline_state a);
         execution_metrics := execution_metrics a;
         calls := calls a;
         ticks := ticks a |}, w), Ok tt).

(** [self.execution_metrics[k] = v] *)
Definition store_metric (k : string) (v : pyval) : M unit :=
  fun '(a, w) =>
    (({| pipeline_state := pipeline_state a;
         execution_metrics := PyDict.set k v (execution_metrics a);
         calls := calls a;
         ticks := ticks a |}, w), Ok tt).

(** [self.pipeline_state[k]] *)
Definition load (k : string) : M pyval :=
  fun '(a, w) => ((a, w), PyDict.item k (pipeline_state a)).

(** [self.pipeline_state[k1][k2]] *)
Definition load2 (k1 k2 : string) : M pyval :=
  do v <- load k1; lift (subscript v k2).

Definition get_state : M master := fun '(a, w) => ((a, w), Ok a).

(** a call of a sub-agent entry point *)
Definition call (st : stage) (f : world -> world * result pydict) : M pydict :=
  fun '(a, w) =>
    let '(w', r) := f w in
    (({| pipeline_state := pipeline_state a;
         execution_metrics := execution_metrics a;
         calls := (calls a ++ [st])%list;
         ticks := ticks a |}, w'), r).

Definition _execute_context_validation : M pydict :=
  do dld_content <- load "dld_content";
  do project_path <- load "project_path";
  call ContextValidation (fun w => validate_dld w dld_content project_path).

Definition _execute_prompt_generation : M pydict :=
  do validated_dld <- load2 "validation_result" "validated_dld";
  do project_path <- load "project_path";
  do output_format <- load "output_format";
  call PromptGeneration
       (fun w => generate_prompt w validated_dld project_path output_format).

Definition _execute_quality_assurance : M pydict :=
  do generated_prompt <- load2 "generation_result" "generated_prompt";
  do dld_context <- load2 "validation_result" "validated_dld";
  do quality_threshold <- load "quality_threshold";
  call QualityAssurance
       (fun w => validate_prompt w generated_prompt dld_context
                                 quality_threshold).

Definition _execute_llm_integration : M pydict :=
  do base_prompt <- load2 "generation_result" "generated_prompt";
  do quality_feedback <- load "quality_result";
  call LLMIntegration
       (fun w => optimize_prompt w base_prompt quality_feedback "gpt-5").

Definition _execute_output_processing : M pydict :=
  do optimized_prompt <- load2 "llm_result" "optimized_prompt";
  do output_format <- load "output_format";
  do validation_results <- load "quality_result";
  call OutputProcessing
       (fun w => process_output w optimized_prompt output_format
                                validation_results).

Definition _execute_feedback_loop : M pydict :=
  do a <- get_state;
  call FeedbackLoop
       (fun w => analyze_performance w (pipeline_state a)
                                     (execution_metrics a)).

(** [a - b] on floats *)
Definition sub_float (a : Q) (b : pyval) : result Q :=
  match b with
  | VNum q => Ok (a - q)
  | VBool x => Ok (a - (if x then 1 else 0))
  | _ => Raise (TypeError "unsupported operand type(s) for -")
  end.

(** [_create_error_response]: the clock is read for the left operand and
    again for the default of [.get("start_time", ...)]. *)
Definition _create_error_response (error_message : string) (context : pydict)
  : M pydict :=
  do t <- now;
  do a <- get_state;
  do t' <- now;
  let start :=
    match PyDict.get "start_time" (pipeline_state a) with
    | Some v => v
    | None => VNum t'
    end in
  do elapsed <- lift (sub_float t start);
  ret [("success", VBool false);
       ("error_message", VStr error_message);
       ("quality_score", VNum 0);
       ("validation_results", VDict context);
       ("execution_time", VNum elapsed)].

(** [str(x)] of the score held by the quality result *)
Definition value_str (v : pyval) : string :=
  match v with
  | VNum q => float_str q
  | VBool true => "True"
  | VBool false => "False"
  | VNone => "None"
  | VStr s => s
  | VList _ => "[...]"
  | VDict _ => "{...}"
  end.

Definition pipeline_body (start_time quality_threshold : Q)
  (include_feedback : bool) : M pydict :=
  (* Stage 1: Context Validation *)
  do validation_result <- _execute_context_validation;
  do_ store "validation_result" (VDict validation_result);
  do ok <- lift (PyDict.item "success" validation_result);
  if negb (truthy ok)
  then _create_error_response "Context validation failed" validation_result
  else
  (* Stage 2: Prompt Generation *)
  do generation_result <- _execute_prompt_generation;
  do_ store "generation_result" (VDict generation_result);
  do ok <- lift (PyDict.item "success" generation_result);
  if negb (truthy ok)
  then _create_error_response "Prompt generation failed" generation_result
  else
  (* Stage 3: Code Quality Assurance *)
  do quality_result <- _execute_quality_assurance;
  do_ store "quality_result" (VDict quality_result);
  do quality_score <- lift (PyDict.item "quality_score" quality_result);
  do below <- lift (lt_float quality_score quality_threshold);
  if below
  then
    do quality_score <- lift (PyDict.item "quality_score" quality_result);
    _create_error_response
      ("Quality threshold not met: " +:+ value_str quality_score +:+ " < "
         +:+ float_str quality_threshold)
      quality_result
  else
  (* Stage 4: LLM Integration *)
  do llm_result <- _execute_llm_integration;
  do_ store "llm_result" (VDict llm_result);
  (* Stage 5: Prompt Output Processing *)
  do output_result <- _execute_output_processing;
  do_ store "output_result" (VDict output_result);
  (* Stage 6: Feedback Loop (if enabled) *)
  do feedback_result <-
    (if include_feedback
     then
       do feedback_result <- _execute_feedback_loop;
       do_ store "feedback_result" (VDict feedback_result);
       ret (VDict feedback_result)
     else ret VNone);
  (* Compile final result *)
  do t <- now;
  let total_time := t - start_time in
  do_ store_metric "total_time" (VNum total_time);
  do final_prompt <- lift (PyDict.item "final_prompt" output_result);
  do quality_score <- lift (PyDict.item "quality_score" quality_result);
  do metrics <- lift (PyDict.item "metrics" generation_result);
  do a <- get_state;
  let result :=
    [("success", VBool true);
     ("prompt", final_prompt);
     ("quality_score", quality_score);
     ("validation_results", VDict validation_result);
     ("generation_metrics", metrics);
     ("execution_time", VNum total_time);
     ("pipeline_state", VDict (pipeline_state a))] in
  ret (if truthy feedback_result
       then PyDict.set "feedback_metrics" feedback_result result
       else result).

Definition process_dld (dld_content : string) (project_path : pyval)
  (output_format : string) (quality_threshold : Q) (include_feedback : bool)
  : M pydict :=
  do start_time <- now;
  (* Initialize pipeline state *)
  do_ assign_pipeline_state
        [("dld_content", VStr dld_content);
         ("project_path", project_path);
         ("output_format", VStr output_format);
         ("quality_threshold", VNum quality_threshold);
         ("include_feedback", VBool include_feedback);
         ("start_time", VNum start_time)];
  try_except
    (pipeline_body start_time quality_threshold include_feedback)
    (fun e =>
       do_ now;
       _create_error_response (exn_str e) []).

(** [get_pipeline_status]["pipeline_state"] *)
Definition get_pipeline_status : M pydict :=
  do a <- get_state;
  ret [("pipeline_state", VDict (pipeline_state a));
       ("execution_metrics", VDict (execution_metrics a))].

(** [MasterAgent.__init__] *)
Definition init : master :=
  {| pipeline_state := []; execution_metrics := []; calls := []; ticks := O |}.

End Orchestrator.

(** the sub-agent calls of a complete run, in order *)
Definition all_stages (include_feedback : bool) : list stage :=
  [ContextValidation; PromptGeneration; QualityAssurance; LLMIntegration;
   OutputProcessing] ++ (if include_feedback then [FeedbackLoop] else []).

(** [LLMIntegration.optimize_prompt] when no client was configured *)
Definition optimize_prompt_no_client (base_prompt : pyval) : pydict :=
  [("success", VBool false);
   ("error", VStr "OpenAI client not initialized");
   ("optimized_prompt", base_prompt)].

End Master.

(** ** Example documents *)

Module Examples.

Import ContextValidation.

Definition reqs_header : DLDSection :=
  {| title := "Reqs";
     content := "the system shall support handover now";
     section_type := "requirements";
     confidence := 0.8;
     extracted_entities := ["AMF"; "Xn"] |}.

Definition reqs_keyword : DLDSection :=
  {| title := "Extracted Requirements";
     content := "The system shall support handover";
     section_type := "requirements";
     confidence := 0.6;
     extracted_entities := ["Xn"; "SMF"] |}.

Definition reqs_other : DLDSection :=
  {| title := "Constraints";
     content := "power budget and cooling limits";
     section_type := "requirements";
     confidence := 0.6;
     extracted_entities := [] |}.

Definition notes_general : DLDSection :=
  {| title := "Section 1";
     content := "meeting notes";
     section_type := "general";
     confidence := 0.4;
     extracted_entities := [] |}.

(** a prompt with the four markers at line starts *)
Definition four_markers_prompt : string :=
  "context" ++ PyStr.nl ++ "requirements" ++ PyStr.nl ++ "constraints"
    ++ PyStr.nl ++ "task".

(** a reference section that [four_markers_prompt] does not address *)
Definition unaddressed_section : CodeQuality.dld_section :=
  {| CodeQuality.sec_title := Some "Handover";
     CodeQuality.sec_content := Some "Xn based mobility" |}.

(** stand-ins for the five further metrics: each scores 0.8 *)
Definition fixed (m : CodeQuality.QualityMetric) (prompt : string)
  : result CodeQuality.QualityAssessment :=
  Ok {| CodeQuality.metric := m;
        CodeQuality.score := 0.8;
        CodeQuality.details := EmptyString;
        CodeQuality.suggestions := [] |}.

Definition fixed_accuracy (prompt : string) (ctx : CodeQuality.dld_context)
  : result CodeQuality.QualityAssessment :=
  fixed CodeQuality.TECHNICAL_ACCURACY prompt.

(** *** A pipeline run with stand-in sub-agents

    The sub-agents answer with dictionaries of the shapes that the agents
    return; the LLM integration has no client and reports failure with the
    unchanged prompt as fallback. *)

Import Master.

Definition ex_clock (n : nat) : Q := inject_Z (Z.of_nat n).
Definition ex_float_str (q : Q) : string := "0.9".

Definition ex_validate_dld (w : unit) (dld_content project_path : pyval)
  : unit * result pydict :=
  (w, Ok [("success", VBool true);
          ("validation_result", VNone);
          ("validated_dld",
           VDict [("original_content", dld_content); ("sections", VList [])]);
          ("recommendations", VList [])]).

Definition ex_validate_dld_invalid (w : unit) (dld_content project_path : pyval)
  : unit * result pydict :=
  (w, Ok [("success", VBool false);
          ("validation_result", VNone);
          ("validated_dld", VDict [("original_content", dld_content)]);
          ("recommendations", VList [])]).

Definition ex_generate_prompt (w : unit)
  (validated_dld project_path output_format : pyval) : unit * result pydict :=
  (w, Ok [("success", VBool true);
          ("generated_prompt", VStr "Implement the AMF handover procedure");
          ("prompt_components", VList []);
          ("metrics", VDict [("total_components", VNum 0)])]).

Definition ex_validate_prompt (w : unit)
  (generated_prompt dld_context quality_threshold : pyval)
  : unit * result pydict :=
  (w, Ok [("success", VBool true);
          ("quality_score", VNum 0.9);
          ("recommendations", VList [])]).

Definition ex_optimize_prompt (w : unit) (base_prompt quality_feedback : pyval)
  (target_model : string) : unit * result pydict :=
  (w, Ok (optimize_prompt_no_client base_prompt)).

Definition ex_process_output (w : unit)
  (optimized_prompt output_format validation_results : pyval)
  : unit * result pydict :=
  (w, Ok [("success", VBool true); ("final_prompt", optimized_prompt)]).

Definition ex_analyze_performance (w : unit)
  (pipeline_state execution_metrics : pydict) : unit * result pydict :=
  (w, Ok [("status", VStr "ok")]).

Definition ex_process_dld (validate : unit -> pyval -> pyval -> unit * result pydict)
  (dld_content : string) (quality_threshold : Q) (include_feedback : bool)
  : M unit pydict :=
  process_dld unit ex_clock ex_float_str validate ex_generate_prompt
    ex_validate_prompt ex_optimize_prompt ex_process_output
    ex_analyze_performance
    dld_content VNone "cursor_ai" quality_threshold include_feedback.

End Examples.

(** ** The coverage formula in the specification's words *)

Module Spec.

Local Open Scope Q_scope.

(** The six required section types and their fixed weights. *)
Definition required_weights : list (string * Q) := [
  ("system_overview", 0.20);
  ("requirements", 0.25);
  ("interfaces", 0.20);
  ("performance", 0.15);
  ("security", 0.10);
  ("implementation", 0.10)
].

(** Coverage = 1 - the sum of the weights of the missing types, for a
    document in which the types [present] occur. *)
Definition coverage (present : string -> bool) : Q :=
  1 - Qsum (map (fun '(t, w) => if present t then 0 else w) required_weights).

(** The section types that occur in an analysed document. *)
Definition section_types (sr : ContextValidation.structure_result)
  : list string :=
  map ContextValidation.section_type (ContextValidation.sections sr).

Definition has_type (sr : ContextValidation.structure_result) (t : string)
  : bool :=
  bool_decide (t ∈ section_types sr).

(** The weight registered for a type, 0 for a type that is not required. *)
Definition weight_of (k : string) : Q :=
  match PyDict.get k ContextValidation.required_sections with
  | Some info => ContextValidation.weight info
  | None => 0
  end.

End Spec.

(** ** Further stand-in sub-agents *)

Module MoreExamples.

Import Master.

(** a validation agent that was never initialised: the call raises *)
Definition ex_validate_dld_raises (w : unit) (dld_content project_path : pyval)
  : unit * result pydict :=
  (w, Raise (AttributeError
               "'NoneType' object has no attribute 'validate_dld'")).

(** the failure dictionary of [validate_prompt] *)
Definition ex_validate_prompt_failed (w : unit)
  (generated_prompt dld_context quality_threshold : pyval)
  : unit * result pydict :=
  (w, Ok [("success", VBool false);
          ("error", VStr "cannot access local variable");
          ("quality_score", VNum 0);
          ("validation_result", VNone)]).

Definition unsupported_note : ContextValidation.DLDSection :=
  {| ContextValidation.title := "Carrier aggregation";
     ContextValidation.content :=
       "Carrier aggregation is Not Supported in this release";
     ContextValidation.section_type := "general";
     ContextValidation.confidence := 0.4;
     ContextValidation.extracted_entities := [] |}.

End MoreExamples.

(** ** agents/context_validation_agent.py: further methods *)

Module ContextValidationMore.

Import ContextValidation.

Local Open Scope Q_scope.

(** [s.count(sub)]: occurrences of [sub], left to right without overlap;
    [skip] characters of the last occurrence are still to be passed. *)
Fixpoint count_from (sub : string) (skip : nat) (s : string) : nat :=
  match s with
  | EmptyString => O
  | String _ r =>
      match skip with
      | S k => count_from sub k r
      | O =>
          if String.prefix sub s
          then S (count_from sub (PyStr.len sub - 1) r)
          else count_from sub O r
      end
  end.

Definition count (sub s : string) : nat :=
  if PyStr.is_empty sub then S (PyStr.len s) else count_from sub O s.

(** [_classify_section_type]: the keyword counts per required type, then
    [max(..., key=score)], which keeps the first of several maxima. *)
Definition section_score (text_to_analyze : string) (info : section_info)
  : nat :=
  fold_left
    (fun score keyword => (score + count (PyStr.lower keyword) text_to_analyze)%nat)
    (keywords info) O.

Definition section_scores (title content : string) : PyDict.dict nat :=
  let text_to_analyze := PyStr.lower (title ++ " " ++ content) in
  map (fun '(section_name, info) =>
         (section_name, section_score text_to_analyze info))
      required_sections.

Fixpoint first_max (best : string * nat) (l : list (string * nat))
  : string * nat :=
  match l with
  | [] => best
  | item :: rest =>
      if (snd best <? snd item)%nat then first_max item rest
      else first_max best rest
  end.

Definition _classify_section_type (title content : string) : string :=
  match section_scores title content with
  | [] => "general"
  | item :: rest =>
      let best_section := first_max item rest in
      if (0 <? snd best_section)%nat then fst best_section else "general"
  end.

(** [_calculate_completeness_score] *)
Definition _calculate_completeness_score (sr : structure_result)
  (mi : missing_info) : Q :=
  let base_score := coverage_score mi in
  let entity_bonus :=
    py_min 0.1
      (inject_Z (Z.of_nat (List.length (found_domain_entities sr))) * 0.02) in
  let section_bonus :=
    py_min 0.1 (inject_Z (Z.of_nat (List.length (sections sr))) * 0.01) in
  py_min 1 (base_score + entity_bonus + section_bonus).

(** the invariant of the dictionary built by [_merge_sections]: every
    entry sits under its own type, and no type has two entries *)
Definition keyed (m : PyDict.dict DLDSection) : Prop :=
  Forall (fun '(k, v) => section_type v = k) m /\ NoDup (PyDict.keys m).

(** the message that [_verify_consistency] reports for a section *)
Definition contradiction_message (s : DLDSection) : string :=
  "Potential contradiction in section '" ++ title s ++ "'".

End ContextValidationMore.

(** ** agents/code_quality_agent.py: further metrics *)

Module CodeQualityMore.

Import CodeQuality.

Local Open Scope Q_scope.

(** [sum(1 for x in xs if x in prompt.lower())] *)
Definition count_contained (xs : list string) (prompt : string) : nat :=
  List.length (filter (fun x => PyStr.contains x (PyStr.lower prompt)) xs).

(** [sum(1 for pattern in patterns if re.search(pattern, prompt, re.I))] *)
Definition count_found (patterns : list Re.regex) (prompt : string) : nat :=
  List.length (filter (fun pattern => Re.search pattern prompt) patterns).

Definition nat_div (n d : nat) : Q :=
  inject_Z (Z.of_nat n) / inject_Z (Z.of_nat d).

Definition words_i (alternatives : list string) : Re.regex :=
  Re.alts (map Re.lit_i alternatives).

Definition word_chars : Re.regex := Re.plus (Re.Chr Re.is_word).

(** *** [_assess_prompt_structure] *)

(** [^#+\s+] *)
Definition heading_re : Re.regex :=
  Re.seqs [Re.Bol; Re.plus (Re.chr "#"); Re.plus Re.space].

(** [^\s*[-*]\s+] *)
Definition bullet_re : Re.regex :=
  Re.seqs [Re.Bol; Re.Star Re.space;
           Re.Chr (fun c => Ascii.eqb c "-" || Ascii.eqb c "*");
           Re.plus Re.space].

(** three backticks, or a backtick-quoted span *)
Definition code_re : Re.regex :=
  Re.Alt (Re.lit "```")
         (Re.seqs [Re.chr "`";
                   Re.plus (Re.Chr (fun c => negb (Ascii.eqb c "`")));
                   Re.chr "`"]).

(** [^\s*\d+\.] *)
Definition numbered_re : Re.regex :=
  Re.seqs [Re.Bol; Re.Star Re.space; Re.plus Re.digit; Re.chr "."].

Definition _assess_prompt_structure (prompt : string) : Q :=
  let score := 0 in
  let sections := Re.findall_count heading_re prompt in
  let score := if (3 <=? sections)%nat then score + 0.3 else score in
  let lists := Re.findall_count bullet_re prompt in
  let score := if (3 <=? lists)%nat then score + 0.2 else score in
  let code_blocks := Re.findall_count code_re prompt in
  let score := if (1 <=? code_blocks)%nat then score + 0.2 else score in
  let numbered_items := Re.findall_count numbered_re prompt in
  let score := if (3 <=? numbered_items)%nat then score + 0.3 else score in
  py_min score 1.

(** *** [_assess_actionable_instructions] *)

Definition imperative_verbs : list string :=
  ["create"; "implement"; "build"; "design"; "develop"; "write"; "generate"].

Definition instruction_deliverables : list Re.regex := [
  Re.seqs [words_i ["function"; "class"; "module"]; Re.plus Re.space;
           words_i ["named"; "called"]; Re.plus Re.space; word_chars];
  Re.seqs [words_i ["return"; "output"]; Re.plus Re.space;
           words_i ["a"; "an"]; Re.plus Re.space; word_chars];
  Re.seqs [words_i ["should"; "must"; "will"]; Re.plus Re.space;
           words_i ["implement"; "provide"; "handle"]]
].

Definition constraint_indicators : list string :=
  ["following"; "adhering to"; "according to"; "based on"].

Definition _assess_actionable_instructions (prompt : string) : Q :=
  let score := 0 in
  let verb_count := count_contained imperative_verbs prompt in
  let score := score + py_min (nat_div verb_count 5) 0.4 in
  let deliverables := count_found instruction_deliverables prompt in
  let score := score + py_min (nat_div deliverables 3) 0.3 in
  let constraints := count_contained constraint_indicators prompt in
  let score := score + py_min (nat_div constraints 2) 0.3 in
  score.

(** *** [_verify_cursor_ai_compatibility] *)

Definition good_practices : list Re.regex := [
  Re.seqs [Re.lit_i "implement"; Re.plus Re.space; word_chars];
  Re.seqs [Re.lit_i "create"; Re.plus Re.space;
           words_i ["function"; "class"; "module"]];
  Re.seqs [Re.lit_i "following"; Re.plus Re.space;
           words_i ["pattern"; "convention"]];
  Re.seqs [Re.lit_i "with"; Re.plus Re.space;
           words_i ["error handling"; "logging"]];
  Re.seqs [Re.lit_i "test"; Re.plus Re.space; words_i ["coverage"; "cases"]]
].

Definition problematic_patterns : list Re.regex := [
  Re.seqs [Re.lit_i "just"; Re.plus Re.space;
           words_i ["write"; "create"; "make"]];
  Re.seqs [Re.lit_i "somehow"; Re.plus Re.space;
           words_i ["implement"; "handle"]];
  Re.seqs [words_i ["quick"; "simple"; "easy"]; Re.plus Re.space;
           words_i ["fix"; "solution"]];
  Re.seqs [Re.lit_i "without"; Re.plus Re.space; words_i ["any"; "much"];
           Re.plus Re.space; words_i ["documentation"; "comments"]]
].

Definition _verify_cursor_ai_compatibility (prompt : string)
  : QualityAssessment :=
  let score := 0 in
  let good_practices_found := count_found good_practices prompt in
  let practice_score :=
    py_min (nat_div good_practices_found (List.length good_practices)) 1 in
  let score := score + practice_score * 0.4 in
  let details :=
    ["Good practices found: " +:+ str_of_nat good_practices_found] in
  let problematic_patterns_found :=
    count_found problematic_patterns prompt in
  let '(score, details, suggestions) :=
    if (0 <? problematic_patterns_found)%nat
    then (score * 0.7,
          (details ++ ["Problematic patterns found: "
                         +:+ str_of_nat problematic_patterns_found])%list,
          ["Remove vague or problematic instruction patterns"])
    else (score, details, []) in
  let structure_score := _assess_prompt_structure prompt in
  let score := score + structure_score * 0.3 in
  let details :=
    (details ++ ["Structure score: " +:+ fmt_pct2 structure_score])%list in
  let actionable_score := _assess_actionable_instructions prompt in
  let score := score + actionable_score * 0.3 in
  let details :=
    (details ++ ["Actionable instructions: "
                   +:+ fmt_pct2 actionable_score])%list in
  let suggestions :=
    if Qltb practice_score 0.7
    then (suggestions ++ ["Include more Cursor AI best practices"])%list
    else suggestions in
  let suggestions :=
    if Qltb structure_score 0.8
    then (suggestions ++ ["Improve prompt structure and organization"])%list
    else suggestions in
  let suggestions :=
    if Qltb actionable_score 0.8
    then (suggestions
            ++ ["Make instructions more specific and actionable"])%list
    else suggestions in
  {| metric := CURSOR_AI_COMPATIBILITY;
     score := score;
     details := PyStr.join "; " details;
     suggestions := suggestions |}.

(** *** [_assess_clarity] *)

(** [re.split(r'[.!?]+', prompt)] *)
Definition is_stop (c : ascii) : bool :=
  Ascii.eqb c "." || Ascii.eqb c "!" || Ascii.eqb c "?".

Fixpoint split_sentences_go (cur : string) (in_stop : bool) (s : string)
  : list string :=
  match s with
  | EmptyString => [cur]
  | String c r =>
      if is_stop c
      then (if in_stop then split_sentences_go EmptyString true r
            else cur :: split_sentences_go EmptyString true r)
      else split_sentences_go (cur ++ String c EmptyString) false r
  end.

Definition split_sentences (prompt : string) : list string :=
  split_sentences_go EmptyString false prompt.

(** a pattern followed by [$] under [re.MULTILINE]: the match must end at
    the end of the text or before a newline *)
Definition at_eol (t : string) : bool :=
  match t with
  | EmptyString => true
  | String c _ => Re.is_nl c
  end.

Definition match_at_eol (r : Re.regex) (prev : option ascii) (s : string)
  : option (option ascii * string) :=
  Re.run r prev s (fun p t => if at_eol t then Some (p, t) else None).

Fixpoint findall_eol_go (fuel : nat) (r : Re.regex) (prev : option ascii)
  (s : string) : nat :=
  match fuel with
  | O => O
  | S fuel' =>
      match match_at_eol r prev s with
      | Some (p, t) =>
          if (String.length t <? String.length s)%nat
          then S (findall_eol_go fuel' r p t)
          else match s with
               | EmptyString => 1%nat
               | String c s' => S (findall_eol_go fuel' r (Some c) s')
               end
      | None =>
          match s with
          | EmptyString => O
          | String c s' => findall_eol_go fuel' r (Some c) s'
          end
      end
  end.

Definition findall_eol_count (r : Re.regex) (s : string) : nat :=
  findall_eol_go (S (String.length s)) r None s.

(** [^#+\s+(.+)$] *)
Definition heading_line_re : Re.regex :=
  Re.seqs [Re.Bol; Re.plus (Re.chr "#"); Re.plus Re.space; Re.plus Re.dot].

(** [\b[A-Z]{2,}\b] *)
Definition upper : Re.regex :=
  Re.Chr (fun c => (65 <=? PyStr.ord c)%N && (PyStr.ord c <=? 90)%N).

Definition acronym_re : Re.regex :=
  Re.seqs [Re.WordB; upper; upper; Re.Star upper; Re.WordB].

Definition _assess_clarity (prompt : string) : QualityAssessment :=
  let score := 0.8 in
  let sentences := split_sentences prompt in
  let long_sentences :=
    filter (fun s => (30 <? List.length (PyStr.split s))%nat) sentences in
  let '(score, details, suggestions) :=
    match long_sentences with
    | [] => (score, [], [])
    | _ =>
        (score * 0.9,
         ["Long sentences found: "
            +:+ str_of_nat (List.length long_sentences)],
         ["Break down long sentences for better clarity"])
    end in
  let headings := findall_eol_count heading_line_re prompt in
  let '(score, details, suggestions) :=
    if (3 <=? headings)%nat
    then (score + 0.1,
          (details ++ ["Clear headings found: " +:+ str_of_nat headings])%list,
          suggestions)
    else (score, details,
          (suggestions ++ ["Add more clear section headings"])%list) in
  let jargon_count := Re.findall_count acronym_re prompt in
  let '(score, details, suggestions) :=
    if (10 <? jargon_count)%nat
    then (score * 0.95,
          (details ++ ["Technical acronyms: " +:+ str_of_nat jargon_count])%list,
          (suggestions ++ ["Consider explaining technical acronyms"])%list)
    else (score, details, suggestions) in
  {| metric := CLARITY;
     score := score;
     details := PyStr.join "; " details;
     suggestions := suggestions |}.

(** *** [_assess_specificity] *)

Definition implementation_keywords : list string :=
  ["function"; "class"; "method"; "variable"; "parameter"; "return"].

Definition example_re : Re.regex :=
  words_i ["example"; "for instance"; "such as"].

Definition technical_details (prompt : string) : nat :=
  fold_left
    (fun n '(_, pattern_list) =>
       fold_left (fun n pattern => (n + Re.findall_count pattern prompt)%nat)
                 pattern_list n)
    domain_patterns O.

Definition _assess_specificity (prompt : string) : QualityAssessment :=
  let score := 0 in
  let details_found := technical_details prompt in
  let specificity_score := py_min (nat_div details_found 20) 1 in
  let score := score + specificity_score * 0.5 in
  let details :=
    ["Technical details found: " +:+ str_of_nat details_found] in
  let impl_guidance := count_contained implementation_keywords prompt in
  let guidance_score :=
    py_min (nat_div impl_guidance (List.length implementation_keywords)) 1 in
  let score := score + guidance_score * 0.3 in
  let details :=
    (details ++ ["Implementation guidance: " +:+ str_of_nat impl_guidance])%list in
  let examples_found := Re.findall_count example_re prompt in
  let example_score := py_min (nat_div examples_found 3) 1 in
  let score := score + example_score * 0.2 in
  let details :=
    (details ++ ["Examples provided: " +:+ str_of_nat examples_found])%list in
  let suggestions :=
    if Qltb specificity_score 0.6
    then ["Include more specific technical details"] else [] in
  let suggestions :=
    if Qltb guidance_score 0.5
    then (suggestions
            ++ ["Provide more specific implementation guidance"])%list
    else suggestions in
  let suggestions :=
    if Qltb example_score 0.3
    then (suggestions
            ++ ["Add concrete examples to illustrate requirements"])%list
    else suggestions in
  {| metric := SPECIFICITY;
     score := score;
     details := PyStr.join "; " details;
     suggestions := suggestions |}.

(** *** [_prompt_addresses_section]: its two locals *)

(** [keywords], after the filter on the length *)
Definition section_keywords (section_title section_content : string)
  : list string :=
  map PyStr.lower
      (filter (fun word => (3 <? PyStr.len word)%nat)
              (PyStr.split section_title
                 ++ firstn 10 (PyStr.split section_content))%list).

(** [matches] *)
Definition keyword_matches (prompt section_title section_content : string)
  : nat :=
  List.length
    (filter (fun keyword => PyStr.contains keyword (PyStr.lower prompt))
            (section_keywords section_title section_content)).

(** *** [_assess_domain_coverage]: [found_count] of one category *)

Definition found_count (prompt : string) (patterns : list Re.regex) : nat :=
  fold_left (fun n pattern => (n + Re.findall_count pattern prompt)%nat)
            patterns O.

(** *** [validate_prompt] with the agent's own metrics

    The compatibility, clarity and specificity metrics are the functions
    above; the technical-accuracy and actionability metrics stay
    parameters. *)
Definition validate_prompt_with
  (_confirm_technical_accuracy :
     string -> dld_context -> result QualityAssessment)
  (_assess_actionability : string -> result QualityAssessment)
  (generated_prompt : string) (ctx : dld_context) (quality_threshold : Q)
  : response :=
  validate_prompt _confirm_technical_accuracy
    (fun prompt => Ok (_verify_cursor_ai_compatibility prompt))
    (fun prompt => Ok (_assess_clarity prompt))
    (fun prompt => Ok (_assess_specificity prompt))
    _assess_actionability
    generated_prompt ctx quality_threshold.

End CodeQualityMore.

(** ** Sample prompts for the quality metrics *)

Module QualityExamples.

Import CodeQuality.

Local Open Scope Q_scope.

(** three headings, three bullet items, a code span and three numbered
    items *)
Definition structured_prompt : string :=
  PyStr.join PyStr.nl
    ["# Context"; "## Steps"; "### Notes";
     "- first"; "- second"; "* third";
     "1. create the class"; "2. write the method"; "3. build it";
     "call `do_ho` at the end"].

(** two imperative verbs, a deliverable phrase and a constraint phrase *)
Definition actionable_prompt : string :=
  "Implement a handler; write a function named do_ho following the API".

(** a problematic phrase and no good practice *)
Definition vague_prompt : string := "just make it work".

(** twenty technical details, the six implementation words and three
    examples *)
Definition specific_prompt : string :=
  "AMF SMF UPF NGAP NAS RRC PDCP RLC MAC PHY Xn F1 FR1 SA: "
    ++ "a function of a class, a method with a variable and a parameter, "
    ++ "return 5 ms; example, for instance, such as".

Definition sample_assessment (m : QualityMetric) (s : Q)
  (advice : list string) : QualityAssessment :=
  {| metric := m; score := s; details := EmptyString; suggestions := advice |}.

(** stand-ins for the two metrics that are parameters *)
Definition sample_accuracy (prompt : string) (ctx : dld_context)
  : result QualityAssessment :=
  Ok (sample_assessment TECHNICAL_ACCURACY 0.9 []).

Definition sample_actionability (prompt : string)
  : result QualityAssessment :=
  Ok (sample_assessment ACTIONABILITY 0.7 []).

End QualityExamples.

(** * Properties *)

(** ** Sanity checks of the matcher *)

Example re_search_word : Re.search (Re.seqs [Re.WordB; Re.lit "amf"; Re.WordB]) "the amf node" = true.
Proof. reflexivity. Qed.
Example re_search_word_inside : Re.search (Re.seqs [Re.WordB; Re.lit "amf"; Re.WordB]) "the amfx node" = false.
Proof. reflexivity. Qed.
Example re_findall_units :
  Re.findall_count (Re.seqs [Re.plus Re.digit; Re.opt (Re.chr "."); Re.Star Re.digit; Re.Star Re.space;
                             Re.alts [Re.lit_i "MHz"; Re.lit_i "GHz"; Re.lit_i "kHz"]]) "3.5 GHz and 100mhz, 7 k" = 2%nat.
Proof. reflexivity. Qed.

(** ** Rational sums *)

Section QsumFacts.

Local Open Scope Q_scope.

Lemma fold_Qplus_acc (l : list Q) (a : Q) :
  fold_left Qplus l a == a + fold_left Qplus l 0.
Proof.
  revert a. induction l as [|x l IH]; intros a; simpl.
  - ring.
  - rewrite (IH (a + x)), (IH (0 + x)). ring.
Qed.

Lemma Qsum_cons (x : Q) (l : list Q) : Qsum (x :: l) == x + Qsum l.
Proof. unfold Qsum. simpl. rewrite fold_Qplus_acc. ring. Qed.

Lemma Qsum_perm {A} (f : A -> Q) (l l' : list A) :
  l ≡ₚ l' -> Qsum (map f l) == Qsum (map f l').
Proof.
  induction 1 as [|x l l' _ IH|x y l|l l' l'' _ IH1 _ IH2]; simpl.
  - reflexivity.
  - rewrite !Qsum_cons, IH. reflexivity.
  - rewrite !Qsum_cons. ring.
  - rewrite IH1. exact IH2.
Qed.

Lemma Qsum_filter {A} (f : A -> Q) (P : A -> Prop) `{!forall x, Decision (P x)}
  (l : list A) :
  Qsum (map f (filter P l))
  == Qsum (map (fun x => if decide (P x) then f x else 0) l).
Proof.
  induction l as [|x l IH]; [reflexivity|].
  rewrite filter_cons. simpl. destruct (decide (P x)); simpl.
  - rewrite !Qsum_cons, IH. reflexivity.
  - rewrite Qsum_cons, IH. ring.
Qed.

End QsumFacts.

(** ** Facts on Python strings *)

Lemma lower_char_isspace (c : ascii) :
  PyStr.isspace (PyStr.lower_char c) = PyStr.isspace c.
Proof.
  destruct c as [[] [] [] [] [] [] [] []]; reflexivity.
Qed.

Lemma split_go_cur (cur s : string) :
  cur <> EmptyString -> PyStr.split_go cur s <> [].
Proof.
  revert cur. induction s as [|c s IH]; intros cur Hcur; simpl.
  - destruct cur; [congruence | discriminate].
  - destruct (PyStr.isspace c).
    + destruct cur; [congruence | discriminate].
    + apply IH. destruct cur; discriminate.
Qed.

Lemma split_go_nonspace (cur s : string) :
  (exists c, In c (list_ascii_of_string s) /\ PyStr.isspace c = false) ->
  PyStr.split_go cur s <> [].
Proof.
  revert cur. induction s as [|c s IH]; intros cur [x [Hin Hx]]; simpl in *.
  - contradiction.
  - destruct (PyStr.isspace c) eqn:Hc.
    + destruct Hin as [->|Hin]; [congruence|].
      destruct cur; simpl; [|discriminate].
      apply IH. eauto.
    + apply split_go_cur. destruct cur; discriminate.
Qed.

Lemma split_go_allspace (s : string) :
  (forall c, In c (list_ascii_of_string s) -> PyStr.isspace c = true) ->
  PyStr.split_go EmptyString s = [].
Proof.
  induction s as [|c s IH]; intros H; simpl in *; [reflexivity|].
  rewrite (H c) by auto. apply IH. auto.
Qed.

Lemma In_lower (c : ascii) (s : string) :
  In c (list_ascii_of_string s) ->
  In (PyStr.lower_char c) (list_ascii_of_string (PyStr.lower s)).
Proof.
  induction s as [|x s IH]; simpl; [tauto|].
  intros [->|H]; auto.
Qed.

Lemma In_lower_inv (c : ascii) (s : string) :
  In c (list_ascii_of_string (PyStr.lower s)) ->
  exists x, In x (list_ascii_of_string s) /\ c = PyStr.lower_char x.
Proof.
  induction s as [|x s IH]; simpl; [tauto|].
  intros [<-|H]; [eauto|].
  destruct (IH H) as [y [? ?]]. eauto.
Qed.

(** ** Similarity *)

Import ContextValidation.

Lemma words_nonempty (a : string) :
  (exists c, In c (list_ascii_of_string a) /\ PyStr.isspace c = false) ->
  words a <> ∅.
Proof.
  intros [c [Hin Hc]]. unfold words, PyStr.split.
  assert (Hne : PyStr.split_go EmptyString (PyStr.lower a) <> []).
  { apply split_go_nonspace. exists (PyStr.lower_char c). split.
    - by apply In_lower.
    - by rewrite lower_char_isspace. }
  destruct (PyStr.split_go EmptyString (PyStr.lower a)) as [|w l];
    [congruence|].
  simpl. set_solver.
Qed.

Lemma words_allspace (a : string) :
  (forall c, In c (list_ascii_of_string a) -> PyStr.isspace c = true) ->
  words a = ∅.
Proof.
  intros H. unfold words, PyStr.split. rewrite split_go_allspace; [done|].
  intros c Hc. destruct (In_lower_inv _ _ Hc) as [x [Hx ->]].
  rewrite lower_char_isspace. auto.
Qed.

(** C7 (as stated, refuted): a string made of one blank is non-empty, yet
    its similarity with itself is 0, not 1. *)
Lemma similarity_blank_not_one :
  " " <> EmptyString /\
  ~ (_calculate_content_similarity " " " " == 1)%Q.
Proof.
  split; [discriminate|]. vm_compute. discriminate.
Qed.

(** C7 (amended): [_calculate_content_similarity] is symmetric for all
    strings; it is 1 on [(a, a)] for every [a] that holds at least one
    non-whitespace character, and 0 on [(a, a)] when [a] holds none. *)
Theorem similarity_symmetric_and_reflexive_on_tokens :
  (forall a b : string,
      _calculate_content_similarity a b = _calculate_content_similarity b a)
  /\ (forall a : string,
        (exists c, In c (list_ascii_of_string a) /\ PyStr.isspace c = false) ->
        (_calculate_content_similarity a a == 1)%Q)
  /\ (forall a : string,
        (forall c, In c (list_ascii_of_string a) -> PyStr.isspace c = true) ->
        (_calculate_content_similarity a a == 0)%Q).
Proof.
  split; [|split].
  - intros a b. unfold _calculate_content_similarity. cbv zeta.
    assert (Hi : words a ∩ words b = words b ∩ words a) by apply (comm_L (∩)).
    assert (Hu : words a ∪ words b = words b ∪ words a) by apply (comm_L (∪)).
    rewrite Hi, Hu.
    by rewrite orb_comm.
  - intros a Ha. unfold _calculate_content_similarity. cbv zeta.
    pose proof (words_nonempty a Ha) as Hne.
    rewrite bool_decide_eq_false_2 by done. simpl.
    assert (Hi : words a ∩ words a = words a) by apply (idemp_L (∩)).
    assert (Hu : words a ∪ words a = words a) by apply (idemp_L (∪)).
    rewrite Hi, Hu.
    assert (Hsz : size (words a) <> 0%nat).
    { intros Hz. apply size_empty_inv in Hz. by apply leibniz_equiv in Hz. }
    destruct (Nat.ltb_spec 0 (size (words a))) as [_|Hle]; [|lia].
    apply Qmult_inv_r. unfold Qeq. simpl. lia.
  - intros a Ha. unfold _calculate_content_similarity. cbv zeta.
    rewrite (words_allspace a Ha). reflexivity.
Qed.

Lemma similarity_reflexive_witness :
  (_calculate_content_similarity "5G core" "5G core" == 1)%Q.
Proof.
  apply (proj1 (proj2 similarity_symmetric_and_reflexive_on_tokens)).
  exists "5"%char. split; [simpl; auto | reflexivity].
Defined.

(** ** Section reconciliation *)

Import Examples.

Lemma dict_get_set_eq {V} (k : string) (v : V) (d : PyDict.dict V) :
  PyDict.get k (PyDict.set k v d) = Some v.
Proof.
  induction d as [|[k' v'] d IH]; simpl.
  - by rewrite String.eqb_refl.
  - destruct (String.eqb k k') eqn:E; simpl.
    + by rewrite String.eqb_refl.
    + by rewrite E.
Qed.

Lemma dict_get_set_ne {V} (k k' : string) (v : V) (d : PyDict.dict V) :
  k <> k' -> PyDict.get k' (PyDict.set k v d) = PyDict.get k' d.
Proof.
  intros Hne. induction d as [|[k0 v0] d IH]; simpl.
  - destruct (String.eqb_spec k' k); congruence.
  - destruct (String.eqb_spec k k0) as [->|]; simpl.
    + destruct (String.eqb_spec k' k0); congruence.
    + destruct (String.eqb_spec k' k0); congruence.
Qed.

Lemma merge_loop_app (m : PyDict.dict DLDSection) (l1 l2 : list DLDSection) :
  merge_loop m (l1 ++ l2)
  = bind (merge_loop m l1) (fun m' => merge_loop m' l2).
Proof.
  revert m. induction l1 as [|s l1 IH]; intros m; simpl; [reflexivity|].
  destruct (merge_step m s) as [m'|e]; simpl; [apply IH | reflexivity].
Qed.

Lemma py_max_ge_l (a b : Q) : (a <= py_max a b)%Q.
Proof.
  unfold py_max, Qgtb. destruct (Qle_bool b a) eqn:E; simpl.
  - apply Qle_refl.
  - destruct (Qlt_le_dec a b) as [H|H]; [by apply Qlt_le_weak|].
    apply Qle_bool_iff in H. congruence.
Qed.

Lemma py_max_ge_r (a b : Q) : (b <= py_max a b)%Q.
Proof.
  unfold py_max, Qgtb. destruct (Qle_bool b a) eqn:E; simpl.
  - by apply Qle_bool_iff.
  - apply Qle_refl.
Qed.






(** C5: a section whose type already has an entry and whose content is at
    most 0.7 similar to it is not kept as an alternative: the call
    [section._replace] fails on the dataclass, and [_merge_sections]
    raises [AttributeError] whatever comes before or after. *)
Theorem merge_dissimilar_section_raises :
  forall (pre post : list DLDSection) (merged : PyDict.dict DLDSection)
         (existing section : DLDSection),
    merge_loop [] pre = Ok merged ->
    PyDict.get (section_type section) merged = Some existing ->
    Qgtb (_calculate_content_similarity (content existing) (content section))
         0.7 = false ->
    _merge_sections (pre ++ section :: post)
    = Raise (AttributeError "'DLDSection' object has no attribute '_replace'").
Proof.
  intros pre post merged existing section Hpre Hget Hsim.
  unfold _merge_sections. rewrite merge_loop_app, Hpre. simpl.
  unfold merge_step. rewrite Hget, Hsim. reflexivity.
Qed.

Lemma merge_dissimilar_section_raises_witness :
  _merge_sections [reqs_header; reqs_other]
  = Raise (AttributeError "'DLDSection' object has no attribute '_replace'").
Proof.
  apply (merge_dissimilar_section_raises
           [reqs_header] [] [("requirements", reqs_header)]
           reqs_header reqs_other); reflexivity.
Defined.

(** ** Coverage *)

Import Spec.

Lemma item_required (k : string) :
  k ∈ PyDict.keys required_sections ->
  PyDict.item k required_sections
  = Ok (match PyDict.get k required_sections with
        | Some info => info
        | None => {| keywords := []; weight := 0 |}
        end).
Proof.
  intros Hk. unfold PyDict.item.
  destruct (PyDict.get k required_sections) eqn:E; [reflexivity|].
  exfalso. revert Hk E. unfold required_sections, PyDict.keys. simpl.
  rewrite !elem_of_cons, elem_of_nil.
  intros [->|[->|[->|[->|[->|[->|[]]]]]]]; discriminate.
Qed.

Lemma mapM_weights (l : list string) :
  (forall k, k ∈ l -> k ∈ PyDict.keys required_sections) ->
  mapM (fun section =>
          bind (PyDict.item section required_sections)
               (fun info => Ok (weight info))) l
  = Ok (map weight_of l).
Proof.
  induction l as [|k l IH]; intros H; cbn [mapM map]; [reflexivity|].
  rewrite item_required by (apply H; left). cbn [bind].
  rewrite IH by (intros; apply H; by right). cbn [bind].
  unfold weight_of. destruct (PyDict.get k required_sections); reflexivity.
Qed.

Lemma required_keys_NoDup : NoDup (PyDict.keys required_sections).
Proof.
  unfold required_sections, PyDict.keys. simpl.
  repeat (apply NoDup_cons; split;
          [rewrite ?elem_of_cons, elem_of_nil; intros H;
           repeat (destruct H as [H|H]; [discriminate|]); exact H|]).
  apply NoDup_nil. done.
Qed.

Lemma missing_perm (types : list string) :
  elements ((list_to_set (PyDict.keys required_sections) : gset string)
              ∖ list_to_set types)
  ≡ₚ filter (fun k => k ∉ types) (PyDict.keys required_sections).
Proof.
  apply NoDup_Permutation.
  - apply NoDup_elements.
  - apply NoDup_filter, required_keys_NoDup.
  - intros k. rewrite elem_of_elements, elem_of_difference,
      !elem_of_list_to_set, list_elem_of_filter. tauto.
Qed.

(** [_detect_missing_information] always returns, and its coverage score is
    the specification's formula. *)
Lemma detect_missing_information_spec (sr : structure_result) :
  exists mi,
    _detect_missing_information sr = Ok mi
    /\ missing_sections mi
       ≡ₚ filter (fun k => k ∉ section_types sr)
                 (PyDict.keys required_sections)
    /\ (coverage_score mi == Spec.coverage (has_type sr))%Q.
Proof.
  unfold _detect_missing_information. cbv zeta.
  fold (section_types sr).
  pose proof (missing_perm (section_types sr)) as Hperm.
  set (missing := elements _) in *.
  rewrite mapM_weights.
  2:{ intros k Hk. rewrite Hperm in Hk.
      apply list_elem_of_filter in Hk. tauto. }
  eexists. split; [reflexivity|]. split; [exact Hperm|]. simpl.
  rewrite (Qsum_perm weight_of _ _ Hperm), Qsum_filter.
  unfold Spec.coverage, has_type, Spec.required_weights, weight_of,
    required_sections, PyDict.keys.
  cbn [map fst snd PyDict.get String.eqb Ascii.eqb Bool.eqb weight].
  unfold Qsum. cbn [fold_left].
  repeat match goal with
  | |- context [bool_decide (?k ∈ section_types sr)] =>
      destruct (decide (k ∈ section_types sr)) as [Hk|Hk];
      [ rewrite (bool_decide_eq_true_2 _ Hk),
          (decide_False (P := k ∉ section_types sr)) by tauto
      | rewrite (bool_decide_eq_false_2 _ Hk),
          (decide_True (P := k ∉ section_types sr)) by exact Hk ];
      clear Hk
  end;
  vm_compute; reflexivity.
Qed.

Lemma required_weights_sum : (Qsum (map snd Spec.required_weights) == 1)%Q.
Proof. reflexivity. Qed.

Lemma coverage_only_requirements (present : string -> bool) :
  present "requirements" = true ->
  (forall t, t ∈ PyDict.keys required_sections -> t <> "requirements" ->
             present t = false) ->
  (Spec.coverage present == 0.25)%Q.
Proof.
  intros Hreq Hother. unfold Spec.coverage, Spec.required_weights.
  cbn [map]. rewrite Hreq.
  rewrite !Hother;
    try discriminate;
    try (unfold required_sections, PyDict.keys; cbn [map fst];
         rewrite !elem_of_cons; tauto).
  reflexivity.
Qed.

Lemma coverage_none_present (present : string -> bool) :
  (forall t, t ∈ PyDict.keys required_sections -> present t = false) ->
  (Spec.coverage present == 0)%Q.
Proof.
  intros Hnone. unfold Spec.coverage, Spec.required_weights.
  cbn [map].
  rewrite !Hnone;
    try (unfold required_sections, PyDict.keys; cbn [map fst];
         rewrite !elem_of_cons; tauto).
  reflexivity.
Qed.

(** C3: the coverage score returned by [_detect_missing_information] is 1
    minus the sum of the weights of the required section types that no
    section has; the six weights are 0.20, 0.25, 0.20, 0.15, 0.10, 0.10 and
    sum to 1; and when "requirements" is the only required type among the
    sections, the coverage is 0.25. *)
Theorem coverage_is_one_minus_missing_weights :
  forall sr : structure_result,
    exists mi,
      _detect_missing_information sr = Ok mi
      /\ (coverage_score mi == 1 - missing_weight mi)%Q
      /\ (coverage_score mi == Spec.coverage (has_type sr))%Q
      /\ (forall t, t ∈ missing_sections mi
                    <-> t ∈ PyDict.keys required_sections
                        /\ t ∉ section_types sr)
      /\ Forall2 (fun '(k, info) '(t, w) => k = t /\ (weight info == w)%Q)
                 required_sections Spec.required_weights
      /\ (Qsum (map snd Spec.required_weights) == 1)%Q
      /\ ("requirements" ∈ section_types sr ->
          (forall t, t ∈ PyDict.keys required_sections ->
                     t ∈ section_types sr -> t = "requirements") ->
          (coverage_score mi == 0.25)%Q).
Proof.
  intros sr.
  destruct (detect_missing_information_spec sr) as (mi & Hmi & Hperm & Hcov).
  exists mi. split; [exact Hmi|].
  split.
  { revert Hmi. unfold _detect_missing_information. cbv zeta.
    destruct (mapM _ _); cbn [bind]; [|discriminate].
    intros [= <-]. reflexivity. }
  split; [exact Hcov|].
  split.
  { intros t. rewrite Hperm, list_elem_of_filter. tauto. }
  split; [repeat constructor|].
  split; [apply required_weights_sum|].
  intros Hreq Honly. rewrite Hcov.
  apply coverage_only_requirements; unfold has_type.
  - by apply bool_decide_eq_true_2.
  - intros t Ht Hne. apply bool_decide_eq_false_2. intros Hin.
    apply Hne, Honly; assumption.
Qed.

Lemma coverage_scenario_A_witness :
  exists mi,
    _detect_missing_information
      {| sections := [reqs_header]; found_domain_entities := [] |} = Ok mi
    /\ (coverage_score mi == 0.25)%Q.
Proof.
  destruct (coverage_is_one_minus_missing_weights
              {| sections := [reqs_header]; found_domain_entities := [] |})
    as (mi & Hmi & _ & _ & _ & _ & _ & HA).
  exists mi. split; [exact Hmi|].
  apply HA.
  - unfold section_types. simpl. apply list_elem_of_here.
  - unfold section_types. simpl. intros t _ Ht.
    apply list_elem_of_singleton in Ht. exact Ht.
Defined.

(** ** Overall validity *)

Lemma dict_set_nonempty {V} (k : string) (v : V) (d : PyDict.dict V) :
  PyDict.set k v d <> [].
Proof.
  destruct d as [|[k' v'] d]; simpl; [discriminate|].
  destruct (String.eqb k k'); discriminate.
Qed.

Lemma dict_set_Forall {V} (P : string * V -> Prop) (k : string) (v : V)
  (d : PyDict.dict V) :
  P (k, v) -> Forall P d -> Forall P (PyDict.set k v d).
Proof.
  intros Hv. induction 1 as [|[k' v'] d Hx Hd IH]; simpl.
  - by repeat constructor.
  - destruct (String.eqb k k'); constructor; auto.
Qed.

Lemma extract_fold_nonempty (cl : string) (catalog : PyDict.dict (list string))
  (acc : PyDict.dict (list string)) :
  fold_left (extract_step cl) catalog acc <> []
  <-> acc <> []
      \/ exists cls ents e,
           In (cls, ents) catalog /\ In e ents /\ entity_found cl e = true.
Proof.
  revert acc. induction catalog as [|[cls ents] catalog IH]; intros acc.
  - simpl. split; [auto|]. intros [H|(?&?&?&[]&_)]; exact H.
  - cbn [fold_left]. rewrite IH. unfold extract_step at 1.
    destruct (filter (entity_found cl) ents) as [|e0 found] eqn:E.
    + split.
      * intros [H|(c&es&e&Hin&He&Hf)]; [by left|].
        right. exists c, es, e. simpl. auto.
      * intros [H|(c&es&e&[Heq|Hin]&He&Hf)]; [by left| |].
        -- inversion Heq; subst.
           assert (Hm : e ∈ filter (entity_found cl) es).
           { apply list_elem_of_filter. split; [by rewrite Hf|].
             by apply list_elem_of_In. }
           rewrite E in Hm. by apply elem_of_nil in Hm.
        -- right. exists c, es, e. auto.
    + split.
      * intros _. right. exists cls, ents, e0.
        assert (Hm : e0 ∈ filter (entity_found cl) ents)
          by (rewrite E; apply list_elem_of_here).
        apply list_elem_of_filter in Hm. destruct Hm as [Hf Hin].
        split; [by left|]. split; [by apply list_elem_of_In|].
        by destruct (entity_found cl e0).
      * intros _. left. apply dict_set_nonempty.
Qed.

Lemma extract_fold_classes_nonempty (cl : string)
  (catalog : PyDict.dict (list string)) (acc : PyDict.dict (list string)) :
  Forall (fun '(_, found) => found <> []) acc ->
  Forall (fun '(_, found) => found <> [])
         (fold_left (extract_step cl) catalog acc).
Proof.
  revert acc. induction catalog as [|[cls ents] catalog IH]; intros acc Hacc;
    cbn [fold_left]; [exact Hacc|].
  apply IH. unfold extract_step.
  destruct (filter (entity_found cl) ents) eqn:E; [exact Hacc|].
  apply (dict_set_Forall (fun '(_, found) => found <> [])); [discriminate|].
  exact Hacc.
Qed.

Lemma extract_domain_entities_unfold (content : string) :
  _extract_domain_entities content
  = fold_left (extract_step (PyStr.lower content)) domain_entities [].
Proof. reflexivity. Qed.

Lemma Qgeb_true (a b : Q) : Qgeb a b = true <-> (b <= a)%Q.
Proof. unfold Qgeb. apply Qle_bool_iff. Qed.

(** C1: [_calculate_overall_validity] answers true exactly when the
    coverage score is at least 0.7, the consistency score is at least 0.7
    and the entity scan reported at least one class; the scan reports a
    class exactly when one of its tokens occurs in the text, and never with
    an empty token list.  So a document in which no required section type
    occurs and no catalogued entity is recognised is invalid whatever its
    consistency result. *)
Theorem validity_is_conjunction_of_three :
  (forall sr mi cr,
      _calculate_overall_validity sr mi cr = true
      <-> (0.7 <= coverage_score mi)%Q
          /\ (0.7 <= consistency_score cr)%Q
          /\ found_domain_entities sr <> [])
  /\ (forall content,
        _extract_domain_entities content <> []
        <-> exists cls ents e,
              In (cls, ents) domain_entities /\ In e ents
              /\ entity_found (PyStr.lower content) e = true)
  /\ (forall content,
        Forall (fun '(_, found) => found <> [])
               (_extract_domain_entities content))
  /\ (forall secs content,
        (forall t, t ∈ PyDict.keys required_sections ->
                   t ∉ map section_type secs) ->
        (forall cls ents e,
            In (cls, ents) domain_entities -> In e ents ->
            entity_found (PyStr.lower content) e = false) ->
        let sr := {| sections := secs;
                     found_domain_entities :=
                       _extract_domain_entities content |} in
        exists mi,
          _detect_missing_information sr = Ok mi
          /\ (coverage_score mi == 0)%Q
          /\ found_domain_entities sr = []
          /\ forall cr, _calculate_overall_validity sr mi cr = false).
Proof.
  split; [|split; [|split]].
  - intros sr mi cr. unfold _calculate_overall_validity. cbv zeta.
    rewrite !andb_true_iff, !Qgeb_true, Nat.ltb_lt.
    destruct (found_domain_entities sr) as [|x l]; simpl.
    + split; [intros [_ H]; lia | intros (_ & _ & H); congruence].
    + split.
      * intros [[? ?] _]. repeat split; auto; discriminate.
      * intros (? & ? & _). repeat split; auto; lia.
  - intros content. rewrite extract_domain_entities_unfold,
      extract_fold_nonempty. split.
    + intros [H|H]; [congruence | exact H].
    + intros H. by right.
  - intros content. rewrite extract_domain_entities_unfold.
    apply extract_fold_classes_nonempty. constructor.
  - intros secs content Hmissing Hnone sr.
    destruct (detect_missing_information_spec sr) as (mi & Hmi & _ & Hcov).
    assert (Hcov0 : (coverage_score mi == 0)%Q).
    { rewrite Hcov. apply coverage_none_present. intros t Ht.
      unfold has_type. apply bool_decide_eq_false_2. by apply Hmissing. }
    assert (Hent : found_domain_entities sr = []).
    { unfold sr. cbn [found_domain_entities].
      destruct (_extract_domain_entities content) eqn:E; [reflexivity|].
      assert (Hne : _extract_domain_entities content <> [])
        by (rewrite E; discriminate).
      rewrite extract_domain_entities_unfold, extract_fold_nonempty in Hne.
      destruct Hne as [Hne|(c&es&e&Hin&He&Hf)]; [congruence|].
      rewrite (Hnone c es e Hin He) in Hf. discriminate. }
    exists mi. repeat split; auto.
    intros cr. unfold _calculate_overall_validity. cbv zeta.
    rewrite Hent. simpl. apply andb_false_r.
Qed.

Lemma validity_scenario_D_witness :
  exists mi,
    _detect_missing_information
      {| sections := [notes_general];
         found_domain_entities := _extract_domain_entities "meeting notes" |}
    = Ok mi
    /\ forall cr,
         _calculate_overall_validity
           {| sections := [notes_general];
              found_domain_entities :=
                _extract_domain_entities "meeting notes" |} mi cr = false.
Proof.
  destruct (proj2 (proj2 (proj2 validity_is_conjunction_of_three))
              [notes_general] "meeting notes") as (mi & Hmi & _ & _ & Hv).
  - intros t Ht Hin. simpl in Hin. apply list_elem_of_singleton in Hin.
    subst t. revert Ht. unfold required_sections, PyDict.keys. simpl.
    rewrite !elem_of_cons, elem_of_nil.
    intros [H|[H|[H|[H|[H|[H|[]]]]]]]; discriminate.
  - intros cls ents e Hin He.
    assert (Hall : forallb (fun '(_, es) =>
                     forallb (fun e => negb (entity_found "meeting notes" e)) es)
                     domain_entities = true) by (vm_compute; reflexivity).
    rewrite forallb_forall in Hall. specialize (Hall _ Hin). simpl in Hall.
    rewrite forallb_forall in Hall. specialize (Hall _ He).
    by apply negb_true_iff in Hall.
  - exists mi. split; [exact Hmi | exact Hv].
Defined.

(** ** The completeness metric *)

Import CodeQuality.

Section QualityFacts.

Local Open Scope Q_scope.

Lemma py_min_le_r (a b : Q) : py_min a b <= b.
Proof.
  unfold py_min, Qltb. destruct (Qle_bool a b) eqn:E; simpl.
  - by apply Qle_bool_iff.
  - apply Qle_refl.
Qed.

Lemma py_min_ge (a b c : Q) : c <= a -> c <= b -> c <= py_min a b.
Proof. intros Ha Hb. unfold py_min. by destruct (Qltb b a). Qed.

Lemma nat_ratio_nonneg (n m : nat) :
  0 <= inject_Z (Z.of_nat n) / inject_Z (Z.of_nat m).
Proof.
  destruct m as [|m].
  - unfold Qdiv, Qinv. simpl. rewrite Qmult_0_r. apply Qle_refl.
  - apply Qle_shift_div_l.
    + unfold Qlt. simpl. lia.
    + rewrite Qmult_0_l. unfold Qle. simpl. lia.
Qed.

Lemma nat_ratio_le_1 (n m : nat) :
  (n <= m)%nat -> (0 < m)%nat ->
  inject_Z (Z.of_nat n) / inject_Z (Z.of_nat m) <= 1.
Proof.
  intros Hnm Hm. apply Qle_shift_div_r.
  - unfold Qlt. simpl. lia.
  - rewrite Qmult_1_l. unfold Qle. simpl. lia.
Qed.

Lemma category_score_ok (prompt : string) (patterns : list Re.regex) :
  patterns <> [] ->
  exists c, category_score prompt patterns = Ok c /\ 0 <= c <= 1.
Proof.
  intros Hne. unfold category_score, py_div. cbv zeta.
  destruct (Qeq_bool (inject_Z (Z.of_nat (length patterns * 2))) 0) eqn:E.
  - apply Qeq_bool_iff in E. unfold Qeq in E. simpl in E.
    destruct patterns; [congruence | simpl in E; lia].
  - cbn [bind]. eexists. split; [reflexivity|]. split.
    + apply py_min_ge; [apply nat_ratio_nonneg | discriminate].
    + apply py_min_le_r.
Qed.

Lemma domain_coverage_ok (prompt : string) :
  exists dc, _assess_domain_coverage prompt = Ok dc /\ 0 <= dc <= 1.
Proof.
  unfold _assess_domain_coverage, domain_patterns.
  cbn [domain_coverage_loop].
  match goal with
  | |- context [category_score prompt ?p] =>
      destruct (category_score_ok prompt p) as (c1 & -> & H1l & H1u);
      [discriminate|]
  end.
  cbn [bind PyDict.item PyDict.get domain_weights String.eqb Ascii.eqb
       Bool.eqb domain_coverage_loop].
  match goal with
  | |- context [category_score prompt ?p] =>
      destruct (category_score_ok prompt p) as (c2 & -> & H2l & H2u);
      [discriminate|]
  end.
  cbn [bind PyDict.item PyDict.get domain_weights String.eqb Ascii.eqb
       Bool.eqb domain_coverage_loop].
  match goal with
  | |- context [category_score prompt ?p] =>
      destruct (category_score_ok prompt p) as (c3 & -> & H3l & H3u);
      [discriminate|]
  end.
  cbn [bind PyDict.item PyDict.get domain_weights String.eqb Ascii.eqb
       Bool.eqb domain_coverage_loop].
  eexists. split; [reflexivity|].
  split; nra.
Qed.

Lemma marker_fold (l : list string) (a : Q) :
  fold_left (fun score (_ : string) => score + 0.2) l a
  == a + 0.2 * inject_Z (Z.of_nat (length l)).
Proof.
  revert a. induction l as [|x l IH]; intros a.
  - simpl. ring.
  - cbn [fold_left length]. rewrite IH, Nat2Z.inj_succ.
    unfold Z.succ. rewrite inject_Z_plus. ring.
Qed.

Lemma marker_score_eq (prompt : string) :
  marker_score prompt
  == 0.2 * inject_Z (Z.of_nat (length (found_markers prompt))).
Proof. unfold marker_score. rewrite marker_fold. ring. Qed.

Lemma found_markers_le_4 (prompt : string) :
  (length (found_markers prompt) <= 4)%nat.
Proof.
  unfold found_markers.
  etransitivity; [apply length_filter|]. reflexivity.
Qed.

Lemma marker_score_bounds (prompt : string) :
  0 <= marker_score prompt <= 0.8.
Proof.
  rewrite marker_score_eq.
  pose proof (found_markers_le_4 prompt) as H.
  assert (H0 : 0 <= inject_Z (Z.of_nat (length (found_markers prompt)))).
  { unfold Qle. simpl. lia. }
  assert (H4 : inject_Z (Z.of_nat (length (found_markers prompt))) <= 4).
  { unfold Qle. simpl. lia. }
  split; nra.
Qed.

Lemma covered_le_total (prompt : string) (l : list dld_section) :
  (covered_sections prompt l <= length l)%nat.
Proof. unfold covered_sections. apply length_filter. Qed.

End QualityFacts.

Section Completeness.

Local Open Scope Q_scope.

(** the three contributions that [_verify_prompt_completeness] adds up *)
Lemma completeness_unfold (prompt : string) (ctx : dld_context)
  (l : list dld_section) :
  ctx_sections ctx = Some l -> l <> [] ->
  exists qa dc,
    _verify_prompt_completeness prompt ctx = Ok qa
    /\ _assess_domain_coverage prompt = Ok dc
    /\ 0 <= dc <= 1
    /\ metric qa = COMPLETENESS
    /\ score qa
       = py_min (marker_score prompt
                 + inject_Z (Z.of_nat (covered_sections prompt l))
                   / inject_Z (Z.of_nat (length l)) * 0.4
                 + dc * 0.2) 1.
Proof.
  intros Hctx Hne.
  destruct (domain_coverage_ok prompt) as (dc & Hdc & Hb).
  unfold _verify_prompt_completeness. cbv zeta. rewrite Hctx, Hdc.
  destruct l as [|s l]; [congruence|].
  cbn [length Nat.ltb Nat.leb bind read_coverage_ratio].
  eexists _, dc. split; [reflexivity|]. repeat split; try apply Hb.
Qed.

(** C6 (as stated, refuted): with all four markers at line starts, the
    marker check alone adds 0.8; and with a reference section that the
    prompt does not address (coverage ratio 0) the metric is above 0.6,
    the most that contributions of 0.4, 0.4 x 0 and 0.2 would allow. *)
Lemma completeness_markers_exceed_04 :
  found_markers four_markers_prompt
  = ["context"; "requirements"; "constraints"; "task"]
  /\ marker_score four_markers_prompt == 0.8
  /\ ~ marker_score four_markers_prompt <= 0.4
  /\ covered_sections four_markers_prompt [unaddressed_section] = 0%nat
  /\ exists qa,
       _verify_prompt_completeness four_markers_prompt
         {| ctx_sections := Some [unaddressed_section] |} = Ok qa
       /\ score qa == 0.8
       /\ ~ score qa <= 0.4 + 0.4 * 0 + 0.2.
Proof.
  split; [vm_compute; reflexivity|].
  split; [vm_compute; reflexivity|].
  split; [vm_compute; intros H; apply H; reflexivity|].
  split; [vm_compute; reflexivity|].
  eexists. split; [vm_compute; reflexivity|].
  split; [vm_compute; reflexivity|].
  vm_compute. intros H; apply H; reflexivity.
Qed.

(** C6 (amended): when the reference context has at least one section, the
    completeness metric is min(m + r + d, 1) where the marker check
    contributes m = 0.2 per marker found, at most 0.8; the reference
    coverage contributes r = 0.4 x covered/total, at most 0.4; the domain
    coverage contributes d = 0.2 x density, at most 0.2; and the metric
    lies in [0, 1]. *)
Theorem completeness_contributions :
  forall (prompt : string) (ctx : dld_context) (l : list dld_section),
    ctx_sections ctx = Some l -> l <> [] ->
    exists qa dc,
      _verify_prompt_completeness prompt ctx = Ok qa
      /\ _assess_domain_coverage prompt = Ok dc
      /\ let m := marker_score prompt in
         let r := inject_Z (Z.of_nat (covered_sections prompt l))
                  / inject_Z (Z.of_nat (length l)) * 0.4 in
         let d := dc * 0.2 in
         score qa = py_min (m + r + d) 1
         /\ m == 0.2 * inject_Z (Z.of_nat (length (found_markers prompt)))
         /\ (length (found_markers prompt) <= 4)%nat
         /\ 0 <= m <= 0.8
         /\ 0 <= r <= 0.4
         /\ 0 <= d <= 0.2
         /\ 0 <= score qa <= 1.
Proof.
  intros prompt ctx l Hctx Hne.
  destruct (completeness_unfold prompt ctx l Hctx Hne)
    as (qa & dc & Hqa & Hdc & [Hd0 Hd1] & _ & Hscore).
  exists qa, dc. split; [exact Hqa|]. split; [exact Hdc|]. cbv zeta.
  pose proof (marker_score_bounds prompt) as [Hm0 Hm1].
  pose proof (nat_ratio_nonneg (covered_sections prompt l) (length l)) as Hr0.
  assert (Hr1 : inject_Z (Z.of_nat (covered_sections prompt l))
                / inject_Z (Z.of_nat (length l)) <= 1).
  { apply nat_ratio_le_1; [apply covered_le_total|].
    destruct l; [congruence | simpl; lia]. }
  split; [exact Hscore|].
  split; [apply marker_score_eq|].
  split; [apply found_markers_le_4|].
  split; [split; assumption|].
  split; [split; nra|].
  split; [split; nra|].
  rewrite Hscore. split.
  - apply py_min_ge; [nra | discriminate].
  - apply py_min_le_r.
Qed.

Lemma completeness_contributions_witness :
  exists qa dc,
    _verify_prompt_completeness four_markers_prompt
      {| ctx_sections := Some [unaddressed_section] |} = Ok qa
    /\ _assess_domain_coverage four_markers_prompt = Ok dc
    /\ 0 <= score qa <= 1.
Proof.
  destruct (completeness_contributions four_markers_prompt
              {| ctx_sections := Some [unaddressed_section] |}
              [unaddressed_section] eq_refl)
    as (qa & dc & Hqa & Hdc & _ & _ & _ & _ & _ & _ & Hb).
  - discriminate.
  - exists qa, dc. auto.
Defined.

End Completeness.

(** ** The quality gate *)

Section Gate.

Local Open Scope Q_scope.

Variable _confirm_technical_accuracy :
  string -> dld_context -> result QualityAssessment.
Variables _verify_cursor_ai_compatibility _assess_clarity _assess_specificity
  _assess_actionability : string -> result QualityAssessment.

Abbreviation validate :=
  (validate_prompt _confirm_technical_accuracy
     _verify_cursor_ai_compatibility _assess_clarity _assess_specificity
     _assess_actionability).

Lemma completeness_unbound (prompt : string) (ctx : dld_context) :
  ctx_sections ctx = None \/ ctx_sections ctx = Some [] ->
  _verify_prompt_completeness prompt ctx
  = Raise (UnboundLocalError
      "cannot access local variable 'coverage_ratio' where it is not associated with a value").
Proof.
  intros Hctx.
  destruct (domain_coverage_ok prompt) as (dc & Hdc & _).
  unfold _verify_prompt_completeness. cbv zeta.
  destruct Hctx as [-> | ->]; rewrite Hdc; reflexivity.
Qed.

(** C10: when the reference context has no ["sections"] key or an empty
    list there, [_verify_prompt_completeness] reads the unbound local
    [coverage_ratio]; [validate_prompt] catches the fault and returns the
    failure dictionary: success false, quality score 0.0, no validation
    result, and the non-empty text of the fault as error. *)
Theorem validate_prompt_without_reference_sections :
  forall (prompt : string) (ctx : dld_context) (quality_threshold : Q),
    ctx_sections ctx = None \/ ctx_sections ctx = Some [] ->
    let r := validate prompt ctx quality_threshold in
    (exists msg,
        _verify_prompt_completeness prompt ctx = Raise (UnboundLocalError msg)
        /\ error r = Some msg /\ msg <> EmptyString)
    /\ success r = false
    /\ quality_score r = 0
    /\ validation_result r = None
    /\ detailed_scores r = None
    /\ recommendations r = None.
Proof.
  intros prompt ctx quality_threshold Hctx r.
  pose proof (completeness_unbound prompt ctx Hctx) as Hraise.
  unfold r, validate_prompt, all_assessments. rewrite Hraise. cbn [bind].
  split; [|repeat split].
  eexists. split; [reflexivity|]. split; [reflexivity | discriminate].
Qed.

(** C2: whenever [validate_prompt] produces a validation result, its
    [is_valid] flag is true exactly when the overall score is at least the
    threshold passed to that call, equality included; the score does not
    depend on the threshold, and another threshold on the same input gates
    the same score. *)
Theorem quality_gate_compares_overall_with_threshold :
  forall (prompt : string) (ctx : dld_context) (quality_threshold : Q)
         (vr : ValidationResult),
    validation_result (validate prompt ctx quality_threshold) = Some vr ->
    (is_valid vr = true <-> quality_threshold <= overall_score vr)
    /\ (quality_threshold == overall_score vr -> is_valid vr = true)
    /\ is_valid vr = Qgeb (overall_score vr) quality_threshold
    /\ overall_score vr = _calculate_overall_score (assessments vr)
    /\ quality_score (validate prompt ctx quality_threshold)
       = overall_score vr
    /\ forall threshold' : Q,
         exists vr',
           validation_result (validate prompt ctx threshold') = Some vr'
           /\ overall_score vr' = overall_score vr
           /\ assessments vr' = assessments vr
           /\ (is_valid vr' = true <-> threshold' <= overall_score vr).
Proof.
  intros prompt ctx quality_threshold vr.
  unfold validate_prompt.
  destruct (all_assessments _ _ _ _ _ prompt ctx) as [l|e];
    cbn [validation_result]; [|discriminate].
  intros [= <-]. cbn [is_valid overall_score assessments quality_score].
  split; [apply Qgeb_true|].
  split.
  { intros Heq. apply Qgeb_true. rewrite Heq. apply Qle_refl. }
  repeat split; try reflexivity.
  intros threshold'. eexists. split; [reflexivity|].
  cbn [is_valid overall_score assessments].
  repeat split; try reflexivity; apply Qgeb_true.
Qed.

End Gate.

Lemma validate_prompt_without_reference_sections_witness :
  success (validate_prompt fixed_accuracy (fixed CURSOR_AI_COMPATIBILITY)
             (fixed CLARITY) (fixed SPECIFICITY) (fixed ACTIONABILITY)
             four_markers_prompt {| ctx_sections := Some [] |} 0.8) = false.
Proof.
  apply (validate_prompt_without_reference_sections
           fixed_accuracy (fixed CURSOR_AI_COMPATIBILITY) (fixed CLARITY)
           (fixed SPECIFICITY) (fixed ACTIONABILITY)
           four_markers_prompt {| ctx_sections := Some [] |} 0.8).
  right. reflexivity.
Defined.

Lemma quality_gate_witness :
  exists vr,
    validation_result
      (validate_prompt fixed_accuracy (fixed CURSOR_AI_COMPATIBILITY)
         (fixed CLARITY) (fixed SPECIFICITY) (fixed ACTIONABILITY)
         four_markers_prompt {| ctx_sections := Some [unaddressed_section] |}
         0.8) = Some vr
    /\ (overall_score vr == 0.8)%Q
    /\ is_valid vr = true.
Proof.
  eexists. split; [vm_compute; reflexivity|].
  split; [vm_compute; reflexivity|].
  eapply (quality_gate_compares_overall_with_threshold
            fixed_accuracy (fixed CURSOR_AI_COMPATIBILITY) (fixed CLARITY)
            (fixed SPECIFICITY) (fixed ACTIONABILITY)
            four_markers_prompt
            {| ctx_sections := Some [unaddressed_section] |} 0.8);
    vm_compute; reflexivity.
Defined.

(** ** The stage orchestrator *)

Import Master.

Ltac exec :=
  cbn -[Qminus Qltb Qeq_bool Qplus Qmult append PyStr.is_empty all_stages].

Ltac use_hyp :=
  match goal with
  | H : ?lhs = _ |- context [?lhs] => rewrite H
  end.

Section OrchestratorFacts.

Variable world : Type.
Variable time_time : nat -> Q.
Variable float_str : Q -> string.
Variable validate_dld : world -> pyval -> pyval -> world * result pydict.
Variable generate_prompt :
  world -> pyval -> pyval -> pyval -> world * result pydict.
Variable validate_prompt :
  world -> pyval -> pyval -> pyval -> world * result pydict.
Variable optimize_prompt :
  world -> pyval -> pyval -> string -> world * result pydict.
Variable process_output :
  world -> pyval -> pyval -> pyval -> world * result pydict.
Variable analyze_performance :
  world -> pydict -> pydict -> world * result pydict.

Abbreviation run :=
  (process_dld world time_time float_str validate_dld generate_prompt
     validate_prompt optimize_prompt process_output analyze_performance).

Abbreviation body :=
  (pipeline_body world time_time float_str validate_dld generate_prompt
     validate_prompt optimize_prompt process_output analyze_performance).

Ltac split_next :=
  match goal with
  | |- context [validate_dld ?w ?x ?y] =>
      destruct (validate_dld w x y) as [? [?|?]] eqn:?
  | |- context [generate_prompt ?w ?x ?y ?z] =>
      destruct (generate_prompt w x y z) as [? [?|?]] eqn:?
  | |- context [validate_prompt ?w ?x ?y ?z] =>
      destruct (validate_prompt w x y z) as [? [?|?]] eqn:?
  | |- context [optimize_prompt ?w ?x ?y ?z] =>
      destruct (optimize_prompt w x y z) as [? [?|?]] eqn:?
  | |- context [process_output ?w ?x ?y ?z] =>
      destruct (process_output w x y z) as [? [?|?]] eqn:?
  | |- context [analyze_performance ?w ?x ?y] =>
      destruct (analyze_performance w x y) as [? [?|?]] eqn:?
  | |- context [PyDict.item ?k ?d] =>
      destruct (PyDict.item k d) as [?|?] eqn:?
  | |- context [truthy ?v] => destruct (truthy v) eqn:?
  | |- context [lt_float ?v ?t] => destruct (lt_float v t) as [[|]|?] eqn:?
  | |- context [if ?b then _ else _] => is_var b; destruct b
  | |- context [match ?d with [] => _ | _ :: _ => _ end] =>
      is_var d; destruct d
  end.

(** Every run returns a dictionary; the calls made are a prefix of the
    stage list; the initial keys stay in the instance dictionary. *)
Lemma process_dld_outcome (dld_content : string) (project_path : pyval)
  (output_format : string) (quality_threshold : Q) (include_feedback : bool)
  (a : master) (w : world) :
  exists a' w' resp executed rest,
    run dld_content project_path output_format quality_threshold
        include_feedback (a, w) = ((a', w'), Ok resp)
    /\ PyDict.get "dld_content" (pipeline_state a')
       = Some (VStr dld_content)
    /\ PyDict.get "project_path" (pipeline_state a') = Some project_path
    /\ PyDict.get "quality_threshold" (pipeline_state a')
       = Some (VNum quality_threshold)
    /\ PyDict.get "start_time" (pipeline_state a')
       = Some (VNum (time_time (ticks a)))
    /\ calls a' = (calls a ++ executed)%list
    /\ (executed ++ rest)%list = all_stages include_feedback
    /\ ((PyDict.get "success" resp = Some (VBool true)
         /\ rest = []
         /\ PyDict.get "error_message" resp = None
         /\ (exists v, PyDict.get "prompt" resp = Some v)
         /\ (exists v, PyDict.get "quality_score" resp = Some v
                       /\ lt_float v quality_threshold = Ok false)
         /\ (exists v, PyDict.get "validation_results" resp = Some v)
         /\ (exists v, PyDict.get "generation_metrics" resp = Some v)
         /\ (exists v, PyDict.get "execution_time" resp = Some v)
         /\ PyDict.get "pipeline_state" resp
            = Some (VDict (pipeline_state a')))
        \/ (PyDict.get "success" resp = Some (VBool false)
            /\ PyDict.get "quality_score" resp = Some (VNum 0)
            /\ (exists v, PyDict.get "validation_results" resp = Some v)
            /\ (exists v, PyDict.get "execution_time" resp = Some v)
            /\ PyDict.get "prompt" resp = None
            /\ exists msg,
                 PyDict.get "error_message" resp = Some (VStr msg)
                 /\ (msg <> EmptyString \/ exists e, msg = exn_str e))).
Proof.
  unfold process_dld, pipeline_body, try_except, mbind.
  exec.
  repeat (split_next; exec).
  all: eexists _, _, _.
  all: rewrite <- ?app_assoc.
  all: eexists _, _.
  all: split; [reflexivity|].
  all: do 6 (split; [reflexivity|]).
  all: first
    [ left; split; [reflexivity|]; split; [reflexivity|];
      split; [reflexivity|];
      split; [eexists; reflexivity|];
      split; [eexists; split; [reflexivity | eassumption]|];
      split; [eexists; reflexivity|];
      split; [eexists; reflexivity|];
      split; [eexists; reflexivity|];
      reflexivity
    | right; split; [reflexivity|]; split; [reflexivity|];
      split; [eexists; reflexivity|];
      split; [eexists; reflexivity|];
      split; [reflexivity|];
      eexists; split; [reflexivity|];
      first [ left; cbn; discriminate | right; eexists; reflexivity ] ].
Qed.

Ltac straight :=
  unfold process_dld, pipeline_body, try_except, mbind; exec;
  repeat (use_hyp; exec);
  eexists; rewrite <- ?app_assoc;
  repeat split; reflexivity.

(** the orchestrator when the [try] block is entered: the clock was read
    once and [pipeline_state] was assigned *)
Abbreviation started dld_content project_path output_format
  quality_threshold include_feedback a :=
  {| pipeline_state :=
       [("dld_content", VStr dld_content);
        ("project_path", project_path);
        ("output_format", VStr output_format);
        ("quality_threshold", VNum quality_threshold);
        ("include_feedback", VBool include_feedback);
        ("start_time", VNum (time_time (ticks a)))];
     execution_metrics := execution_metrics a;
     calls := calls a;
     ticks := S (ticks a) |}.

(** Every run returns a dictionary: a complete success, or the failure
    dictionary of one of the three gates or of a fault of the [try]
    block. *)
Lemma process_dld_cases (dld_content : string) (project_path : pyval)
  (output_format : string) (quality_threshold : Q) (include_feedback : bool)
  (a : master) (w : world) :
  exists a' w' resp executed rest,
    run dld_content project_path output_format quality_threshold
        include_feedback (a, w) = ((a', w'), Ok resp)
    /\ calls a' = (calls a ++ executed)%list
    /\ (executed ++ rest)%list = all_stages include_feedback
    /\ ((PyDict.get "success" resp = Some (VBool true)
         /\ rest = []
         /\ PyDict.get "error_message" resp = None
         /\ (exists v, PyDict.get "prompt" resp = Some v)
         /\ (exists v, PyDict.get "quality_score" resp = Some v
                       /\ lt_float v quality_threshold = Ok false)
         /\ (exists v, PyDict.get "validation_results" resp = Some v)
         /\ (exists v, PyDict.get "generation_metrics" resp = Some v)
         /\ (exists v, PyDict.get "execution_time" resp = Some v)
         /\ PyDict.get "pipeline_state" resp
            = Some (VDict (pipeline_state a')))
        \/ (PyDict.get "success" resp = Some (VBool false)
            /\ PyDict.get "quality_score" resp = Some (VNum 0)
            /\ (exists v, PyDict.get "validation_results" resp = Some v)
            /\ (exists v, PyDict.get "execution_time" resp = Some v)
            /\ PyDict.get "prompt" resp = None
            /\ exists msg,
                 PyDict.get "error_message" resp = Some (VStr msg)
                 /\ ((msg <> EmptyString
                      /\ ((msg = "Context validation failed"
                           /\ executed = [ContextValidation])
                          \/ (msg = "Prompt generation failed"
                              /\ executed
                                 = [ContextValidation; PromptGeneration])
                          \/ ((exists v,
                                 msg = "Quality threshold not met: "
                                         +:+ value_str float_str v +:+ " < "
                                         +:+ float_str quality_threshold)
                              /\ executed
                                 = [ContextValidation; PromptGeneration;
                                    QualityAssurance])))
                     \/ (exists e a1 w1,
                           body (time_time (ticks a)) quality_threshold
                                include_feedback
                                (started dld_content project_path
                                   output_format quality_threshold
                                   include_feedback a, w)
                           = ((a1, w1), Raise e)
                           /\ msg = exn_str e
                           /\ PyDict.get "validation_results" resp
                              = Some (VDict []))))).
Proof.
  unfold process_dld, pipeline_body, try_except, mbind.
  exec.
  repeat (split_next; exec).
  all: eexists _, _, _.
  all: rewrite <- ?app_assoc.
  all: eexists _, _.
  all: split; [reflexivity|].
  all: do 2 (split; [reflexivity|]).
  all: first
    [ left; split; [reflexivity|]; split; [reflexivity|];
      split; [reflexivity|];
      split; [eexists; reflexivity|];
      split; [eexists; split; [reflexivity | eassumption]|];
      split; [eexists; reflexivity|];
      split; [eexists; reflexivity|];
      split; [eexists; reflexivity|];
      reflexivity
    | right; split; [reflexivity|]; split; [reflexivity|];
      split; [eexists; reflexivity|];
      split; [eexists; reflexivity|];
      split; [reflexivity|];
      eexists; split; [reflexivity|];
      first
        [ left; split; [cbn; discriminate|];
          first
            [ left; split; reflexivity
            | right; left; split; reflexivity
            | right; right; split; [eexists; reflexivity | reflexivity] ]
        | right; eexists _, _, _;
          split; [reflexivity|]; split; reflexivity ] ].
Qed.

(** A fault of the [try] block ends the run with the failure dictionary
    that carries the text of the fault and an empty context. *)
Lemma process_dld_fault (dld_content : string) (project_path : pyval)
  (output_format : string) (quality_threshold : Q) (include_feedback : bool)
  (a : master) (w : world) :
  forall e a1 w1,
    body (time_time (ticks a)) quality_threshold include_feedback
         (started dld_content project_path output_format quality_threshold
            include_feedback a, w)
    = ((a1, w1), Raise e) ->
    exists a',
      run dld_content project_path output_format quality_threshold
          include_feedback (a, w)
      = ((a', w1),
         Ok [("success", VBool false);
             ("error_message", VStr (exn_str e));
             ("quality_score", VNum 0);
             ("validation_results", VDict []);
             ("execution_time",
              VNum (time_time (S (ticks a1)) - time_time (ticks a))%Q)])
      /\ calls a' = calls a1
      /\ pipeline_state a' = pipeline_state a1.
Proof.
  cbv zeta.
  unfold process_dld, pipeline_body, try_except, mbind.
  exec.
  repeat (split_next; exec).
  all: intros e' a1' w1' Heq; try discriminate Heq.
  all: injection Heq as <- <- <-.
  all: eexists; split; [reflexivity|]; split; reflexivity.
Qed.

(** C8 (amended): every run of [process_dld] returns a dictionary, never
    an exception, after calling a prefix of the stage list.  It stops at
    the first of three gates - the validation result reports failure, the
    generation result reports failure, the quality score is below the
    caller's threshold - without calling any later sub-agent, and answers
    with the failure dictionary: success false, quality score 0.0 and the
    gate's non-empty error message.  A fault raised in any stage, and any
    other fault of the [try] block, gives the same dictionary with the
    text of the fault as message and an empty context.  The results of the
    LLM, output and feedback stages are not inspected for their success
    flags: whatever they report, the run goes on and returns the success
    dictionary, which is returned only after every stage was called, with
    a quality score not below the threshold, and holds prompt, quality
    score, validation results, generation metrics, execution time and
    pipeline state. *)
Theorem orchestrator_gates_and_uniform_failure :
  forall (dld_content : string) (project_path : pyval)
         (output_format : string) (quality_threshold : Q)
         (include_feedback : bool) (a : master) (w : world),
    let go := run dld_content project_path output_format quality_threshold
                  include_feedback (a, w) in
    let failure (e : exn) (reading : nat) :=
      [("success", VBool false);
       ("error_message", VStr (exn_str e));
       ("quality_score", VNum 0);
       ("validation_results", VDict []);
       ("execution_time",
        VNum (time_time reading - time_time (ticks a))%Q)] in
    let stored vr gr qr lr outr :=
      [("dld_content", VStr dld_content);
       ("project_path", project_path);
       ("output_format", VStr output_format);
       ("quality_threshold", VNum quality_threshold);
       ("include_feedback", VBool include_feedback);
       ("start_time", VNum (time_time (ticks a)));
       ("validation_result", VDict vr);
       ("generation_result", VDict gr);
       ("quality_result", VDict qr);
       ("llm_result", VDict lr);
       ("output_result", VDict outr)] in
    (* every run returns a complete success or the uniform failure *)
    (exists a' w' resp executed rest,
        go = ((a', w'), Ok resp)
        /\ calls a' = (calls a ++ executed)%list
        /\ (executed ++ rest)%list = all_stages include_feedback
        /\ ((PyDict.get "success" resp = Some (VBool true)
             /\ rest = []
             /\ PyDict.get "error_message" resp = None
             /\ (exists v, PyDict.get "prompt" resp = Some v)
             /\ (exists v, PyDict.get "quality_score" resp = Some v
                           /\ lt_float v quality_threshold = Ok false)
             /\ (exists v, PyDict.get "validation_results" resp = Some v)
             /\ (exists v, PyDict.get "generation_metrics" resp = Some v)
             /\ (exists v, PyDict.get "execution_time" resp = Some v)
             /\ PyDict.get "pipeline_state" resp
                = Some (VDict (pipeline_state a')))
            \/ (PyDict.get "success" resp = Some (VBool false)
                /\ PyDict.get "quality_score" resp = Some (VNum 0)
                /\ (exists v, PyDict.get "validation_results" resp = Some v)
                /\ (exists v, PyDict.get "execution_time" resp = Some v)
                /\ PyDict.get "prompt" resp = None
                /\ exists msg,
                     PyDict.get "error_message" resp = Some (VStr msg)
                     /\ ((msg <> EmptyString
                          /\ ((msg = "Context validation failed"
                               /\ executed = [ContextValidation])
                              \/ (msg = "Prompt generation failed"
                                  /\ executed
                                     = [ContextValidation; PromptGeneration])
                              \/ ((exists v,
                                     msg = "Quality threshold not met: "
                                             +:+ value_str float_str v
                                             +:+ " < "
                                             +:+ float_str quality_threshold)
                                  /\ executed
                                     = [ContextValidation; PromptGeneration;
                                        QualityAssurance])))
                         \/ (exists e a1 w1,
                               body (time_time (ticks a)) quality_threshold
                                    include_feedback
                                    (started dld_content project_path
                                       output_format quality_threshold
                                       include_feedback a, w)
                               = ((a1, w1), Raise e)
                               /\ msg = exn_str e
                               /\ PyDict.get "validation_results" resp
                                  = Some (VDict []))))))
    (* gate 1: the validation result reports failure *)
    /\ (forall w1 vr ok,
          validate_dld w (VStr dld_content) project_path = (w1, Ok vr) ->
          PyDict.item "success" vr = Ok ok -> truthy ok = false ->
          exists a',
            go = ((a', w1),
                  Ok [("success", VBool false);
                      ("error_message", VStr "Context validation failed");
                      ("quality_score", VNum 0);
                      ("validation_results", VDict vr);
                      ("execution_time",
                       VNum (time_time (S (ticks a))
                             - time_time (ticks a))%Q)])
            /\ calls a' = (calls a ++ [ContextValidation])%list)
    (* gate 2: the generation result reports failure *)
    /\ (forall w1 vr ok vd w2 gr ok',
          validate_dld w (VStr dld_content) project_path = (w1, Ok vr) ->
          PyDict.item "success" vr = Ok ok -> truthy ok = true ->
          PyDict.item "validated_dld" vr = Ok vd ->
          generate_prompt w1 vd project_path (VStr output_format)
          = (w2, Ok gr) ->
          PyDict.item "success" gr = Ok ok' -> truthy ok' = false ->
          exists a',
            go = ((a', w2),
                  Ok [("success", VBool false);
                      ("error_message", VStr "Prompt generation failed");
                      ("quality_score", VNum 0);
                      ("validation_results", VDict gr);
                      ("execution_time",
                       VNum (time_time (S (ticks a))
                             - time_time (ticks a))%Q)])
            /\ calls a'
               = (calls a ++ [ContextValidation; PromptGeneration])%list)
    (* gate 3: the quality score is below the threshold *)
    /\ (forall w1 vr ok vd w2 gr ok' gp w3 qr v,
          validate_dld w (VStr dld_content) project_path = (w1, Ok vr) ->
          PyDict.item "success" vr = Ok ok -> truthy ok = true ->
          PyDict.item "validated_dld" vr = Ok vd ->
          generate_prompt w1 vd project_path (VStr output_format)
          = (w2, Ok gr) ->
          PyDict.item "success" gr = Ok ok' -> truthy ok' = true ->
          PyDict.item "generated_prompt" gr = Ok gp ->
          validate_prompt w2 gp vd (VNum quality_threshold) = (w3, Ok qr) ->
          PyDict.item "quality_score" qr = Ok v ->
          lt_float v quality_threshold = Ok true ->
          exists a',
            go = ((a', w3),
                  Ok [("success", VBool false);
                      ("error_message",
                       VStr ("Quality threshold not met: "
                               +:+ value_str float_str v +:+ " < "
                               +:+ float_str quality_threshold));
                      ("quality_score", VNum 0);
                      ("validation_results", VDict qr);
                      ("execution_time",
                       VNum (time_time (S (ticks a))
                             - time_time (ticks a))%Q)])
            /\ calls a'
               = (calls a ++ [ContextValidation; PromptGeneration;
                              QualityAssurance])%list)
    (* a fault anywhere in the [try] block *)
    /\ (forall e a1 w1,
          body (time_time (ticks a)) quality_threshold include_feedback
               (started dld_content project_path output_format
                  quality_threshold include_feedback a, w)
          = ((a1, w1), Raise e) ->
          exists a',
            go = ((a', w1), Ok (failure e (S (ticks a1))))
            /\ calls a' = calls a1)
    (* a fault of the first stage *)
    /\ (forall w1 e,
          validate_dld w (VStr dld_content) project_path = (w1, Raise e) ->
          exists a',
            go = ((a', w1), Ok (failure e (S (S (ticks a)))))
            /\ calls a' = (calls a ++ [ContextValidation])%list)
    (* the first stage passes its gate *)
    /\ (forall w1 vr ok vd,
          validate_dld w (VStr dld_content) project_path = (w1, Ok vr) ->
          PyDict.item "success" vr = Ok ok -> truthy ok = true ->
          PyDict.item "validated_dld" vr = Ok vd ->
          (* a fault of the second stage *)
          (forall w2 e,
              generate_prompt w1 vd project_path (VStr output_format)
              = (w2, Raise e) ->
              exists a',
                go = ((a', w2), Ok (failure e (S (S (ticks a)))))
                /\ calls a'
                   = (calls a ++ [ContextValidation; PromptGeneration])%list)
          (* the second stage passes its gate *)
          /\ (forall w2 gr ok' gp,
                generate_prompt w1 vd project_path (VStr output_format)
                = (w2, Ok gr) ->
                PyDict.item "success" gr = Ok ok' -> truthy ok' = true ->
                PyDict.item "generated_prompt" gr = Ok gp ->
                (* a fault of the third stage *)
                (forall w3 e,
                    validate_prompt w2 gp vd (VNum quality_threshold)
                    = (w3, Raise e) ->
                    exists a',
                      go = ((a', w3), Ok (failure e (S (S (ticks a)))))
                      /\ calls a'
                         = (calls a ++ [ContextValidation; PromptGeneration;
                                        QualityAssurance])%list)
                (* the third stage passes its gate *)
                /\ (forall w3 qr v,
                      validate_prompt w2 gp vd (VNum quality_threshold)
                      = (w3, Ok qr) ->
                      PyDict.item "quality_score" qr = Ok v ->
                      lt_float v quality_threshold = Ok false ->
                      (* a fault of the LLM stage *)
                      (forall w4 e,
                          optimize_prompt w3 gp (VDict qr) "gpt-5"
                          = (w4, Raise e) ->
                          exists a',
                            go = ((a', w4),
                                  Ok (failure e (S (S (ticks a)))))
                            /\ calls a'
                               = (calls a
                                    ++ [ContextValidation; PromptGeneration;
                                        QualityAssurance;
                                        LLMIntegration])%list)
                      (* the LLM result, whatever its success flag *)
                      /\ (forall w4 lr op,
                            optimize_prompt w3 gp (VDict qr) "gpt-5"
                            = (w4, Ok lr) ->
                            PyDict.item "optimized_prompt" lr = Ok op ->
                            (* a fault of the output stage *)
                            (forall w5 e,
                                process_output w4 op (VStr output_format)
                                               (VDict qr)
                                = (w5, Raise e) ->
                                exists a',
                                  go = ((a', w5),
                                        Ok (failure e (S (S (ticks a)))))
                                  /\ calls a'
                                     = (calls a
                                          ++ [ContextValidation;
                                              PromptGeneration;
                                              QualityAssurance;
                                              LLMIntegration;
                                              OutputProcessing])%list)
                            (* the output result, whatever its success
                               flag *)
                            /\ (forall w5 outr fp m,
                                  process_output w4 op (VStr output_format)
                                                 (VDict qr)
                                  = (w5, Ok outr) ->
                                  PyDict.item "final_prompt" outr = Ok fp ->
                                  PyDict.item "metrics" gr = Ok m ->
                                  (* no feedback loop: success *)
                                  (include_feedback = false ->
                                   exists a',
                                     go = ((a', w5),
                                           Ok [("success", VBool true);
                                               ("prompt", fp);
                                               ("quality_score", v);
                                               ("validation_results",
                                                VDict vr);
                                               ("generation_metrics", m);
                                               ("execution_time",
                                                VNum (time_time (S (ticks a))
                                                      - time_time (ticks a))%Q);
                                               ("pipeline_state",
                                                VDict (stored vr gr qr lr
                                                              outr))])
                                     /\ calls a'
                                        = (calls a ++ all_stages false)%list)
                                  (* a fault of the feedback loop *)
                                  /\ (include_feedback = true ->
                                      forall w6 e,
                                        analyze_performance w5
                                          (stored vr gr qr lr outr)
                                          (execution_metrics a)
                                        = (w6, Raise e) ->
                                        exists a',
                                          go = ((a', w6),
                                                Ok (failure e
                                                      (S (S (ticks a)))))
                                          /\ calls a'
                                             = (calls a
                                                  ++ all_stages true)%list)
                                  (* the feedback result, whatever its
                                     success flag *)
                                  /\ (include_feedback = true ->
                                      forall w6 fr,
                                        analyze_performance w5
                                          (stored vr gr qr lr outr)
                                          (execution_metrics a)
                                        = (w6, Ok fr) ->
                                        exists a' resp,
                                          go = ((a', w6), Ok resp)
                                          /\ PyDict.get "success" resp
                                             = Some (VBool true)
                                          /\ PyDict.get "prompt" resp
                                             = Some fp
                                          /\ PyDict.get "error_message" resp
                                             = None
                                          /\ calls a'
                                             = (calls a
                                                  ++ all_stages true)%list)))))).
Proof.
  intros dld_content project_path output_format quality_threshold
    include_feedback a w go failure stored.
  split; [apply process_dld_cases|].
  split.
  { intros w1 vr ok Hv Hok Ht. unfold go. straight. }
  split.
  { intros w1 vr ok vd w2 gr ok' Hv Hok Ht Hvd Hg Hok' Ht'. unfold go.
    straight. }
  split.
  { intros w1 vr ok vd w2 gr ok' gp w3 qr v Hv Hok Ht Hvd Hg Hok' Ht' Hgp
      Hq Hqs Hlt. unfold go. straight. }
  split.
  { intros e a1 w1 Hbody.
    destruct (process_dld_fault dld_content project_path output_format
                quality_threshold include_feedback a w e a1 w1 Hbody)
      as (a' & Hrun & Hcalls & _).
    exists a'. split; assumption. }
  split.
  { intros w1 e Hv. unfold go, failure. straight. }
  intros w1 vr ok vd Hv Hok Ht Hvd. split.
  { intros w2 e Hg. unfold go, failure. straight. }
  intros w2 gr ok' gp Hg Hok' Ht' Hgp. split.
  { intros w3 e Hq. unfold go, failure. straight. }
  intros w3 qr v Hq Hqs Hlt. split.
  { intros w4 e Hl. unfold go, failure. straight. }
  intros w4 lr op Hl Hop. split.
  { intros w5 e Ho. unfold go, failure. straight. }
  intros w5 outr fp m Ho Hfp Hm. split; [|split].
  - intros ->. unfold go, stored. straight.
  - intros -> w6 e Hf. unfold go, failure, stored in *. straight.
  - intros -> w6 fr Hf. unfold go, stored in *.
    unfold process_dld, pipeline_body, try_except, mbind; exec.
    repeat (use_hyp; exec).
    destruct fr; exec; eexists _, _; rewrite <- ?app_assoc;
      repeat split; reflexivity.
Qed.

(** C9 (amended): [process_dld] replaces the instance dictionary
    [pipeline_state] by a new one at the start of every call, so a run
    neither reads nor keeps anything of the dictionary left by an earlier
    run; but the dictionary is an attribute of the long-lived orchestrator
    and is not discarded: after the call has returned, it still holds the
    run's document, project path, threshold and start time, and
    [get_pipeline_status] hands it out. *)
Theorem pipeline_state_fresh_per_call_but_retained :
  forall (dld_content : string) (project_path : pyval)
         (output_format : string) (quality_threshold : Q)
         (include_feedback : bool) (a : master) (w : world),
    (forall stale : pydict,
        run dld_content project_path output_format quality_threshold
            include_feedback
            ({| pipeline_state := stale;
                execution_metrics := execution_metrics a;
                calls := calls a;
                ticks := ticks a |}, w)
        = run dld_content project_path output_format quality_threshold
              include_feedback (a, w))
    /\ exists a' w' resp,
         run dld_content project_path output_format quality_threshold
             include_feedback (a, w) = ((a', w'), Ok resp)
         /\ PyDict.get "dld_content" (pipeline_state a')
            = Some (VStr dld_content)
         /\ PyDict.get "project_path" (pipeline_state a')
            = Some project_path
         /\ PyDict.get "quality_threshold" (pipeline_state a')
            = Some (VNum quality_threshold)
         /\ PyDict.get "start_time" (pipeline_state a')
            = Some (VNum (time_time (ticks a)))
         /\ get_pipeline_status world (a', w')
            = ((a', w'),
               Ok [("pipeline_state", VDict (pipeline_state a'));
                   ("execution_metrics", VDict (execution_metrics a'))]).
Proof.
  intros dld_content project_path output_format quality_threshold
    include_feedback a w.
  split.
  - intros stale. destruct a. reflexivity.
  - destruct (process_dld_outcome dld_content project_path output_format
                quality_threshold include_feedback a w)
      as (a' & w' & resp & executed & rest & Hrun & H1 & H2 & H3 & H4 & _).
    exists a', w', resp. repeat split; assumption || reflexivity.
Qed.

End OrchestratorFacts.

(** C8 (as stated, refuted): the LLM integration reports failure
    (no client), yet the orchestrator goes on to call the output stage and
    returns a success dictionary without any error field. *)
Lemma orchestrator_continues_past_failed_llm_stage :
  exists a' resp llm,
    ex_process_dld ex_validate_dld "design doc" 0.8 false (init, tt)
    = ((a', tt), Ok resp)
    /\ calls a'
       = [ContextValidation; PromptGeneration; QualityAssurance;
          LLMIntegration; OutputProcessing]
    /\ PyDict.get "llm_result" (pipeline_state a') = Some (VDict llm)
    /\ PyDict.get "success" llm = Some (VBool false)
    /\ PyDict.get "success" resp = Some (VBool true)
    /\ PyDict.get "error_message" resp = None.
Proof.
  eexists _, _, _. split; [vm_compute; reflexivity|].
  repeat split; reflexivity.
Qed.

Lemma orchestrator_gate_witness :
  exists a',
    ex_process_dld ex_validate_dld_invalid "design doc" 0.8 false (init, tt)
    = ((a', tt),
       Ok [("success", VBool false);
           ("error_message", VStr "Context validation failed");
           ("quality_score", VNum 0);
           ("validation_results",
            VDict [("success", VBool false);
                   ("validation_result", VNone);
                   ("validated_dld",
                    VDict [("original_content", VStr "design doc")]);
                   ("recommendations", VList [])]);
           ("execution_time", VNum (ex_clock 1 - ex_clock 0)%Q)])
    /\ calls a' = [ContextValidation].
Proof.
  apply (proj1 (proj2 (orchestrator_gates_and_uniform_failure
                         unit ex_clock ex_float_str ex_validate_dld_invalid
                         ex_generate_prompt ex_validate_prompt
                         ex_optimize_prompt ex_process_output
                         ex_analyze_performance
                         "design doc" VNone "cursor_ai" 0.8 false init tt))
           tt _ (VBool false)); reflexivity.
Defined.

(** C9 (as stated, refuted): after [process_dld] has returned, the
    orchestrator object still holds the document of that run, and
    [get_pipeline_status] returns it. *)
Lemma pipeline_state_survives_the_run :
  exists a' resp status kept,
    ex_process_dld ex_validate_dld_invalid "design doc" 0.8 false (init, tt)
    = ((a', tt), Ok resp)
    /\ PyDict.get "dld_content" (pipeline_state a')
       = Some (VStr "design doc")
    /\ get_pipeline_status unit (a', tt) = ((a', tt), Ok status)
    /\ PyDict.get "pipeline_state" status = Some (VDict kept)
    /\ PyDict.get "dld_content" kept = Some (VStr "design doc").
Proof.
  eexists _, _, _, _. split; [vm_compute; reflexivity|].
  repeat split; reflexivity.
Qed.

(** * Further properties *)

(** ** The orchestrator: faults, feedback and stored results *)

Import MoreExamples.

Section OrchestratorMore.

Variable world : Type.
Variable time_time : nat -> Q.
Variable float_str : Q -> string.
Variable validate_dld : world -> pyval -> pyval -> world * result pydict.
Variable generate_prompt :
  world -> pyval -> pyval -> pyval -> world * result pydict.
Variable validate_prompt :
  world -> pyval -> pyval -> pyval -> world * result pydict.
Variable optimize_prompt :
  world -> pyval -> pyval -> string -> world * result pydict.
Variable process_output :
  world -> pyval -> pyval -> pyval -> world * result pydict.
Variable analyze_performance :
  world -> pydict -> pydict -> world * result pydict.

Abbreviation run' :=
  (process_dld world time_time float_str validate_dld generate_prompt
     validate_prompt optimize_prompt process_output analyze_performance).

Ltac split_stage :=
  match goal with
  | |- context [validate_dld ?w ?x ?y] =>
      destruct (validate_dld w x y) as [? [?|?]] eqn:?
  | |- context [generate_prompt ?w ?x ?y ?z] =>
      destruct (generate_prompt w x y z) as [? [?|?]] eqn:?
  | |- context [validate_prompt ?w ?x ?y ?z] =>
      destruct (validate_prompt w x y z) as [? [?|?]] eqn:?
  | |- context [optimize_prompt ?w ?x ?y ?z] =>
      destruct (optimize_prompt w x y z) as [? [?|?]] eqn:?
  | |- context [process_output ?w ?x ?y ?z] =>
      destruct (process_output w x y z) as [? [?|?]] eqn:?
  | |- context [analyze_performance ?w ?x ?y] =>
      destruct (analyze_performance w x y) as [? [?|?]] eqn:?
  | |- context [PyDict.item ?k ?d] =>
      destruct (PyDict.item k d) as [?|?] eqn:?
  | |- context [truthy ?v] => destruct (truthy v) eqn:?
  | |- context [lt_float ?v ?t] => destruct (lt_float v t) as [[|]|?] eqn:?
  | |- context [if ?b then _ else _] => is_var b; destruct b
  | |- context [match ?d with [] => _ | _ :: _ => _ end] =>
      is_var d; destruct d
  end.

Ltac start :=
  unfold process_dld, pipeline_body, try_except, mbind; exec.

(** A fault raised by a sub-agent, or a stage result without the key the
    orchestrator reads, ends the run with the uniform failure dictionary:
    the message is the text of the fault, the context is empty, no later
    sub-agent is called and the metrics dictionary is left alone. *)
Theorem stage_fault_becomes_failure :
  forall (dld_content : string) (project_path : pyval)
         (output_format : string) (quality_threshold : Q)
         (include_feedback : bool) (a : master) (w : world),
    let go := run' dld_content project_path output_format quality_threshold
                   include_feedback (a, w) in
    let failure (e : exn) :=
      [("success", VBool false);
       ("error_message", VStr (exn_str e));
       ("quality_score", VNum 0);
       ("validation_results", VDict []);
       ("execution_time",
        VNum (time_time (S (S (ticks a))) - time_time (ticks a))%Q)] in
    (forall w1 e,
        validate_dld w (VStr dld_content) project_path = (w1, Raise e) ->
        exists a',
          go = ((a', w1), Ok (failure e))
          /\ calls a' = (calls a ++ [ContextValidation])%list
          /\ execution_metrics a' = execution_metrics a)
    /\ (forall w1 vr,
          validate_dld w (VStr dld_content) project_path = (w1, Ok vr) ->
          PyDict.get "success" vr = None ->
          exists a',
            go = ((a', w1), Ok (failure (KeyError "success")))
            /\ calls a' = (calls a ++ [ContextValidation])%list
            /\ execution_metrics a' = execution_metrics a)
    /\ (forall w1 vr ok vd w2 e,
          validate_dld w (VStr dld_content) project_path = (w1, Ok vr) ->
          PyDict.item "success" vr = Ok ok -> truthy ok = true ->
          PyDict.item "validated_dld" vr = Ok vd ->
          generate_prompt w1 vd project_path (VStr output_format)
          = (w2, Raise e) ->
          exists a',
            go = ((a', w2), Ok (failure e))
            /\ calls a'
               = (calls a ++ [ContextValidation; PromptGeneration])%list
            /\ execution_metrics a' = execution_metrics a).
Proof.
  intros dld_content project_path output_format quality_threshold
    include_feedback a w go failure.
  split; [|split].
  - intros w1 e Hv. unfold go, failure. start.
    repeat (use_hyp; exec).
    eexists. rewrite <- ?app_assoc. repeat split; reflexivity.
  - intros w1 vr Hv Hk. unfold go, failure. start.
    repeat (use_hyp; exec).
    unfold PyDict.item. rewrite Hk. exec.
    eexists. rewrite <- ?app_assoc. repeat split; reflexivity.
  - intros w1 vr ok vd w2 e Hv Hok Ht Hvd Hg. unfold go, failure. start.
    repeat (use_hyp; exec).
    eexists. rewrite <- ?app_assoc. repeat split; reflexivity.
Qed.

(** The feedback loop is called only when it is enabled: with
    [include_feedback = False] no run calls it, and with
    [include_feedback = True] a successful run calls it last, after the
    five other stages. *)
Theorem feedback_loop_only_when_enabled :
  forall (dld_content : string) (project_path : pyval)
         (output_format : string) (quality_threshold : Q)
         (include_feedback : bool) (a : master) (w : world),
    exists a' w' resp executed,
      run' dld_content project_path output_format quality_threshold
           include_feedback (a, w) = ((a', w'), Ok resp)
      /\ calls a' = (calls a ++ executed)%list
      /\ (include_feedback = false -> FeedbackLoop ∉ executed)
      /\ (include_feedback = true ->
          PyDict.get "success" resp = Some (VBool true) ->
          executed = [ContextValidation; PromptGeneration; QualityAssurance;
                      LLMIntegration; OutputProcessing; FeedbackLoop]).
Proof.
  intros dld_content project_path output_format quality_threshold
    include_feedback a w.
  destruct (process_dld_outcome world time_time float_str validate_dld
              generate_prompt validate_prompt optimize_prompt process_output
              analyze_performance dld_content project_path output_format
              quality_threshold include_feedback a w)
    as (a' & w' & resp & executed & rest & Hrun & _ & _ & _ & _ & Hc & Hp
        & Hcases).
  exists a', w', resp, executed. split; [exact Hrun|]. split; [exact Hc|].
  split.
  - intros -> Hin.
    assert (Hin' : FeedbackLoop ∈ (executed ++ rest)%list)
      by (apply elem_of_app; by left).
    rewrite Hp in Hin'. unfold all_stages in Hin'. simpl in Hin'.
    rewrite !elem_of_cons, elem_of_nil in Hin'.
    destruct Hin' as [H|[H|[H|[H|[H|[]]]]]]; discriminate.
  - intros -> Hs. destruct Hcases as [(_ & -> & _)|(Hf & _)].
    + rewrite app_nil_r in Hp. exact Hp.
    + congruence.
Qed.

(** The third gate reads only the score: whatever the quality result says
    under ["success"], a score that is not below the threshold lets the
    run go on to the LLM integration. *)
Theorem quality_gate_ignores_success_flag :
  forall (dld_content : string) (project_path : pyval)
         (output_format : string) (quality_threshold : Q)
         (include_feedback : bool) (a : master) (w : world)
         w1 vr ok vd w2 gr ok' gp w3 qr v,
    validate_dld w (VStr dld_content) project_path = (w1, Ok vr) ->
    PyDict.item "success" vr = Ok ok -> truthy ok = true ->
    PyDict.item "validated_dld" vr = Ok vd ->
    generate_prompt w1 vd project_path (VStr output_format) = (w2, Ok gr) ->
    PyDict.item "success" gr = Ok ok' -> truthy ok' = true ->
    PyDict.item "generated_prompt" gr = Ok gp ->
    validate_prompt w2 gp vd (VNum quality_threshold) = (w3, Ok qr) ->
    PyDict.item "quality_score" qr = Ok v ->
    lt_float v quality_threshold = Ok false ->
    exists a' w' resp later,
      run' dld_content project_path output_format quality_threshold
           include_feedback (a, w) = ((a', w'), Ok resp)
      /\ calls a'
         = (calls a ++ [ContextValidation; PromptGeneration;
                        QualityAssurance; LLMIntegration] ++ later)%list.
Proof.
  intros dld_content project_path output_format quality_threshold
    include_feedback a w w1 vr ok vd w2 gr ok' gp w3 qr v
    Hv Hok Ht Hvd Hg Hok' Ht' Hgp Hq Hqs Hlt.
  start.
  repeat (first [use_hyp | split_stage]; exec).
  all: eexists _, _, _; rewrite <- ?app_assoc; eexists;
    split; reflexivity.
Qed.

(** What a successful run leaves behind.  The success dictionary is
    assembled from the stage results, each of which is stored in the
    instance dictionary under its own key; the run reads the clock twice
    and records the elapsed time in the metrics dictionary. *)
Theorem successful_run_effects :
  forall (dld_content : string) (project_path : pyval)
         (output_format : string) (quality_threshold : Q)
         (include_feedback : bool) (a : master) (w : world)
         (a' : master) (w' : world) (resp : pydict),
    run' dld_content project_path output_format quality_threshold
         include_feedback (a, w) = ((a', w'), Ok resp) ->
    PyDict.get "success" resp = Some (VBool true) ->
    exists vr gr qr lr outr,
       PyDict.get "validation_result" (pipeline_state a') = Some (VDict vr)
       /\ PyDict.get "generation_result" (pipeline_state a')
          = Some (VDict gr)
       /\ PyDict.get "quality_result" (pipeline_state a') = Some (VDict qr)
       /\ PyDict.get "llm_result" (pipeline_state a') = Some (VDict lr)
       /\ PyDict.get "output_result" (pipeline_state a')
          = Some (VDict outr)
       /\ PyDict.get "validation_results" resp = Some (VDict vr)
       /\ PyDict.get "final_prompt" outr = PyDict.get "prompt" resp
       /\ PyDict.get "quality_score" qr = PyDict.get "quality_score" resp
       /\ PyDict.get "metrics" gr = PyDict.get "generation_metrics" resp
       /\ PyDict.get "execution_time" resp
          = Some (VNum (time_time (S (ticks a)) - time_time (ticks a))%Q)
       /\ execution_metrics a'
          = PyDict.set "total_time"
              (VNum (time_time (S (ticks a)) - time_time (ticks a))%Q)
              (execution_metrics a)
       /\ ticks a' = S (S (ticks a)).
Proof.
  intros dld_content project_path output_format quality_threshold
    include_feedback a w a' w' resp.
  start.
  repeat (split_stage; exec).
  all: intros Hrun; injection Hrun as <- <- <-.
  all: intros Hs; cbn in Hs; try discriminate Hs.
  all: unfold PyDict.item in *;
    repeat match goal with
      | H : match PyDict.get ?k ?d with _ => _ end = Ok _ |- _ =>
          destruct (PyDict.get k d) eqn:?; [injection H as <- | discriminate H]
      end.
  all: eexists _, _, _, _, _; repeat split; try reflexivity; eassumption.
Qed.

End OrchestratorMore.

Lemma stage_fault_becomes_failure_witness :
  exists a',
    process_dld unit ex_clock ex_float_str ex_validate_dld_raises
      ex_generate_prompt ex_validate_prompt ex_optimize_prompt
      ex_process_output ex_analyze_performance
      "design doc" VNone "cursor_ai" 0.8 true (init, tt)
    = ((a', tt),
       Ok [("success", VBool false);
           ("error_message",
            VStr "'NoneType' object has no attribute 'validate_dld'");
           ("quality_score", VNum 0);
           ("validation_results", VDict []);
           ("execution_time", VNum (ex_clock 2 - ex_clock 0)%Q)])
    /\ calls a' = [ContextValidation]
    /\ execution_metrics a' = [].
Proof.
  exact (proj1 (stage_fault_becomes_failure
                  unit ex_clock ex_float_str ex_validate_dld_raises
                  ex_generate_prompt ex_validate_prompt ex_optimize_prompt
                  ex_process_output ex_analyze_performance
                  "design doc" VNone "cursor_ai" 0.8 true init tt)
               tt
               (AttributeError
                  "'NoneType' object has no attribute 'validate_dld'")
               eq_refl).
Defined.

Lemma feedback_loop_only_when_enabled_witness :
  exists a' resp executed,
    ex_process_dld ex_validate_dld "design doc" 0.8 false (init, tt)
    = ((a', tt), Ok resp)
    /\ calls a' = executed
    /\ FeedbackLoop ∉ executed.
Proof.
  destruct (feedback_loop_only_when_enabled
              unit ex_clock ex_float_str ex_validate_dld
              ex_generate_prompt ex_validate_prompt ex_optimize_prompt
              ex_process_output ex_analyze_performance
              "design doc" VNone "cursor_ai" 0.8 false init tt)
    as (a' & w' & resp & executed & Hrun & Hc & Hno & _).
  exists a', resp, executed. destruct w'.
  split; [exact Hrun|]. split; [exact Hc|]. apply Hno. reflexivity.
Defined.

Lemma quality_gate_ignores_success_flag_witness :
  exists a' resp later,
    process_dld unit ex_clock ex_float_str ex_validate_dld
      ex_generate_prompt ex_validate_prompt_failed ex_optimize_prompt
      ex_process_output ex_analyze_performance
      "design doc" VNone "cursor_ai" 0 false (init, tt)
    = ((a', tt), Ok resp)
    /\ calls a'
       = ([ContextValidation; PromptGeneration; QualityAssurance;
           LLMIntegration] ++ later)%list.
Proof.
  edestruct (quality_gate_ignores_success_flag
               unit ex_clock ex_float_str ex_validate_dld
               ex_generate_prompt ex_validate_prompt_failed
               ex_optimize_prompt ex_process_output ex_analyze_performance
               "design doc" VNone "cursor_ai" 0 false init tt)
    as (a' & w' & resp & later & Hrun & Hc);
    [reflexivity .. |].
  exists a', resp, later. destruct w'. split; [exact Hrun | exact Hc].
Defined.

Lemma successful_run_effects_witness :
  exists a' resp,
    ex_process_dld ex_validate_dld "design doc" 0.8 false (init, tt)
    = ((a', tt), Ok resp)
    /\ ticks a' = 2%nat
    /\ PyDict.get "prompt" resp
       = Some (VStr "Implement the AMF handover procedure").
Proof.
  eexists _, _. split; [vm_compute; reflexivity|].
  destruct (successful_run_effects
              unit ex_clock ex_float_str ex_validate_dld
              ex_generate_prompt ex_validate_prompt ex_optimize_prompt
              ex_process_output ex_analyze_performance
              "design doc" VNone "cursor_ai" 0.8 false init tt _ tt _
              ltac:(vm_compute; reflexivity) eq_refl)
    as (vr & gr & qr & lr & outr & _ & _ & _ & _ & _ & _ & _ & _ & _ & _ & _
        & Ht).
  split; [exact Ht | reflexivity].
Defined.

(** ** Similarity: range and extremes *)

Import ContextValidationMore.

Section SimilarityMore.

Local Open Scope Q_scope.

(** [_calculate_content_similarity] lies in [0, 1]; it is 1 exactly when
    both texts have the same non-empty set of lower-cased tokens, and 0
    when they share no token. *)
Theorem similarity_range_and_extremes :
  forall a b : string,
    0 <= _calculate_content_similarity a b <= 1
    /\ (_calculate_content_similarity a b == 1
        <-> words a = words b /\ words a <> ∅)
    /\ (words a ∩ words b = ∅ -> _calculate_content_similarity a b == 0).
Proof.
  intros a b. unfold _calculate_content_similarity. cbv zeta.
  destruct (decide (words a = ∅)) as [Ha|Ha].
  { rewrite (bool_decide_eq_true_2 _ Ha). cbn [orb].
    split; [split; discriminate|]. split; [|reflexivity].
    split; [discriminate | tauto]. }
  rewrite (bool_decide_eq_false_2 _ Ha). cbn [orb].
  destruct (decide (words b = ∅)) as [Hb|Hb].
  { rewrite (bool_decide_eq_true_2 _ Hb).
    split; [split; discriminate|]. split; [|reflexivity].
    split; [discriminate | intros [Hab _]; congruence]. }
  rewrite (bool_decide_eq_false_2 _ Hb).
  assert (Hu : (0 < size (words a ∪ words b))%nat).
  { destruct (size (words a ∪ words b)) eqn:E; [|lia].
    apply size_empty_inv in E. exfalso. apply Ha. set_solver. }
  assert (Hle : (size (words a ∩ words b) <= size (words a ∪ words b))%nat).
  { apply subseteq_size. set_solver. }
  destruct (Nat.ltb_spec 0 (size (words a ∪ words b))) as [_|?]; [|lia].
  split; [|split].
  - split; [apply nat_ratio_nonneg | by apply nat_ratio_le_1].
  - split.
    + intros H1.
      assert (Heq : size (words a ∩ words b) = size (words a ∪ words b)).
      { assert (Hm : ~ inject_Z (Z.of_nat (size (words a ∪ words b))) == 0)
          by (unfold Qeq; simpl; lia).
        pose proof (Qmult_div_r
                      (inject_Z (Z.of_nat (size (words a ∩ words b))))
                      _ Hm) as Hmul.
        rewrite H1, Qmult_1_r in Hmul.
        unfold Qeq in Hmul. simpl in Hmul. lia. }
      assert (Hsub : words a ∩ words b = words a ∪ words b).
      { apply set_subseteq_size_eq; [set_solver | lia]. }
      split; [|exact Ha]. apply leibniz_equiv. set_solver.
    + intros [Hab _]. rewrite <- Hab.
      assert (Hi : words a ∩ words a = words a) by apply (idemp_L (∩)).
      assert (Hun : words a ∪ words a = words a) by apply (idemp_L (∪)).
      rewrite Hi, Hun. apply Qmult_inv_r. unfold Qeq. simpl.
      rewrite <- Hab, Hun in Hu. lia.
  - intros ->. rewrite size_empty. unfold Qdiv. simpl. apply Qmult_0_l.
Qed.

End SimilarityMore.

Lemma similarity_range_and_extremes_witness :
  (_calculate_content_similarity "alpha beta" "gamma delta" == 0)%Q.
Proof.
  apply (proj2 (proj2 (similarity_range_and_extremes
                         "alpha beta" "gamma delta"))).
  vm_compute. reflexivity.
Defined.

(** ** Reconciliation: what a successful merge returns *)

Section MergeMore.

Local Open Scope Q_scope.

Lemma dict_keys_set {V} (k : string) (v : V) (d : PyDict.dict V) :
  PyDict.keys (PyDict.set k v d)
  = match PyDict.get k d with
    | Some _ => PyDict.keys d
    | None => (PyDict.keys d ++ [k])%list
    end.
Proof.
  induction d as [|[k' v'] d IH]; simpl; [reflexivity|].
  destruct (String.eqb_spec k k') as [->|Hne]; simpl; [reflexivity|].
  rewrite IH. by destruct (PyDict.get k d).
Qed.

Lemma dict_get_None_keys {V} (k : string) (d : PyDict.dict V) :
  PyDict.get k d = None <-> k ∉ PyDict.keys d.
Proof.
  induction d as [|[k' v'] d IH]; simpl.
  - split; [intros _; apply not_elem_of_nil | reflexivity].
  - rewrite not_elem_of_cons.
    destruct (String.eqb_spec k k') as [->|Hne]; [|rewrite IH; tauto].
    split; [discriminate | intros [? _]; congruence].
Qed.

Lemma dict_get_Some_values {V} (k : string) (v : V) (d : PyDict.dict V) :
  PyDict.get k d = Some v -> v ∈ PyDict.values d.
Proof.
  induction d as [|[k' v'] d IH]; simpl; [discriminate|].
  destruct (String.eqb k k').
  - intros [= ->]. apply list_elem_of_here.
  - intros H. apply list_elem_of_further. auto.
Qed.

Lemma dict_set_append {V} (k : string) (v : V) (d : PyDict.dict V) :
  PyDict.get k d = None -> PyDict.set k v d = (d ++ [(k, v)])%list.
Proof.
  induction d as [|[k' v'] d IH]; simpl; [reflexivity|].
  destruct (String.eqb k k'); [discriminate|].
  intros H. by rewrite IH.
Qed.

Lemma keyed_types (m : PyDict.dict DLDSection) :
  keyed m -> map section_type (PyDict.values m) = PyDict.keys m.
Proof.
  intros [Hf _]. induction Hf as [|[k v] m Hk _ IH]; simpl; [reflexivity|].
  by rewrite Hk, IH.
Qed.

Lemma merge_step_keyed (m m' : PyDict.dict DLDSection) (s : DLDSection) :
  keyed m -> merge_step m s = Ok m' ->
  keyed m'
  /\ (forall t, t ∈ PyDict.keys m' <-> t ∈ PyDict.keys m \/ t = section_type s)
  /\ (exists o, PyDict.get (section_type s) m' = Some o
                /\ confidence s <= confidence o)
  /\ (forall t o, PyDict.get t m = Some o ->
                  exists o', PyDict.get t m' = Some o'
                             /\ confidence o <= confidence o').
Proof.
  intros [Hf Hnd]. unfold merge_step.
  destruct (PyDict.get (section_type s) m) as [existing|] eqn:Hget.
  - destruct (Qgtb _ 0.7); cbn [bind _replace]; [|discriminate].
    intros [= <-].
    assert (Hin : section_type s ∈ PyDict.keys m).
    { destruct (decide (section_type s ∈ PyDict.keys m)) as [|Hn]; [done|].
      apply dict_get_None_keys in Hn. congruence. }
    split; [split|split; [|split]].
    + apply (dict_set_Forall (fun '(k, v) => section_type v = k));
        [reflexivity | exact Hf].
    + by rewrite dict_keys_set, Hget.
    + intros t. rewrite dict_keys_set, Hget. split; [auto|].
      intros [?| ->]; assumption.
    + eexists. split; [apply dict_get_set_eq|]. apply py_max_ge_r.
    + intros t o Ho.
      destruct (decide (t = section_type s)) as [->|Hne].
      * rewrite Hget in Ho. injection Ho as <-.
        eexists. split; [apply dict_get_set_eq|]. apply py_max_ge_l.
      * exists o. rewrite dict_get_set_ne by congruence.
        split; [exact Ho | apply Qle_refl].
  - intros [= <-]. rewrite dict_set_append by exact Hget.
    split; [split|split; [|split]].
    + apply Forall_app. split; [exact Hf|]. by repeat constructor.
    + unfold PyDict.keys. rewrite map_app. simpl. apply NoDup_app.
      split; [exact Hnd|]. split.
      * intros t Ht Ht'. apply list_elem_of_singleton in Ht'. subst t.
        by apply dict_get_None_keys in Hget.
      * apply NoDup_singleton.
    + intros t. unfold PyDict.keys. rewrite map_app, elem_of_app. simpl.
      by rewrite list_elem_of_singleton.
    + exists s. rewrite <- dict_set_append by exact Hget.
      split; [apply dict_get_set_eq | apply Qle_refl].
    + intros t o Ho. exists o. rewrite <- dict_set_append by exact Hget.
      rewrite dict_get_set_ne.
      * split; [exact Ho | apply Qle_refl].
      * intros <-. congruence.
Qed.

Lemma merge_loop_keyed (l : list DLDSection) :
  forall m m', keyed m -> merge_loop m l = Ok m' ->
    keyed m'
    /\ (forall t, t ∈ PyDict.keys m'
                  <-> t ∈ PyDict.keys m \/ t ∈ map section_type l)
    /\ (forall s, s ∈ l ->
          exists o, PyDict.get (section_type s) m' = Some o
                    /\ confidence s <= confidence o)
    /\ (forall t o, PyDict.get t m = Some o ->
                    exists o', PyDict.get t m' = Some o'
                               /\ confidence o <= confidence o').
Proof.
  induction l as [|s l IH]; intros m m' Hk; cbn [merge_loop].
  - intros [= <-]. split; [exact Hk|]. split; [|split].
    + intros t. simpl. rewrite elem_of_nil. tauto.
    + intros s Hs. by apply elem_of_nil in Hs.
    + intros t o Ho. exists o. split; [exact Ho | apply Qle_refl].
  - destruct (merge_step m s) as [m1|e] eqn:Hstep; cbn [bind]; [|discriminate].
    intros Hloop.
    destruct (merge_step_keyed m m1 s Hk Hstep) as (Hk1 & Hkeys1 & Hs1 & Hold1).
    destruct (IH m1 m' Hk1 Hloop) as (Hk' & Hkeys' & Hs' & Hold').
    split; [exact Hk'|]. split; [|split].
    + intros t. rewrite Hkeys', Hkeys1. simpl. rewrite elem_of_cons. tauto.
    + intros x Hx. apply elem_of_cons in Hx. destruct Hx as [->|Hx]; [|auto].
      destruct Hs1 as (o & Ho & Hle).
      destruct (Hold' _ _ Ho) as (o' & Ho' & Hle').
      exists o'. split; [exact Ho'|]. by apply Qle_trans with (confidence o).
    + intros t o Ho. destruct (Hold1 _ _ Ho) as (o1 & Ho1 & Hle1).
      destruct (Hold' _ _ Ho1) as (o' & Ho' & Hle').
      exists o'. split; [exact Ho'|]. by apply Qle_trans with (confidence o1).
Qed.

Lemma keyed_nil : keyed [].
Proof. split; [constructor | apply NoDup_nil; constructor]. Qed.

(** When [_merge_sections] returns, its result holds exactly one section
    for each section type of the input, and that section's confidence is
    at least the confidence of every input section of the type. *)
Theorem merge_returns_one_section_per_type :
  forall (l out : list DLDSection),
    _merge_sections l = Ok out ->
    NoDup (map section_type out)
    /\ (forall t, t ∈ map section_type out <-> t ∈ map section_type l)
    /\ (forall s, s ∈ l ->
          exists o, o ∈ out /\ section_type o = section_type s
                    /\ confidence s <= confidence o).
Proof.
  intros l out. unfold _merge_sections.
  destruct (merge_loop [] l) as [m|e] eqn:Hloop; cbn [bind]; [|discriminate].
  intros [= <-].
  destruct (merge_loop_keyed l [] m keyed_nil Hloop)
    as (Hk & Hkeys & Hs & _).
  rewrite (keyed_types m Hk). split; [apply Hk|]. split.
  - intros t. rewrite Hkeys. simpl. rewrite elem_of_nil. tauto.
  - intros s Hin. destruct (Hs s Hin) as (o & Ho & Hle).
    exists o. split; [by apply dict_get_Some_values in Ho|]. split; [|exact Hle].
    destruct Hk as [Hf _]. clear - Hf Ho.
    induction Hf as [|[k v] m Hkv _ IH]; simpl in Ho; [discriminate|].
    destruct (String.eqb_spec (section_type s) k) as [->|]; [|auto].
    by injection Ho as <-.
Qed.

(** Sections of pairwise different types pass through [_merge_sections]
    unchanged and in order. *)
Theorem merge_distinct_types_is_identity :
  forall l : list DLDSection,
    NoDup (map section_type l) -> _merge_sections l = Ok l.
Proof.
  intros l Hnd. unfold _merge_sections.
  assert (H : forall m,
             keyed m ->
             (forall t, t ∈ PyDict.keys m -> t ∉ map section_type l) ->
             merge_loop m l
             = Ok (m ++ map (fun s => (section_type s, s)) l)%list).
  { induction l as [|s l IH]; intros m Hk Hdis; cbn [merge_loop map].
    - by rewrite app_nil_r.
    - simpl in Hnd. apply NoDup_cons in Hnd. destruct Hnd as [Hs Hnd].
      assert (Hget : PyDict.get (section_type s) m = None).
      { apply dict_get_None_keys. intros Hin. apply (Hdis _ Hin).
        simpl. apply list_elem_of_here. }
      unfold merge_step. rewrite Hget. cbn [bind].
      rewrite dict_set_append by exact Hget.
      rewrite IH; [by rewrite <- app_assoc | exact Hnd | |].
      + destruct Hk as [Hf Hn]. split.
        * apply Forall_app. split; [exact Hf|]. by repeat constructor.
        * unfold PyDict.keys. rewrite map_app. simpl. apply NoDup_app.
          split; [exact Hn|]. split; [|apply NoDup_singleton].
          intros t Ht Ht'. apply list_elem_of_singleton in Ht'. subst t.
          by apply dict_get_None_keys in Hget.
      + intros t. unfold PyDict.keys. rewrite map_app, elem_of_app. simpl.
        rewrite list_elem_of_singleton. intros [Ht| ->].
        * intros Hin. apply (Hdis _ Ht). simpl. by apply list_elem_of_further.
        * exact Hs. }
  rewrite (H [] keyed_nil).
  - cbn [bind app]. f_equal. unfold PyDict.values. rewrite map_map. simpl.
    apply map_id.
  - intros t Ht. by apply elem_of_nil in Ht.
Qed.

End MergeMore.

Lemma merge_returns_one_section_per_type_witness :
  NoDup (map section_type [merged_section reqs_header reqs_keyword]).
Proof.
  apply (merge_returns_one_section_per_type [reqs_header; reqs_keyword]).
  reflexivity.
Defined.

Lemma merge_distinct_types_is_identity_witness :
  _merge_sections [reqs_header; notes_general]
  = Ok [reqs_header; notes_general].
Proof.
  apply merge_distinct_types_is_identity. simpl.
  apply NoDup_cons. split.
  - rewrite list_elem_of_singleton. discriminate.
  - apply NoDup_singleton.
Defined.

(** ** Coverage and completeness scores *)

Section CoverageMore.

Local Open Scope Q_scope.

Lemma has_type_cons (s : DLDSection) (l : list DLDSection)
  (ents : PyDict.dict (list string)) (t : string) :
  has_type {| sections := s :: l; found_domain_entities := ents |} t
  = String.eqb t (section_type s)
    || has_type {| sections := l; found_domain_entities := ents |} t.
Proof.
  unfold has_type, section_types. cbn [sections map].
  destruct (String.eqb_spec t (section_type s)) as [->|Hne]; cbn [orb].
  - apply bool_decide_eq_true_2, list_elem_of_here.
  - apply bool_decide_ext. rewrite elem_of_cons. tauto.
Qed.

(** Adding a section never lowers the coverage score, and a section of a
    required type that no section had raises it by that type's weight. *)
Theorem coverage_monotone_in_sections :
  forall (s : DLDSection) (l : list DLDSection)
         (ents : PyDict.dict (list string)),
    exists mi mi',
      _detect_missing_information
        {| sections := l; found_domain_entities := ents |} = Ok mi
      /\ _detect_missing_information
           {| sections := s :: l; found_domain_entities := ents |} = Ok mi'
      /\ coverage_score mi <= coverage_score mi'
      /\ (section_type s ∈ PyDict.keys required_sections ->
          section_type s ∉ map section_type l ->
          coverage_score mi' == coverage_score mi + weight_of (section_type s)
          /\ coverage_score mi < coverage_score mi').
Proof.
  intros s l ents.
  destruct (detect_missing_information_spec
              {| sections := l; found_domain_entities := ents |})
    as (mi & Hmi & _ & Hcov).
  destruct (detect_missing_information_spec
              {| sections := s :: l; found_domain_entities := ents |})
    as (mi' & Hmi' & _ & Hcov').
  exists mi, mi'. split; [exact Hmi|]. split; [exact Hmi'|].
  rewrite Hcov, Hcov'. unfold Spec.coverage, Spec.required_weights.
  cbn [map]. rewrite !has_type_cons. unfold Qsum. cbn [fold_left].
  set (h := has_type {| sections := l; found_domain_entities := ents |}).
  assert (Hh : section_type s ∉ map section_type l ->
               h (section_type s) = false).
  { intros Hn. unfold h, has_type, section_types. cbn [sections].
    by apply bool_decide_eq_false_2. }
  assert (Hterm : forall (e b : bool) (x : Q),
             0 <= x ->
             (if e || b then 0 else x) <= (if b then 0 else x)).
  { intros [|] [|] x Hx; cbn [orb]; lra. }
  split.
  - pose proof (Hterm (String.eqb "system_overview" (section_type s))
                  (h "system_overview") 0.20 ltac:(lra)).
    pose proof (Hterm (String.eqb "requirements" (section_type s))
                  (h "requirements") 0.25 ltac:(lra)).
    pose proof (Hterm (String.eqb "interfaces" (section_type s))
                  (h "interfaces") 0.20 ltac:(lra)).
    pose proof (Hterm (String.eqb "performance" (section_type s))
                  (h "performance") 0.15 ltac:(lra)).
    pose proof (Hterm (String.eqb "security" (section_type s))
                  (h "security") 0.10 ltac:(lra)).
    pose proof (Hterm (String.eqb "implementation" (section_type s))
                  (h "implementation") 0.10 ltac:(lra)).
    lra.
  - intros Hkey Hnew. specialize (Hh Hnew).
    unfold required_sections, PyDict.keys in Hkey. cbn [map fst] in Hkey.
    rewrite !elem_of_cons, elem_of_nil in Hkey.
    destruct Hkey as [Hk|[Hk|[Hk|[Hk|[Hk|[Hk|[]]]]]]];
      rewrite Hk in *; rewrite Hh; unfold weight_of;
      cbn [String.eqb Ascii.eqb Bool.eqb orb PyDict.get required_sections
           weight];
      split; lra.
Qed.

End CoverageMore.

Lemma coverage_monotone_in_sections_witness :
  exists mi mi',
    _detect_missing_information
      {| sections := [notes_general]; found_domain_entities := [] |} = Ok mi
    /\ _detect_missing_information
         {| sections := [reqs_header; notes_general];
            found_domain_entities := [] |} = Ok mi'
    /\ (coverage_score mi < coverage_score mi')%Q.
Proof.
  destruct (coverage_monotone_in_sections reqs_header [notes_general] [])
    as (mi & mi' & H1 & H2 & _ & Hstep).
  exists mi, mi'. split; [exact H1|]. split; [exact H2|].
  apply Hstep.
  - unfold required_sections, PyDict.keys. simpl.
    apply list_elem_of_further, list_elem_of_here.
  - simpl. rewrite list_elem_of_singleton. discriminate.
Defined.


Section CompletenessScore.

Local Open Scope Q_scope.

Lemma py_min_le_l (a b : Q) : py_min a b <= a.
Proof.
  unfold py_min, Qltb. destruct (Qle_bool a b) eqn:E; simpl.
  - apply Qle_refl.
  - destruct (Qlt_le_dec b a) as [H|H]; [by apply Qlt_le_weak|].
    apply Qle_bool_iff in H. congruence.
Qed.

(** [_calculate_completeness_score] never exceeds 1, never exceeds the
    coverage score by more than 0.2, and is not below a coverage score that
    is itself at most 1. *)
Theorem completeness_score_bounds :
  forall (sr : structure_result) (mi : missing_info),
    let c := _calculate_completeness_score sr mi in
    c <= 1
    /\ c <= coverage_score mi + 0.2
    /\ (coverage_score mi <= 1 -> coverage_score mi <= c).
Proof.
  intros sr mi. unfold _calculate_completeness_score. cbv zeta.
  set (n := inject_Z (Z.of_nat (length (found_domain_entities sr)))).
  set (k := inject_Z (Z.of_nat (length (sections sr)))).
  assert (Hn : 0 <= n) by (unfold n, Qle; simpl; lia).
  assert (Hk : 0 <= k) by (unfold k, Qle; simpl; lia).
  pose proof (py_min_le_l 0.1 (n * 0.02)) as He.
  pose proof (py_min_le_l 0.1 (k * 0.01)) as Hs.
  assert (He0 : 0 <= py_min 0.1 (n * 0.02)) by (apply py_min_ge; lra).
  assert (Hs0 : 0 <= py_min 0.1 (k * 0.01)) by (apply py_min_ge; lra).
  split; [apply py_min_le_l|]. split.
  - pose proof (py_min_le_r 1 (coverage_score mi + py_min 0.1 (n * 0.02)
                              + py_min 0.1 (k * 0.01))). lra.
  - intros Hc. apply py_min_ge; lra.
Qed.

End CompletenessScore.

Lemma completeness_score_bounds_witness :
  exists mi,
    _detect_missing_information
      {| sections := [reqs_header]; found_domain_entities := [] |} = Ok mi
    /\ (coverage_score mi
        <= _calculate_completeness_score
             {| sections := [reqs_header]; found_domain_entities := [] |} mi)%Q.
Proof.
  eexists. split; [vm_compute; reflexivity|].
  apply (proj2 (proj2 (completeness_score_bounds _ _))).
  vm_compute. discriminate.
Defined.

(** ** Consistency *)

Lemma prefix_cons (a b : ascii) (p s : string) :
  String.prefix (String a p) (String b s)
  = Ascii.eqb b a && String.prefix p s.
Proof.
  simpl. destruct (ascii_dec a b), (Ascii.eqb_spec b a);
    congruence || reflexivity.
Qed.

Lemma run_lit_i (p : string) :
  p <> EmptyString ->
  forall prev s k,
    (forall q t, k q t <> None) ->
    (Re.run (Re.lit_i p) prev s k <> None
     <-> String.prefix (PyStr.lower p) (PyStr.lower s) = true).
Proof.
  induction p as [|c p IH]; [congruence|]. intros _ prev s k Hk.
  destruct p as [|c' p'].
  - cbn [Re.lit_i Re.chr_i Re.run PyStr.lower].
    destruct s as [|x s]; cbn [PyStr.lower];
      [split; [congruence|discriminate]|].
    rewrite prefix_cons.
    destruct (Ascii.eqb (PyStr.lower_char x) (PyStr.lower_char c));
      cbn [andb].
    + split; [by destruct s | intros _; apply Hk].
    + split; [congruence|discriminate].
  - change (Re.lit_i (String c (String c' p')))
      with (Re.Seq (Re.chr_i c) (Re.lit_i (String c' p'))).
    cbn [Re.run Re.chr_i].
    destruct s as [|x s]; [cbn; split; [congruence|discriminate]|].
    change (PyStr.lower (String c (String c' p')))
      with (String (PyStr.lower_char c) (PyStr.lower (String c' p'))).
    change (PyStr.lower (String x s))
      with (String (PyStr.lower_char x) (PyStr.lower s)).
    rewrite prefix_cons.
    destruct (Ascii.eqb (PyStr.lower_char x) (PyStr.lower_char c));
      cbn [andb].
    + apply IH; [discriminate | exact Hk].
    + split; [congruence|discriminate].
Qed.

Lemma search_lit_i (p : string) :
  p <> EmptyString ->
  forall prev s,
    Re.search_from (Re.lit_i p) prev s
    = PyStr.contains (PyStr.lower p) (PyStr.lower s).
Proof.
  intros Hp prev s. revert prev.
  induction s as [|x s IH]; intros prev; cbn [Re.search_from PyStr.contains PyStr.lower].
  - unfold Re.match_at.
    pose proof (run_lit_i p Hp prev EmptyString (fun q t => Some (q, t))
                  ltac:(discriminate)) as H.
    cbn [PyStr.lower] in H.
    destruct (Re.run _ _ _ _).
    + rewrite (proj1 H); [reflexivity | discriminate].
    + destruct (String.prefix _ _); [|reflexivity].
      exfalso. by apply (proj2 H).
  - unfold Re.match_at.
    pose proof (run_lit_i p Hp prev (String x s) (fun q t => Some (q, t))
                  ltac:(discriminate)) as H.
    cbn [PyStr.lower] in H.
    destruct (Re.run _ _ _ _).
    + rewrite (proj1 H); [reflexivity | discriminate].
    + destruct (String.prefix _ _); [exfalso; by apply (proj2 H)|].
      cbn [orb]. apply IH.
Qed.

Lemma prefix_app_contains (a b x : string) :
  String.prefix (a ++ b) x = true -> PyStr.contains b x = true.
Proof.
  revert x. induction a as [|c a IH]; intros x.
  - change (EmptyString ++ b) with b. intros H.
    destruct x; cbn [PyStr.contains]; rewrite H; reflexivity.
  - change (String c a ++ b) with (String c (a ++ b)).
    destruct x as [|y x]; [discriminate|].
    rewrite prefix_cons. intros H. apply andb_true_iff in H.
    cbn [PyStr.contains]. rewrite (IH x (proj2 H)). apply orb_true_r.
Qed.

Lemma contains_app (a b x : string) :
  PyStr.contains (a ++ b) x = true -> PyStr.contains b x = true.
Proof.
  induction x as [|y x IH]; cbn [PyStr.contains]; intros H.
  - apply orb_true_iff in H. destruct H as [H|H]; [|discriminate].
    apply prefix_app_contains in H. exact H.
  - apply orb_true_iff in H. destruct H as [H|H].
    + apply prefix_app_contains in H. exact H.
    + rewrite (IH H). apply orb_true_r.
Qed.

Section ConsistencyMore.

Local Open Scope Q_scope.


(** The pattern pairs overlap: "not supported" contains "supported" and
    "asynchronous" contains "synchronous", so a section whose content has
    one of the longer phrases, in any letter case, is reported as a
    potential contradiction on its own. *)
Theorem negated_phrase_alone_is_reported :
  forall (sr : structure_result) (s : DLDSection),
    s ∈ sections sr ->
    PyStr.contains "not supported" (PyStr.lower (content s)) = true
    \/ PyStr.contains "asynchronous" (PyStr.lower (content s)) = true ->
    contradiction_message s ∈ inconsistencies (_verify_consistency sr)
    /\ (consistency_score (_verify_consistency sr) <= 0.9).
Proof.
  intros sr s Hin Hphrase.
  assert (Hmsg : contradiction_message s
                 ∈ inconsistencies (_verify_consistency sr)).
  { unfold _verify_consistency. cbv zeta. cbn [inconsistencies].
    apply list_elem_of_In, in_flat_map. exists s.
    split; [by apply list_elem_of_In|].
    unfold contradiction_patterns. cbn [flat_map]. unfold Re.search.
    rewrite !search_lit_i by discriminate.
    change (PyStr.lower "not supported") with "not supported".
    change (PyStr.lower "supported") with "supported".
    change (PyStr.lower "synchronous") with "synchronous".
    change (PyStr.lower "asynchronous") with "asynchronous".
    destruct Hphrase as [H|H].
    - rewrite H, (contains_app "not " "supported" _ H). cbn [andb app].
      left. reflexivity.
    - rewrite H, (contains_app "a" "synchronous" _ H). cbn [andb].
      apply in_or_app. right. apply in_or_app. right. left. reflexivity. }
  split; [exact Hmsg|].
  revert Hmsg. unfold _verify_consistency. cbv zeta.
  cbn [inconsistencies consistency_score].
  set (found := flat_map _ (sections sr)). intros Hmsg.
  assert (Hpos : (1 <= length found)%nat).
  { destruct found; [by apply elem_of_nil in Hmsg | simpl; lia]. }
  set (q := inject_Z (Z.of_nat (length found))).
  assert (Hq : 1 <= q) by (unfold q, Qle; simpl; lia).
  unfold py_max. destruct (Qgtb _ _); lra.
Qed.

End ConsistencyMore.


Lemma negated_phrase_alone_is_reported_witness :
  contradiction_message unsupported_note
  ∈ inconsistencies
      (_verify_consistency
         {| sections := [unsupported_note]; found_domain_entities := [] |}).
Proof.
  apply (negated_phrase_alone_is_reported
           {| sections := [unsupported_note]; found_domain_entities := [] |}
           unsupported_note).
  - apply list_elem_of_here.
  - left. vm_compute. reflexivity.
Defined.

(** ** Section classification *)

Lemma count_from_zero (sub s : string) :
  sub <> EmptyString ->
  (count_from sub 0 s = 0%nat <-> PyStr.contains sub s = false).
Proof.
  intros Hsub. induction s as [|c r IH].
  - cbn [count_from PyStr.contains]. destruct sub; [congruence|].
    split; reflexivity.
  - cbn [count_from PyStr.contains].
    destruct (String.prefix sub (String c r)); cbn [orb].
    + split; discriminate.
    + exact IH.
Qed.

Lemma count_zero (sub s : string) :
  sub <> EmptyString ->
  (count sub s = 0%nat <-> PyStr.contains sub s = false).
Proof.
  intros Hsub. unfold count. destruct sub; [congruence|].
  cbn [PyStr.is_empty]. by apply count_from_zero.
Qed.

Lemma fold_count_zero (text : string) (kws : list string) (acc : nat) :
  fold_left (fun score keyword => (score + count (PyStr.lower keyword) text)%nat)
            kws acc = 0%nat
  <-> acc = 0%nat /\ forall kw, In kw kws -> count (PyStr.lower kw) text = 0%nat.
Proof.
  revert acc. induction kws as [|k kws IH]; intros acc; cbn [fold_left].
  - split; [intros ->; split; [reflexivity | intros ? []] | tauto].
  - rewrite IH. split.
    + intros [Hacc Hall]. split; [lia|].
      intros kw [<-|Hin]; [lia | auto].
    + intros [-> Hall]. split.
      * rewrite (Hall k); [reflexivity | by left].
      * intros kw Hin. apply Hall. by right.
Qed.

Lemma first_max_split (l : list (string * nat)) :
  forall best pre mid,
    (forall x, In x pre -> (snd x < snd best)%nat) ->
    (forall x, In x mid -> (snd x <= snd best)%nat) ->
    exists l1 l2,
      (pre ++ best :: mid ++ l = l1 ++ first_max best l :: l2)%list
      /\ (forall x, In x l1 -> (snd x < snd (first_max best l))%nat)
      /\ (forall x, In x l2 -> (snd x <= snd (first_max best l))%nat).
Proof.
  induction l as [|item l IH]; intros best pre mid Hpre Hmid;
    cbn [first_max].
  - exists pre, mid. rewrite app_nil_r. auto.
  - destruct (Nat.ltb_spec (snd best) (snd item)) as [Hlt|Hge].
    + destruct (IH item (pre ++ best :: mid)%list []) as (l1 & l2 & Heq & H1 & H2).
      * intros x Hx. apply in_app_or in Hx. destruct Hx as [Hx|[<-|Hx]].
        -- specialize (Hpre x Hx). lia.
        -- exact Hlt.
        -- specialize (Hmid x Hx). lia.
      * intros x [].
      * exists l1, l2. split; [|auto].
        rewrite <- Heq. cbn [app]. by rewrite <- app_assoc.
    + destruct (IH best pre (mid ++ [item])%list) as (l1 & l2 & Heq & H1 & H2).
      * exact Hpre.
      * intros x Hx. apply in_app_or in Hx. destruct Hx as [Hx|[<-|[]]];
          [auto | exact Hge].
      * exists l1, l2. split; [|auto].
        rewrite <- Heq. by rewrite <- app_assoc.
Qed.

(** [_classify_section_type] answers "general" exactly when none of the
    keywords of the required types occurs in the lower-cased title and
    content; otherwise it answers the required type with the greatest
    keyword count, the first declared one among equals. *)
Theorem classify_is_first_argmax :
  forall title content : string,
    let text := PyStr.lower (title ++ " " ++ content) in
    let r := _classify_section_type title content in
    (r = "general"
     <-> forall name info kw,
           In (name, info) required_sections -> In kw (keywords info) ->
           PyStr.contains kw text = false)
    /\ (r <> "general" ->
        exists l1 l2 score,
          section_scores title content = (l1 ++ (r, score) :: l2)%list
          /\ (0 < score)%nat
          /\ (forall x, In x l1 -> (snd x < score)%nat)
          /\ (forall x, In x l2 -> (snd x <= score)%nat)).
Proof.
  intros title content text r.
  assert (Hkw : forall name info kw,
             In (name, info) required_sections -> In kw (keywords info) ->
             PyStr.lower kw = kw /\ kw <> EmptyString /\ name <> "general").
  { intros name info kw Hin Hk.
    unfold required_sections in Hin. simpl in Hin.
    repeat (destruct Hin as [Hin|Hin];
            [injection Hin as <- <-; simpl in Hk;
             repeat (destruct Hk as [<-|Hk];
                     [repeat split; (reflexivity || discriminate)|]);
             contradiction|]).
    contradiction. }
  assert (Hscores : section_scores title content
                    = map (fun '(name, info) =>
                             (name, section_score text info))
                          required_sections) by reflexivity.
  unfold r, _classify_section_type.
  destruct (section_scores title content) as [|item rest] eqn:E;
    [discriminate|].
  destruct (first_max_split rest item [] [])
    as (l1 & l2 & Heq & H1 & H2); [intros ? []|intros ? []|].
  cbn [app] in Heq.
  set (best := first_max item rest) in *.
  assert (Hbest : In best (item :: rest)).
  { rewrite Heq. apply in_or_app. right. by left. }
  assert (Hname : fst best <> "general").
  { rewrite Hscores in Hbest. apply in_map_iff in Hbest.
    destruct Hbest as ([name info] & <- & Hin). cbn [fst].
    unfold required_sections in Hin. simpl in Hin.
    repeat (destruct Hin as [Hin|Hin]; [injection Hin as <- <-; discriminate|]).
    contradiction. }
  assert (Hzero : snd best = 0%nat
                  <-> forall name info kw,
                        In (name, info) required_sections ->
                        In kw (keywords info) ->
                        PyStr.contains kw text = false).
  { split.
    - intros H0 name info kw Hin Hk.
      destruct (Hkw name info kw Hin Hk) as (Hlow & Hne & _).
      assert (Hs : section_score text info = 0%nat).
      { assert (Hi : In (name, section_score text info) (item :: rest)).
        { rewrite Hscores. apply in_map_iff. by exists (name, info). }
        rewrite Heq in Hi. apply in_app_or in Hi.
        destruct Hi as [Hi|[Hi|Hi]].
        - specialize (H1 _ Hi). lia.
        - rewrite Hi in H0. exact H0.
        - specialize (H2 _ Hi). cbn [snd] in H2. lia. }
      unfold section_score in Hs. apply fold_count_zero in Hs.
      destruct Hs as [_ Hs]. specialize (Hs kw Hk). rewrite Hlow in Hs.
      by apply count_zero in Hs.
    - intros Hnone. rewrite Hscores in Hbest.
      apply in_map_iff in Hbest.
      destruct Hbest as ([name info] & <- & Hin). cbn [snd].
      unfold section_score. apply fold_count_zero. split; [reflexivity|].
      intros kw Hk. destruct (Hkw name info kw Hin Hk) as (Hlow & Hne & _).
      rewrite Hlow. apply count_zero; [exact Hne|]. by apply (Hnone name info). }
  split.
  - rewrite <- Hzero.
    destruct (Nat.ltb_spec 0 (snd best)) as [Hpos|Hz].
    + split; [intros Hg; congruence | lia].
    + split; [lia | reflexivity].
  - destruct (Nat.ltb_spec 0 (snd best)) as [Hpos|Hz]; [|congruence].
    intros _. exists l1, l2, (snd best).
    split; [|auto]. rewrite Heq. by destruct best.
Qed.

Lemma classify_is_first_argmax_witness :
  _classify_section_type "Interfaces" "N2 interface and system api"
  = "interfaces".
Proof.
  destruct (proj2 (classify_is_first_argmax
                     "Interfaces" "N2 interface and system api"))
    as (l1 & l2 & score & Heq & _).
  - vm_compute. discriminate.
  - vm_compute. reflexivity.
Defined.

(** * Further properties of the quality agent *)

Import CodeQualityMore.
Import QualityExamples.

(** ** Further quality metrics *)

Section MetricsMore.

Local Open Scope Q_scope.

Lemma py_min_cap (x c : Q) : py_min x c == c <-> c <= x.
Proof.
  unfold py_min, Qltb. destruct (Qle_bool x c) eqn:E; simpl.
  - apply Qle_bool_iff in E. split; [intros H; rewrite <- H; apply Qle_refl|].
    intros H. by apply Qle_antisym.
  - split; [intros _|reflexivity].
    destruct (Qlt_le_dec c x) as [H|H]; [by apply Qlt_le_weak|].
    apply Qle_bool_iff in H. congruence.
Qed.

Lemma nat_div_nonneg (n d : nat) : 0 <= nat_div n d.
Proof. apply nat_ratio_nonneg. Qed.

Lemma nat_div_ge (n d : nat) (a b : nat) :
  (0 < d)%nat -> (0 < b)%nat ->
  (inject_Z (Z.of_nat a) / inject_Z (Z.of_nat b) <= nat_div n d
   <-> (a * d <= n * b)%nat).
Proof.
  intros Hd Hb. unfold nat_div.
  destruct d as [|d]; [lia|]. destruct b as [|b]; [lia|].
  assert (Hz : forall k, Z.of_nat (S k) = Z.pos (Pos.of_succ_nat k))
    by (intros k; by rewrite Zpos_P_of_succ_nat, Nat2Z.inj_succ).
  rewrite !Hz, <- !Qmake_Qdiv. unfold Qle. cbn [Qnum Qden].
  rewrite <- !Hz. lia.
Qed.

Lemma nat_div_zero (n d : nat) :
  (0 < d)%nat -> (nat_div n d == 0 <-> n = 0%nat).
Proof.
  intros Hd. unfold nat_div. destruct d as [|d]; [lia|].
  assert (Hz : Z.of_nat (S d) = Z.pos (Pos.of_succ_nat d))
    by (by rewrite Zpos_P_of_succ_nat, Nat2Z.inj_succ).
  rewrite Hz, <- Qmake_Qdiv. unfold Qeq. cbn [Qnum Qden]. lia.
Qed.

Lemma capped_ratio_range (n d : nat) : 0 <= py_min (nat_div n d) 1 <= 1.
Proof.
  split; [apply py_min_ge; [apply nat_div_nonneg | discriminate]
         | apply py_min_le_r].
Qed.

Lemma capped_ratio_zero (n d : nat) :
  (0 < d)%nat -> (py_min (nat_div n d) 1 == 0 <-> n = 0%nat).
Proof.
  intros Hd. rewrite <- (nat_div_zero n d Hd).
  pose proof (nat_div_nonneg n d) as H0.
  unfold py_min, Qltb. destruct (Qle_bool (nat_div n d) 1) eqn:E; simpl.
  - reflexivity.
  - assert (Hgt : ~ nat_div n d <= 1)
      by (intros H; apply Qle_bool_iff in H; congruence).
    split; [intros H; discriminate H | intros H; lra].
Qed.

Lemma count_contained_le (xs : list string) (prompt : string) :
  (count_contained xs prompt <= length xs)%nat.
Proof. apply length_filter. Qed.

Lemma prompt_structure_range (prompt : string) :
  0 <= _assess_prompt_structure prompt <= 1.
Proof.
  unfold _assess_prompt_structure. cbv zeta.
  destruct (3 <=? Re.findall_count heading_re prompt)%nat,
    (3 <=? Re.findall_count bullet_re prompt)%nat,
    (1 <=? Re.findall_count code_re prompt)%nat,
    (3 <=? Re.findall_count numbered_re prompt)%nat;
    split; vm_compute; discriminate.
Qed.

Lemma actionable_instructions_range (prompt : string) :
  0 <= _assess_actionable_instructions prompt <= 1.
Proof.
  unfold _assess_actionable_instructions. cbv zeta.
  set (v := count_contained imperative_verbs prompt).
  set (d := count_found instruction_deliverables prompt).
  set (c := count_contained constraint_indicators prompt).
  pose proof (py_min_le_r (nat_div v 5) 0.4) as Hv.
  pose proof (py_min_le_r (nat_div d 3) 0.3) as Hd.
  pose proof (py_min_le_r (nat_div c 2) 0.3) as Hc.
  assert (Hv0 : 0 <= py_min (nat_div v 5) 0.4)
    by (apply py_min_ge; [apply nat_div_nonneg | discriminate]).
  assert (Hd0 : 0 <= py_min (nat_div d 3) 0.3)
    by (apply py_min_ge; [apply nat_div_nonneg | discriminate]).
  assert (Hc0 : 0 <= py_min (nat_div c 2) 0.3)
    by (apply py_min_ge; [apply nat_div_nonneg | discriminate]).
  split; lra.
Qed.

Lemma compatibility_score_eq (prompt : string) :
  score (_verify_cursor_ai_compatibility prompt)
  == 0.4 * py_min (nat_div (count_found good_practices prompt) 5) 1
         * (if (0 <? count_found problematic_patterns prompt)%nat
            then 0.7 else 1)
     + 0.3 * _assess_prompt_structure prompt
     + 0.3 * _assess_actionable_instructions prompt.
Proof.
  unfold _verify_cursor_ai_compatibility. cbv zeta.
  change (length good_practices) with 5%nat.
  destruct (0 <? count_found problematic_patterns prompt)%nat;
    cbn [score]; lra.
Qed.

Lemma compatibility_range (prompt : string) :
  0 <= score (_verify_cursor_ai_compatibility prompt) <= 1.
Proof.
  rewrite compatibility_score_eq.
  pose proof (prompt_structure_range prompt) as [Hs0 Hs1].
  pose proof (actionable_instructions_range prompt) as [Ha0 Ha1].
  pose proof (capped_ratio_range (count_found good_practices prompt) 5)
    as [Hp0 Hp1].
  destruct (0 <? count_found problematic_patterns prompt)%nat; split; nra.
Qed.

Lemma clarity_range (prompt : string) :
  0.684 <= score (_assess_clarity prompt) <= 0.9
  /\ metric (_assess_clarity prompt) = CLARITY.
Proof.
  unfold _assess_clarity. cbv zeta.
  destruct (filter _ (split_sentences prompt)),
    (3 <=? findall_eol_count heading_line_re prompt)%nat,
    (10 <? Re.findall_count acronym_re prompt)%nat;
    cbn [score metric]; (split; [split; vm_compute; discriminate
                                | reflexivity]).
Qed.

Lemma specificity_score_eq (prompt : string) :
  score (_assess_specificity prompt)
  == 0.5 * py_min (nat_div (technical_details prompt) 20) 1
     + 0.3 * py_min (nat_div
                       (count_contained implementation_keywords prompt) 6) 1
     + 0.2 * py_min (nat_div (Re.findall_count example_re prompt) 3) 1.
Proof.
  unfold _assess_specificity. cbv zeta. cbn [score].
  change (length implementation_keywords) with 6%nat. lra.
Qed.

Lemma specificity_score_range (prompt : string) :
  0 <= score (_assess_specificity prompt) <= 1.
Proof.
  rewrite specificity_score_eq.
  pose proof (capped_ratio_range (technical_details prompt) 20) as [Ht0 Ht1].
  pose proof (capped_ratio_range
                (count_contained implementation_keywords prompt) 6)
    as [Hg0 Hg1].
  pose proof (capped_ratio_range (Re.findall_count example_re prompt) 3)
    as [He0 He1].
  split; lra.
Qed.

(** [_assess_prompt_structure] lies in [0, 1] and is 1 exactly when the
    prompt has at least three headings, three bullet items, one code span
    and three numbered items. *)
Theorem prompt_structure_full_marks :
  forall prompt : string,
    0 <= _assess_prompt_structure prompt <= 1
    /\ (_assess_prompt_structure prompt == 1
        <-> (3 <= Re.findall_count heading_re prompt
             /\ 3 <= Re.findall_count bullet_re prompt
             /\ 1 <= Re.findall_count code_re prompt
             /\ 3 <= Re.findall_count numbered_re prompt)%nat).
Proof.
  intros prompt. unfold _assess_prompt_structure. cbv zeta.
  destruct (Nat.leb_spec 3 (Re.findall_count heading_re prompt)),
    (Nat.leb_spec 3 (Re.findall_count bullet_re prompt)),
    (Nat.leb_spec 1 (Re.findall_count code_re prompt)),
    (Nat.leb_spec 3 (Re.findall_count numbered_re prompt));
    (split; [split; vm_compute; discriminate|]);
    (split; [intros Hs; try (vm_compute in Hs; discriminate Hs);
             repeat split; assumption
            | intros (? & ? & ? & ?); try lia; vm_compute; reflexivity]).
Qed.

(** [_assess_actionable_instructions] lies in [0, 1]; its three parts are
    capped at 0.4, 0.3 and 0.3, and the caps are reached with two
    imperative verbs, one deliverable phrase and one constraint phrase. *)
Theorem actionable_instructions_full_marks :
  forall prompt : string,
    0 <= _assess_actionable_instructions prompt <= 1
    /\ (_assess_actionable_instructions prompt == 1
        <-> (2 <= count_contained imperative_verbs prompt
             /\ 1 <= count_found instruction_deliverables prompt
             /\ 1 <= count_contained constraint_indicators prompt)%nat).
Proof.
  intros prompt. split; [apply actionable_instructions_range|].
  unfold _assess_actionable_instructions. cbv zeta.
  set (v := count_contained imperative_verbs prompt).
  set (d := count_found instruction_deliverables prompt).
  set (c := count_contained constraint_indicators prompt).
  pose proof (py_min_le_r (nat_div v 5) 0.4) as Hv.
  pose proof (py_min_le_r (nat_div d 3) 0.3) as Hd.
  pose proof (py_min_le_r (nat_div c 2) 0.3) as Hc.
  assert (Hvc : py_min (nat_div v 5) 0.4 == 0.4 <-> (2 <= v)%nat).
  { rewrite py_min_cap.
    rewrite (nat_div_ge v 5 4 10) by lia. lia. }
  assert (Hdc : py_min (nat_div d 3) 0.3 == 0.3 <-> (1 <= d)%nat).
  { rewrite py_min_cap.
    rewrite (nat_div_ge d 3 3 10) by lia. lia. }
  assert (Hcc : py_min (nat_div c 2) 0.3 == 0.3 <-> (1 <= c)%nat).
  { rewrite py_min_cap.
    rewrite (nat_div_ge c 2 3 10) by lia. lia. }
  rewrite <- Hvc, <- Hdc, <- Hcc. split.
  - intros Hs. repeat split; lra.
  - intros (H1 & H2 & H3). lra.
Qed.

(** The compatibility metric is 0.4 p f + 0.3 s + 0.3 a, where p is the
    capped share of good-practice patterns found, s the structure score, a
    the actionable-instruction score and f = 0.7 if a problematic pattern
    occurs, else 1: the penalty scales the good-practice part only, so it
    changes nothing when no good practice is found.  The metric lies in
    [0, 1], and the advice to remove problematic patterns is given exactly
    when one occurs. *)
Theorem compatibility_penalty_scales_practice_only :
  forall prompt : string,
    let qa := _verify_cursor_ai_compatibility prompt in
    let p := py_min (nat_div (count_found good_practices prompt) 5) 1 in
    let f := if (0 <? count_found problematic_patterns prompt)%nat
             then 0.7 else 1 in
    score qa == 0.4 * p * f + 0.3 * _assess_prompt_structure prompt
                + 0.3 * _assess_actionable_instructions prompt
    /\ 0 <= score qa <= 1
    /\ (count_found good_practices prompt = 0%nat ->
        score qa == 0.3 * _assess_prompt_structure prompt
                    + 0.3 * _assess_actionable_instructions prompt)
    /\ ("Remove vague or problematic instruction patterns" ∈ suggestions qa
        <-> (0 < count_found problematic_patterns prompt)%nat).
Proof.
  intros prompt. cbv zeta.
  split; [apply compatibility_score_eq|].
  split; [apply compatibility_range|]. split.
  - intros H0. rewrite compatibility_score_eq, H0.
    assert (Hz : py_min (nat_div 0 5) 1 == 0) by (vm_compute; reflexivity).
    rewrite Hz. lra.
  - unfold _verify_cursor_ai_compatibility. cbv zeta.
    set (p := py_min _ 1).
    set (s := _assess_prompt_structure prompt).
    set (a := _assess_actionable_instructions prompt).
    destruct (Nat.ltb_spec 0 (count_found problematic_patterns prompt))
      as [Hb|Hb]; cbn [score suggestions].
    + split; [intros _; exact Hb|]. intros _.
      destruct (Qltb p 0.7), (Qltb s 0.8), (Qltb a 0.8);
        rewrite ?elem_of_app, ?elem_of_cons; tauto.
    + split; [|lia]. intros Hin. exfalso.
      destruct (Qltb p 0.7), (Qltb s 0.8), (Qltb a 0.8);
        rewrite ?elem_of_app, ?elem_of_cons, ?elem_of_nil in Hin;
        repeat (destruct Hin as [Hin|Hin]; try discriminate Hin);
        try contradiction.
Qed.

(** The clarity metric takes one of eight values between 0.684 and 0.9,
    so it is never below the 0.5 bar of a critical issue. *)
Theorem clarity_is_never_critical :
  forall prompt : string,
    let qa := _assess_clarity prompt in
    0.684 <= score qa <= 0.9
    /\ metric qa = CLARITY
    /\ _identify_critical_issues [qa] = [].
Proof.
  intros prompt. cbv zeta.
  destruct (clarity_range prompt) as [[Hlo Hhi] Hm].
  split; [split; assumption|]. split; [exact Hm|].
  unfold _identify_critical_issues.
  assert (Hf : Qltb (score (_assess_clarity prompt)) 0.5 = false).
  { unfold Qltb. apply negb_false_iff, Qle_bool_iff. lra. }
  rewrite filter_cons, filter_nil.
  destruct (decide _) as [Ht|_]; [|reflexivity].
  rewrite Hf in Ht. contradiction.
Qed.

(** The specificity metric is 0.5 t + 0.3 g + 0.2 e for three capped
    shares; it lies in [0, 1] and is 1 exactly with twenty technical
    details, all six implementation words and three examples. *)
Theorem specificity_range :
  forall prompt : string,
    let qa := _assess_specificity prompt in
    0 <= score qa <= 1
    /\ score qa
       == 0.5 * py_min (nat_div (technical_details prompt) 20) 1
          + 0.3 * py_min (nat_div
                            (count_contained implementation_keywords prompt)
                            6) 1
          + 0.2 * py_min (nat_div (Re.findall_count example_re prompt) 3) 1
    /\ (score qa == 1
        <-> (20 <= technical_details prompt
             /\ count_contained implementation_keywords prompt = 6
             /\ 3 <= Re.findall_count example_re prompt)%nat).
Proof.
  intros prompt. cbv zeta.
  split; [apply specificity_score_range|].
  split; [apply specificity_score_eq|].
  rewrite specificity_score_eq.
  pose proof (capped_ratio_range (technical_details prompt) 20) as [Ht0 Ht1].
  pose proof (capped_ratio_range
                (count_contained implementation_keywords prompt) 6)
    as [Hg0 Hg1].
  pose proof (capped_ratio_range (Re.findall_count example_re prompt) 3)
    as [He0 He1].
  pose proof (count_contained_le implementation_keywords prompt) as Hle.
  change (length implementation_keywords) with 6%nat in Hle.
  assert (Htc : py_min (nat_div (technical_details prompt) 20) 1 == 1
                <-> (20 <= technical_details prompt)%nat).
  { rewrite py_min_cap.
    rewrite (nat_div_ge (technical_details prompt) 20 1 1) by lia. lia. }
  assert (Hgc : py_min (nat_div
                          (count_contained implementation_keywords prompt)
                          6) 1 == 1
                <-> count_contained implementation_keywords prompt = 6%nat).
  { rewrite py_min_cap.
    rewrite (nat_div_ge _ 6 1 1) by lia. lia. }
  assert (Hec : py_min (nat_div (Re.findall_count example_re prompt) 3) 1
                == 1
                <-> (3 <= Re.findall_count example_re prompt)%nat).
  { rewrite py_min_cap.
    rewrite (nat_div_ge _ 3 1 1) by lia. lia. }
  rewrite <- Htc, <- Hgc, <- Hec. split.
  - intros Hs. repeat split; lra.
  - intros (H1 & H2 & H3). lra.
Qed.

End MetricsMore.

Lemma prompt_structure_full_marks_witness :
  (_assess_prompt_structure structured_prompt == 1)%Q.
Proof.
  apply (proj2 (prompt_structure_full_marks structured_prompt)).
  vm_compute. repeat split; repeat constructor.
Defined.

Lemma actionable_instructions_full_marks_witness :
  (_assess_actionable_instructions actionable_prompt == 1)%Q.
Proof.
  apply (proj2 (actionable_instructions_full_marks actionable_prompt)).
  vm_compute. repeat split; repeat constructor.
Defined.

Lemma compatibility_penalty_scales_practice_only_witness :
  (score (_verify_cursor_ai_compatibility vague_prompt)
   == 0.3 * _assess_prompt_structure vague_prompt
      + 0.3 * _assess_actionable_instructions vague_prompt)%Q
  /\ "Remove vague or problematic instruction patterns"
       ∈ suggestions (_verify_cursor_ai_compatibility vague_prompt).
Proof.
  destruct (compatibility_penalty_scales_practice_only vague_prompt)
    as (_ & _ & Hzero & Hadvice).
  split.
  - apply Hzero. vm_compute. reflexivity.
  - apply Hadvice. vm_compute. repeat constructor.
Defined.

Lemma specificity_range_witness :
  (score (_assess_specificity specific_prompt) == 1)%Q.
Proof.
  apply (proj2 (proj2 (specificity_range specific_prompt))).
  vm_compute. repeat split; repeat constructor.
Defined.

(** ** Aggregation of the assessments *)

Section Aggregation.

Local Open Scope Q_scope.

Lemma metric_weight_pos (m : QualityMetric) : 0 < metric_weight m.
Proof. destruct m; reflexivity. Qed.

Lemma overall_fold_bounds (lo hi : Q) (l : list QualityAssessment) :
  (forall a, In a l -> lo <= score a <= hi) ->
  forall ts tw,
    lo * tw <= ts <= hi * tw -> 0 <= tw ->
    let '(ts', tw') :=
      fold_left
        (fun '(ts, tw) assessment =>
           let w := metric_weight (metric assessment) in
           (ts + score assessment * w, tw + w))
        l (ts, tw) in
    lo * tw' <= ts' <= hi * tw' /\ tw <= tw'
    /\ (l <> [] -> tw < tw').
Proof.
  induction l as [|a l IH]; intros Hall ts tw Hts Htw; cbn [fold_left].
  - split; [exact Hts|]. split; [apply Qle_refl | congruence].
  - pose proof (metric_weight_pos (metric a)) as Hw.
    destruct (Hall a (or_introl eq_refl)) as [Hlo Hhi].
    specialize (IH (fun x Hx => Hall x (or_intror Hx))
                   (ts + score a * metric_weight (metric a))
                   (tw + metric_weight (metric a))).
    destruct (fold_left _ l _) as [ts' tw'].
    destruct IH as (Hb & Hm & _); [split; nra | lra |].
    split; [exact Hb|]. split; [lra|]. intros _. lra.
Qed.

Lemma overall_six (c t k cl s a : QualityAssessment) :
  metric c = COMPLETENESS -> metric t = TECHNICAL_ACCURACY ->
  metric k = CURSOR_AI_COMPATIBILITY -> metric cl = CLARITY ->
  metric s = SPECIFICITY -> metric a = ACTIONABILITY ->
  _calculate_overall_score [c; t; k; cl; s; a]
  == 0.25 * score c + 0.25 * score t + 0.20 * score k
     + 0.10 * score cl + 0.10 * score s + 0.10 * score a.
Proof.
  intros Hc Ht Hk Hcl Hs Ha.
  unfold _calculate_overall_score. cbn [fold_left].
  rewrite Hc, Ht, Hk, Hcl, Hs, Ha. cbn [metric_weight].
  assert (Hw : 0 + 0.25 + 0.25 + 0.20 + 0.10 + 0.10 + 0.10 == 1)
    by reflexivity.
  assert (Hg : Qgtb (0 + 0.25 + 0.25 + 0.20 + 0.10 + 0.10 + 0.10) 0 = true)
    by reflexivity.
  rewrite Hg, Hw. field.
Qed.

(** The overall score is the weighted mean of the assessments: it lies
    between any two bounds that hold for every score (so in [0, 1] when
    the scores do), is 0 for no assessment, and for the six metrics in
    their order is 0.25 c + 0.25 t + 0.20 k + 0.10 l + 0.10 s + 0.10 a. *)
Theorem overall_score_is_weighted_mean :
  _calculate_overall_score [] = 0
  /\ (forall (lo hi : Q) (l : list QualityAssessment),
        l <> [] ->
        (forall a, In a l -> lo <= score a <= hi) ->
        lo <= _calculate_overall_score l <= hi)
  /\ (forall c t k cl s a : QualityAssessment,
        metric c = COMPLETENESS -> metric t = TECHNICAL_ACCURACY ->
        metric k = CURSOR_AI_COMPATIBILITY -> metric cl = CLARITY ->
        metric s = SPECIFICITY -> metric a = ACTIONABILITY ->
        _calculate_overall_score [c; t; k; cl; s; a]
        == 0.25 * score c + 0.25 * score t + 0.20 * score k
           + 0.10 * score cl + 0.10 * score s + 0.10 * score a).
Proof.
  split; [reflexivity|]. split; [|apply overall_six].
  intros lo hi l Hne Hall. unfold _calculate_overall_score.
  destruct l as [|a0 l0]; [congruence|].
  pose proof (overall_fold_bounds lo hi (a0 :: l0) Hall 0 0
                ltac:(split; lra) ltac:(lra)) as H.
  destruct (fold_left _ (a0 :: l0) (0, 0)) as [ts tw].
  destruct H as ([Hlo Hhi] & _ & Hpos). specialize (Hpos Hne).
  assert (Hg : Qgtb tw 0 = true).
  { unfold Qgtb. apply negb_true_iff.
    destruct (Qle_bool tw 0) eqn:E; [|reflexivity].
    apply Qle_bool_iff in E. lra. }
  rewrite Hg. split.
  - apply Qle_shift_div_l; [exact Hpos | exact Hlo].
  - apply Qle_shift_div_r; [exact Hpos | exact Hhi].
Qed.

Lemma existsb_eqb_In (s : string) (seen : list string) :
  existsb (String.eqb s) seen = true <-> In s seen.
Proof.
  rewrite existsb_exists. split.
  - intros (x & Hx & Heq). apply String.eqb_eq in Heq. by subst.
  - intros H. exists s. split; [exact H | apply String.eqb_refl].
Qed.

Lemma unique_spec (l : list string) :
  forall seen,
    NoDup (unique seen l)
    /\ (forall x, x ∈ unique seen l <-> x ∈ l /\ ~ In x seen)
    /\ sublist (unique seen l) l.
Proof.
  induction l as [|s l IH]; intros seen; cbn [unique].
  - split; [constructor|]. split; [|constructor].
    intros x. rewrite elem_of_nil. tauto.
  - destruct (existsb (String.eqb s) seen) eqn:E.
    + apply existsb_eqb_In in E.
      destruct (IH seen) as (Hnd & Hin & Hsub).
      split; [exact Hnd|]. split; [|by apply sublist_cons].
      intros x. rewrite Hin, elem_of_cons. split; [tauto|].
      intros [[->|Hx] Hn]; [contradiction | tauto].
    + assert (Hns : ~ In s seen).
      { intros H. apply existsb_eqb_In in H. congruence. }
      destruct (IH (s :: seen)) as (Hnd & Hin & Hsub).
      split; [|split; [|by apply sublist_skip]].
      * apply NoDup_cons. split; [|exact Hnd].
        rewrite Hin. intros [_ Hn]. apply Hn. by left.
      * intros x. rewrite !elem_of_cons, Hin. cbn [In]. split.
        -- intros [->|[Hx Hn]]; [tauto|]. split; [tauto|]. tauto.
        -- intros [[->|Hx] Hn]; [tauto|].
           destruct (decide (x = s)) as [->|Hne]; [tauto|].
           right. split; [exact Hx|]. intros [Heq|Hs]; [congruence | tauto].
Qed.

Lemma unique_not_seen (l : list string) :
  forall seen x, x ∈ unique seen l -> ~ In x seen.
Proof.
  induction l as [|s l IH]; intros seen x; cbn [unique].
  - intros H. by apply elem_of_nil in H.
  - destruct (existsb (String.eqb s) seen) eqn:E.
    + apply IH.
    + intros [->|Hx]%elem_of_cons.
      * intros H. apply existsb_eqb_In in H. congruence.
      * intros H. apply (IH _ _ Hx). by right.
Qed.

(** the order of [unique seen l] is the order of the first occurrences
    in [l] *)
Lemma unique_order (l : list string) :
  forall seen (i j : nat) (x y : string),
    unique seen l !! i = Some x -> unique seen l !! j = Some y ->
    (i < j)%nat ->
    exists i', l !! i' = Some x
               /\ forall k, l !! k = Some y -> (i' < k)%nat.
Proof.
  induction l as [|s l IH]; intros seen i j x y; cbn [unique].
  - intros H. by rewrite lookup_nil in H.
  - destruct (existsb (String.eqb s) seen) eqn:E.
    + intros Hi Hj Hlt.
      destruct (IH seen i j x y Hi Hj Hlt) as (i' & Hx & Hfirst).
      exists (S i'). split; [exact Hx|].
      intros [|k] Hk.
      * exfalso. cbn in Hk. injection Hk as ->.
        apply (unique_not_seen l seen y).
        -- by eapply list_elem_of_lookup_2.
        -- by apply existsb_eqb_In.
      * apply Hfirst in Hk. lia.
    + intros Hi Hj Hlt. destruct j as [|j]; [lia|]. cbn in Hj.
      assert (Hy : y <> s).
      { intros ->. apply (unique_not_seen l (s :: seen) s).
        - by eapply list_elem_of_lookup_2.
        - by left. }
      destruct i as [|i].
      * cbn in Hi. injection Hi as ->. exists 0%nat.
        split; [reflexivity|]. intros [|k] Hk; [|lia].
        cbn in Hk. congruence.
      * cbn in Hi.
        destruct (IH (s :: seen) i j x y Hi Hj ltac:(lia))
          as (i' & Hx & Hfirst).
        exists (S i'). split; [exact Hx|].
        intros [|k] Hk; [cbn in Hk; congruence|].
        apply Hfirst in Hk. lia.
Qed.

(** The improvement suggestions are the suggestions of all assessments
    without repetitions, in the order of their first occurrences: a
    suggestion that stands before another in the result occurs in the
    concatenated suggestions before every occurrence of the other. *)
Theorem improvement_suggestions_are_deduplicated :
  forall l : list QualityAssessment,
    let all_suggestions := flat_map suggestions l in
    let r := _generate_improvement_suggestions l in
    NoDup r
    /\ (forall x, x ∈ r <-> exists a, a ∈ l /\ x ∈ suggestions a)
    /\ sublist r all_suggestions
    /\ (forall (i j : nat) (x y : string),
          r !! i = Some x -> r !! j = Some y -> (i < j)%nat ->
          exists i',
            all_suggestions !! i' = Some x
            /\ forall k, all_suggestions !! k = Some y -> (i' < k)%nat).
Proof.
  intros l. cbv zeta. unfold _generate_improvement_suggestions.
  destruct (unique_spec (flat_map suggestions l) []) as (Hnd & Hin & Hsub).
  split; [exact Hnd|]. split; [|split; [exact Hsub | apply unique_order]].
  intros x. rewrite Hin. cbn [In]. rewrite list_elem_of_In, in_flat_map.
  split.
  - intros [(a & Ha & Hx) _]. exists a.
    split; by apply list_elem_of_In.
  - intros (a & Ha & Hx). split; [|tauto]. exists a.
    split; by apply list_elem_of_In.
Qed.

(** A reference section counts as addressed exactly when at least two of
    its keywords occur in the prompt and they are at least 30% of its
    keywords: both conditions are required, so a section with fewer than
    two keywords of more than three characters is never addressed. *)
Theorem section_addressed_needs_two_keywords :
  forall prompt section_title section_content : string,
    let n := length (section_keywords section_title section_content) in
    let m := keyword_matches prompt section_title section_content in
    (_prompt_addresses_section prompt section_title section_content = true
     <-> (2 <= m /\ 3 * n <= 10 * m)%nat)
    /\ ((n < 2)%nat ->
        _prompt_addresses_section prompt section_title section_content
        = false).
Proof.
  intros prompt section_title section_content. cbv zeta.
  assert (Hiff : _prompt_addresses_section prompt section_title
                   section_content = true
                 <-> (2 <= keyword_matches prompt section_title section_content
                      /\ 3 * length (section_keywords section_title
                                       section_content)
                         <= 10 * keyword_matches prompt section_title
                                   section_content)%nat).
  { unfold _prompt_addresses_section. cbv zeta.
    fold (section_keywords section_title section_content).
    fold (keyword_matches prompt section_title section_content).
    set (n := length (section_keywords section_title section_content)).
    set (m := keyword_matches prompt section_title section_content).
    rewrite Qgeb_true. unfold py_max, Qgtb.
    assert (Hn : inject_Z (Z.of_nat n) * 0.3 <= 2 <-> (3 * n <= 20)%nat).
    { unfold Qle, Qmult. simpl. lia. }
    assert (Hm2 : 2 <= inject_Z (Z.of_nat m) <-> (2 <= m)%nat).
    { unfold Qle. simpl. lia. }
    assert (Hm3 : inject_Z (Z.of_nat n) * 0.3 <= inject_Z (Z.of_nat m)
                  <-> (3 * n <= 10 * m)%nat).
    { unfold Qle, Qmult. simpl. lia. }
    destruct (Qle_bool (inject_Z (Z.of_nat n) * 0.3) 2) eqn:E; cbn [negb].
    - apply Qle_bool_iff in E. rewrite Hm2. rewrite Hn in E. lia.
    - assert (Hgt : ~ inject_Z (Z.of_nat n) * 0.3 <= 2).
      { intros H. apply Qle_bool_iff in H. congruence. }
      rewrite Hm3. rewrite Hn in Hgt. lia. }
  split; [exact Hiff|].
  intros Hn.
  apply not_true_is_false. intros E. apply Hiff in E.
  assert (Hle : (keyword_matches prompt section_title section_content
                 <= length (section_keywords section_title section_content))%nat)
    by apply length_filter.
  lia.
Qed.

End Aggregation.

Lemma overall_score_is_weighted_mean_witness :
  (0 <= _calculate_overall_score [sample_assessment CLARITY 0.8 []] <= 1)%Q.
Proof.
  apply (proj1 (proj2 overall_score_is_weighted_mean)).
  - discriminate.
  - intros a [<-|[]]. split; vm_compute; discriminate.
Defined.

Lemma improvement_suggestions_are_deduplicated_witness :
  "shorten" ∈ _generate_improvement_suggestions
                [sample_assessment CLARITY 0.4 ["shorten"; "add headings"];
                 sample_assessment SPECIFICITY 0.3 ["shorten"]].
Proof.
  apply (proj1 (proj2 (improvement_suggestions_are_deduplicated _))).
  eexists. split; [apply list_elem_of_here|]. apply list_elem_of_here.
Defined.

Lemma section_addressed_needs_two_keywords_witness :
  _prompt_addresses_section "the Xn handover procedure" "Handover" "via Xn"
  = false.
Proof.
  apply (proj2 (section_addressed_needs_two_keywords
                  "the Xn handover procedure" "Handover" "via Xn")).
  vm_compute. lia.
Defined.

(** ** [validate_prompt] as a whole *)

Section ValidateMore.

Local Open Scope Q_scope.

Variable _confirm_technical_accuracy :
  string -> dld_context -> result QualityAssessment.
Variables _compatibility _clarity _specificity
  _assess_actionability : string -> result QualityAssessment.

Lemma completeness_score_range (prompt : string) (ctx : dld_context)
  (l : list dld_section) :
  ctx_sections ctx = Some l -> l <> [] ->
  exists c,
    _verify_prompt_completeness prompt ctx = Ok c
    /\ metric c = COMPLETENESS /\ 0 <= score c <= 1.
Proof.
  intros Hctx Hne.
  destruct (completeness_unfold prompt ctx l Hctx Hne)
    as (qa & dc & Hqa & _ & [Hd0 Hd1] & Hm & Hs).
  exists qa. split; [exact Hqa|]. split; [exact Hm|]. rewrite Hs.
  split; [|apply py_min_le_r].
  apply py_min_ge; [|discriminate].
  pose proof (marker_score_bounds prompt) as [Hm0 _].
  pose proof (nat_ratio_nonneg (covered_sections prompt l) (length l)) as Hr.
  nra.
Qed.

(** The threshold decides [is_valid] and nothing else: two calls that
    differ only in the threshold agree on the success flag, the error
    text, the score, the detailed scores, the recommendations, the
    assessments and the critical issues; and a result that is valid for a
    threshold is valid for every lower one. *)
Theorem threshold_only_affects_is_valid :
  forall (prompt : string) (ctx : dld_context) (th1 th2 : Q),
    let r1 := validate_prompt _confirm_technical_accuracy _compatibility
                _clarity _specificity _assess_actionability prompt ctx th1 in
    let r2 := validate_prompt _confirm_technical_accuracy _compatibility
                _clarity _specificity _assess_actionability prompt ctx th2 in
    success r1 = success r2
    /\ error r1 = error r2
    /\ quality_score r1 = quality_score r2
    /\ detailed_scores r1 = detailed_scores r2
    /\ recommendations r1 = recommendations r2
    /\ match validation_result r1, validation_result r2 with
       | Some v1, Some v2 =>
           overall_score v1 = overall_score v2
           /\ assessments v1 = assessments v2
           /\ critical_issues v1 = critical_issues v2
           /\ improvement_suggestions v1 = improvement_suggestions v2
           /\ (th2 <= th1 -> is_valid v1 = true -> is_valid v2 = true)
       | None, None => True
       | _, _ => False
       end.
Proof.
  intros prompt ctx th1 th2. cbv zeta. unfold validate_prompt.
  destruct (all_assessments _ _ _ _ _ prompt ctx) as [l|e];
    cbn [success error quality_score detailed_scores recommendations
         validation_result overall_score assessments critical_issues
         improvement_suggestions is_valid];
    repeat split.
  intros Hle Hv. apply Qgeb_true. apply Qgeb_true in Hv. lra.
Qed.

(** With the agent's own compatibility, clarity and specificity metrics, a
    reference context that has a section, and technical-accuracy and
    actionability assessments that carry their metric and a score in
    [0, 1], [validate_prompt] succeeds with six assessments and a score
    strictly between 0 and 1: the score 0 is reported only by a failure,
    and a threshold of 1 is never met. *)
Theorem validate_prompt_with_own_metrics :
  forall (prompt : string) (ctx : dld_context) (l : list dld_section)
         (quality_threshold : Q) (t a : QualityAssessment),
    ctx_sections ctx = Some l -> l <> [] ->
    _confirm_technical_accuracy prompt ctx = Ok t ->
    metric t = TECHNICAL_ACCURACY -> 0 <= score t <= 1 ->
    _assess_actionability prompt = Ok a ->
    metric a = ACTIONABILITY -> 0 <= score a <= 1 ->
    let r := validate_prompt_with _confirm_technical_accuracy
               _assess_actionability prompt ctx quality_threshold in
    success r = true
    /\ error r = None
    /\ 0 < quality_score r < 1
    /\ exists vr c,
         validation_result r = Some vr
         /\ _verify_prompt_completeness prompt ctx = Ok c
         /\ assessments vr
            = [c; t; _verify_cursor_ai_compatibility prompt;
               _assess_clarity prompt; _assess_specificity prompt; a]
         /\ overall_score vr = quality_score r
         /\ (1 <= quality_threshold -> is_valid vr = false).
Proof.
  intros prompt ctx l quality_threshold t a Hctx Hne Ht Hmt Hst Ha Hma Hsa.
  cbv zeta.
  destruct (completeness_score_range prompt ctx l Hctx Hne)
    as (c & Hc & Hmc & Hsc).
  unfold validate_prompt_with, validate_prompt, all_assessments.
  rewrite Hc, Ht, Ha. cbn [bind].
  cbn [success error quality_score validation_result].
  pose proof (compatibility_range prompt) as Hk.
  pose proof (clarity_range prompt) as [Hcl Hmcl].
  pose proof (specificity_score_range prompt) as Hs.
  assert (Hmk : metric (_verify_cursor_ai_compatibility prompt)
                = CURSOR_AI_COMPATIBILITY).
  { unfold _verify_cursor_ai_compatibility. cbv zeta.
    by destruct (0 <? count_found problematic_patterns prompt)%nat. }
  assert (Hms : metric (_assess_specificity prompt) = SPECIFICITY)
    by reflexivity.
  pose proof (overall_six c t (_verify_cursor_ai_compatibility prompt)
                (_assess_clarity prompt) (_assess_specificity prompt) a
                Hmc Hmt Hmk Hmcl Hms Hma) as Hov.
  set (ov := _calculate_overall_score _) in *.
  assert (Hrange : 0 < ov < 1) by (rewrite Hov; split; lra).
  split; [reflexivity|]. split; [reflexivity|]. split; [exact Hrange|].
  eexists _, c. split; [reflexivity|]. split; [reflexivity|].
  cbn [assessments overall_score is_valid].
  split; [reflexivity|]. split; [reflexivity|].
  intros Hth. apply not_true_is_false. intros Hv.
  apply Qgeb_true in Hv. lra.
Qed.

(** ** [_assess_domain_coverage] *)

Lemma fold_count_shift (prompt : string) (patterns : list Re.regex) :
  forall n : nat,
    fold_left (fun n pattern => (n + Re.findall_count pattern prompt)%nat)
              patterns n
    = (n + found_count prompt patterns)%nat.
Proof.
  unfold found_count.
  induction patterns as [|p ps IH]; intros n; cbn [fold_left].
  - lia.
  - rewrite IH, (IH (0 + _)%nat). lia.
Qed.

Lemma category_score_eq (prompt : string) (patterns : list Re.regex) :
  patterns <> [] ->
  category_score prompt patterns
  = Ok (py_min (nat_div (found_count prompt patterns)
                        (length patterns * 2)) 1).
Proof.
  intros Hne. unfold category_score, py_div. cbv zeta.
  destruct (Qeq_bool (inject_Z (Z.of_nat (length patterns * 2))) 0) eqn:E.
  - apply Qeq_bool_iff in E. unfold Qeq in E. simpl in E.
    destruct patterns; [congruence | simpl in E; lia].
  - reflexivity.
Qed.

Lemma technical_details_eq (prompt : string) :
  technical_details prompt
  = fold_left (fun n '(_, pattern_list) =>
                 (n + found_count prompt pattern_list)%nat)
              domain_patterns O.
Proof.
  unfold technical_details. generalize O.
  induction domain_patterns as [|[category pattern_list] d IH]; intros n;
    cbn [fold_left]; [reflexivity|].
  rewrite fold_count_shift. apply IH.
Qed.

(** [_assess_domain_coverage] never raises; its value is
    0.4 k + 0.3 p + 0.3 u for the capped shares of the three pattern
    classes (38, 8 and 10 matches give the full share), lies in [0, 1],
    and is 0 exactly when the prompt has none of the technical details
    that the specificity metric counts. *)
Theorem domain_coverage_zero_iff_no_details :
  forall prompt : string,
    exists dc k p u,
      _assess_domain_coverage prompt = Ok dc
      /\ PyDict.get "5g_keywords" domain_patterns = Some k
      /\ PyDict.get "protocol_patterns" domain_patterns = Some p
      /\ PyDict.get "technical_units" domain_patterns = Some u
      /\ dc == 0.4 * py_min (nat_div (found_count prompt k) 38) 1
               + 0.3 * py_min (nat_div (found_count prompt p) 8) 1
               + 0.3 * py_min (nat_div (found_count prompt u) 10) 1
      /\ technical_details prompt
         = (found_count prompt k + found_count prompt p
            + found_count prompt u)%nat
      /\ 0 <= dc <= 1
      /\ (dc == 0 <-> technical_details prompt = 0%nat).
Proof.
  intros prompt. rewrite technical_details_eq.
  unfold _assess_domain_coverage, domain_patterns.
  cbn [domain_coverage_loop fold_left].
  rewrite !category_score_eq by discriminate.
  cbn [bind PyDict.item PyDict.get domain_weights String.eqb Ascii.eqb
       Bool.eqb domain_coverage_loop length map Nat.mul Nat.add].
  match goal with
  | |- context [Ok (0 + py_min (nat_div (found_count prompt ?k) _) 1 * _
                    + py_min (nat_div (found_count prompt ?p) _) 1 * _
                    + py_min (nat_div (found_count prompt ?u) _) 1 * _)] =>
      set (ks := k); set (ps := p); set (us := u)
  end.
  pose proof (capped_ratio_range (found_count prompt ks) 38) as [Hk0 Hk1].
  pose proof (capped_ratio_range (found_count prompt ps) 8) as [Hp0 Hp1].
  pose proof (capped_ratio_range (found_count prompt us) 10) as [Hu0 Hu1].
  pose proof (capped_ratio_zero (found_count prompt ks) 38 ltac:(lia)) as Hkz.
  pose proof (capped_ratio_zero (found_count prompt ps) 8 ltac:(lia)) as Hpz.
  pose proof (capped_ratio_zero (found_count prompt us) 10 ltac:(lia)) as Huz.
  eexists _, ks, ps, us. split; [reflexivity|].
  split; [reflexivity|]. split; [reflexivity|]. split; [reflexivity|].
  split; [lra|]. split; [lia|]. split; [split; lra|].
  split.
  - intros Hz.
    assert (H1 : py_min (nat_div (found_count prompt ks) 38) 1 == 0) by lra.
    assert (H2 : py_min (nat_div (found_count prompt ps) 8) 1 == 0) by lra.
    assert (H3 : py_min (nat_div (found_count prompt us) 10) 1 == 0) by lra.
    apply Hkz in H1. apply Hpz in H2. apply Huz in H3. lia.
  - intros Hz.
    assert (H1 : found_count prompt ks = 0%nat) by lia.
    assert (H2 : found_count prompt ps = 0%nat) by lia.
    assert (H3 : found_count prompt us = 0%nat) by lia.
    apply Hkz in H1. apply Hpz in H2. apply Huz in H3. lra.
Qed.

End ValidateMore.

Lemma threshold_only_affects_is_valid_witness :
  quality_score
    (validate_prompt sample_accuracy (fixed CURSOR_AI_COMPATIBILITY)
       (fixed CLARITY) (fixed SPECIFICITY) sample_actionability
       four_markers_prompt {| ctx_sections := Some [unaddressed_section] |}
       0.9)
  = quality_score
      (validate_prompt sample_accuracy (fixed CURSOR_AI_COMPATIBILITY)
         (fixed CLARITY) (fixed SPECIFICITY) sample_actionability
         four_markers_prompt {| ctx_sections := Some [unaddressed_section] |}
         0.5).
Proof.
  exact (proj1 (proj2 (proj2
    (threshold_only_affects_is_valid sample_accuracy
       (fixed CURSOR_AI_COMPATIBILITY) (fixed CLARITY) (fixed SPECIFICITY)
       sample_actionability four_markers_prompt
       {| ctx_sections := Some [unaddressed_section] |} 0.9 0.5)))).
Defined.

Lemma validate_prompt_with_own_metrics_witness :
  success
    (validate_prompt_with sample_accuracy sample_actionability
       structured_prompt {| ctx_sections := Some [unaddressed_section] |}
       0.8)
  = true.
Proof.
  apply (proj1 (validate_prompt_with_own_metrics sample_accuracy
                  sample_actionability structured_prompt
                  {| ctx_sections := Some [unaddressed_section] |}
                  [unaddressed_section] 0.8
                  (sample_assessment TECHNICAL_ACCURACY 0.9 [])
                  (sample_assessment ACTIONABILITY 0.7 [])
                  eq_refl ltac:(discriminate) eq_refl eq_refl
                  ltac:(split; vm_compute; discriminate)
                  eq_refl eq_refl
                  ltac:(split; vm_compute; discriminate))).
Defined.

Lemma domain_coverage_zero_iff_no_details_witness :
  exists dc,
    _assess_domain_coverage "plain words only" = Ok dc /\ (dc == 0)%Q.
Proof.
  destruct (domain_coverage_zero_iff_no_details "plain words only")
    as (dc & k & p & u & Hdc & _ & _ & _ & _ & _ & _ & Hzero).
  exists dc. split; [exact Hdc|]. apply Hzero. vm_compute. reflexivity.
Defined.
